(** * Verification of the Pterodactyl panel client (utils/api.py)

    A shallow embedding of [PteroAPI] and of the parts of the command cogs
    that call it.  Python values decoded from JSON are an inductive type,
    every client method is a function in a small exception-and-trace monad,
    and the panel is an oracle that answers each request knowing the
    requests issued before it. *)

From Stdlib Require Import String Ascii List ZArith NArith Lia Bool.
From Stdlib Require Import Decimal DecimalString DecimalPos DecimalZ.
From Stdlib Require Import Floats.SpecFloat.
From Stdlib Require Import Init.Byte.
Import ListNotations.

Local Open Scope string_scope.
Local Open Scope list_scope.
Local Open Scope Z_scope.

(** ** Python strings

    A [str] is a sequence of characters; each [ascii] stands for one character
    with code point below 256, so [len] and slicing count characters. *)

Infix "+++" := String.append (right associativity, at level 60).

(** [str(n)] for an [int]. *)
Definition str_of_int (n : Z) : string :=
  NilZero.string_of_int (Z.to_int n).

(** [s[:n]] for a non-negative [n]. *)
Fixpoint str_take (n : nat) (s : string) : string :=
  match n, s with
  | O, _ => EmptyString
  | S _, EmptyString => EmptyString
  | S n', String c s' => String c (str_take n' s')
  end.

(** [c.lower()] on one character: the letters A-Z and the Latin-1 capitals
    U+00C0..U+00DE (without the multiplication sign U+00D7) move up by 32. *)
Definition lower_char (c : ascii) : ascii :=
  let n := N_of_ascii c in
  if ((65 <=? n) && (n <=? 90))%N
     || ((192 <=? n) && (n <=? 222) && negb (n =? 215))%N
  then ascii_of_N (n + 32)
  else c.

(** [s.lower()]. *)
Fixpoint str_lower (s : string) : string :=
  match s with
  | EmptyString => EmptyString
  | String c s' => String (lower_char c) (str_lower s')
  end.

(** [x in s] for two strings: [x] occurs in [s] as a substring. *)
Fixpoint str_in (x s : string) : bool :=
  String.prefix x s
  || match s with
     | EmptyString => false
     | String _ s' => str_in x s'
     end.

(** [s.rstrip(c)] for a single character [c]. *)
Fixpoint str_rstrip (c : ascii) (s : string) : string :=
  match s with
  | EmptyString => EmptyString
  | String a s' =>
      match str_rstrip c s' with
      | EmptyString => if Ascii.eqb a c then EmptyString else String a EmptyString
      | r => String a r
      end
  end.

(** ** Decoded JSON values

    What [json.loads] builds: [None], [bool], [int], [float], [str], [list]
    and [dict].  A [dict] is kept as its items in insertion order; the keys
    of a decoded object are pairwise distinct. *)

#[warnings="-register-all"]
Inductive json : Type :=
| JNull
| JBool (b : bool)
| JInt (n : Z)
| JFloat (f : spec_float)
| JStr (s : string)
| JList (l : list json)
| JDict (kv : list (string * json)).

Fixpoint dict_lookup (k : string) (kv : list (string * json)) : option json :=
  match kv with
  | [] => None
  | (k', v) :: kv' => if String.eqb k k' then Some v else dict_lookup k kv'
  end.

(** Truth value of a Python object, as in [if not x]. *)
Definition truthy (v : json) : bool :=
  match v with
  | JNull => false
  | JBool b => b
  | JInt n => negb (n =? 0)
  | JFloat (S754_zero _) => false
  | JFloat _ => true
  | JStr s => negb (String.eqb s "")
  | JList l => match l with [] => false | _ => true end
  | JDict kv => match kv with [] => false | _ => true end
  end.

(** [f == k] for a float and an int compares the exact values. *)
Definition float_eq_int (f : spec_float) (k : Z) : bool :=
  match f with
  | S754_zero _ => k =? 0
  | S754_finite s m e =>
      let v := if s then Z.neg m else Z.pos m in
      if 0 <=? e then v * 2 ^ e =? k else v =? k * 2 ^ (- e)
  | _ => false
  end.

(** [v == k] for a decoded value and an [int]. *)
Definition py_eq_int (v : json) (k : Z) : bool :=
  match v with
  | JInt n => n =? k
  | JBool b => (if b then 1 else 0) =? k
  | JFloat f => float_eq_int f k
  | _ => false
  end.

(** [v == s] for a decoded value and a [str]. *)
Definition py_eq_str (v : json) (s : string) : bool :=
  match v with
  | JStr s' => String.eqb s' s
  | _ => false
  end.

(** ** Exceptions and results *)

Inductive exn : Type :=
| PteroError (msg : string)   (* utils.api.PteroError *)
| AttributeError              (* a method looked up on an object that lacks it *)
| TypeError                   (* iterating a value that is not iterable *)
| ClientError                 (* the request itself failed (aiohttp) *)
| DecodeError.                (* [r.json()] or [r.text()] on a body that
                                 does not decode *)

Inductive result (A : Type) : Type :=
| Ok (a : A)
| Raise (e : exn).

Arguments Ok {A} a.
Arguments Raise {A} e.

(** [v.get(k, default)]: only a [dict] has [get]. *)
Definition py_get (v : json) (k : string) (default : json) : result json :=
  match v with
  | JDict kv =>
      Ok (match dict_lookup k kv with Some x => x | None => default end)
  | _ => Raise AttributeError
  end.

(** The items a [for] loop visits: the elements of a list, the keys of a
    dict, the characters of a string; other values are not iterable. *)
Definition py_iter (v : json) : result (list json) :=
  match v with
  | JList l => Ok l
  | JDict kv => Ok (map (fun p => JStr (fst p)) kv)
  | JStr s => Ok (map (fun c => JStr (String c EmptyString)) (list_ascii_of_string s))
  | _ => Raise TypeError
  end.

(** [v.lower()]: only a [str] has [lower]. *)
Definition py_lower (v : json) : result string :=
  match v with
  | JStr s => Ok (str_lower s)
  | _ => Raise AttributeError
  end.

(** ** Requests and responses *)

Inductive method : Type := GET | POST | DELETE | PATCH.

(** The paths of the panel API the client builds, relative to [base_url];
    each constructor is one f-string of utils/api.py. *)
Inductive endpoint : Type :=
| ApiRoot                          (* /api/application *)
| Nodes                            (* /api/application/nodes *)
| Node (node_id : Z)               (* /api/application/nodes/{node_id} *)
| Nests                            (* /api/application/nests *)
| NestEggs (nest_id : json)        (* /api/application/nests/{nest_id}/eggs *)
| Egg (egg_id : Z)                 (* /api/application/eggs/{egg_id} *)
| Users                            (* /api/application/users *)
| UsersByEmail (email : string)    (* /api/application/users?filter[email]={email} *)
| UsersPage (page : Z)             (* /api/application/users?page={page} *)
| User (user_id : Z)               (* /api/application/users/{user_id} *)
| UserResetPassword (user_id : Z)  (* /api/application/users/{user_id}/reset-password *)
| Servers                          (* /api/application/servers *)
| ServersPage (page : Z)           (* /api/application/servers?page={page} *)
| Server (server_id : string)      (* /api/application/servers/{server_id} *)
| ServerSuspend (server_id : string)
| ServerUnsuspend (server_id : string)
| ServerBuild (server_id : string)
| ServerBackups (server_id : string).

Record request : Type := mkRequest {
  req_method : method;
  req_target : endpoint;
  req_json : option json;     (* the [json=] payload *)
  req_headers : bool          (* whether [headers=self.headers] is passed *)
}.

Record response : Type := mkResponse {
  status : Z;                 (* [r.status] *)
  text : option string;       (* [await r.text()], when the body decodes *)
  json_body : option json     (* [await r.json()], when the body decodes *)
}.

Inductive outcome : Type :=
| Refused                     (* the request raised instead of answering *)
| Replied (r : response).

(** ** The client monad: a result, and the requests issued so far *)

Definition trace : Type := list request.

Definition M (A : Type) : Type := trace -> result A * trace.

Definition ret {A} (a : A) : M A := fun tr => (Ok a, tr).

Definition raise {A} (e : exn) : M A := fun tr => (Raise e, tr).

Definition bind {A B} (m : M A) (f : A -> M B) : M B :=
  fun tr =>
    match m tr with
    | (Ok a, tr') => f a tr'
    | (Raise e, tr') => (Raise e, tr')
    end.

Definition lift {A} (r : result A) : M A := fun tr => (r, tr).

(** [try: m  except Exception: h]. *)
Definition try_except {A} (m : M A) (h : exn -> M A) : M A :=
  fun tr =>
    match m tr with
    | (Ok a, tr') => (Ok a, tr')
    | (Raise e, tr') => h e tr'
    end.

Notation "x <- m ;; k" := (bind m (fun x => k))
  (at level 61, m at next level, right associativity).

(** A [for] loop whose body may [return]: [Some v] leaves the function with
    [v], [None] goes on with the next item. *)
Fixpoint for_each {A B} (xs : list A) (body : A -> M (option B)) : M (option B) :=
  match xs with
  | [] => ret None
  | x :: xs' =>
      r <- body x ;;
      match r with
      | Some b => ret (Some b)
      | None => for_each xs' body
      end
  end.

(** [await r.json()] and [await r.text()]. *)
Definition r_json (r : response) : M json :=
  match json_body r with
  | Some j => ret j
  | None => raise DecodeError
  end.

Definition r_text (r : response) : M string :=
  match text r with
  | Some t => ret t
  | None => raise DecodeError
  end.

(** A loop that appends to a list: the body yields what one iteration
    appends, an exception in any iteration aborts the whole loop. *)
Fixpoint collect {A B} (xs : list A) (body : A -> M (list B)) : M (list B) :=
  match xs with
  | [] => ret []
  | x :: xs' =>
      ys <- body x ;;
      zs <- collect xs' body ;;
      ret (ys ++ zs)
  end.

(** ** secrets.token_urlsafe

    [base64.urlsafe_b64encode] over the bytes the system random source
    delivered, with the padding stripped. *)

Definition b64_alphabet : string :=
  "ABCDEFGHIJKLMNOPQRSTUVWXYZabcdefghijklmnopqrstuvwxyz0123456789-_".

Definition b64_char (i : N) : ascii :=
  match String.get (N.to_nat i) b64_alphabet with
  | Some c => c
  | None => "="%char
  end.

Fixpoint urlsafe_b64encode (bs : list byte) : string :=
  match bs with
  | [] => EmptyString
  | [a] =>
      let x := Byte.to_N a in
      String (b64_char (x / 4))
        (String (b64_char ((x mod 4) * 16)) "==")
  | [a; b] =>
      let x := Byte.to_N a in
      let y := Byte.to_N b in
      String (b64_char (x / 4))
        (String (b64_char ((x mod 4) * 16 + y / 16))
           (String (b64_char ((y mod 16) * 4)) "="))
  | a :: b :: c :: rest =>
      let x := Byte.to_N a in
      let y := Byte.to_N b in
      let z := Byte.to_N c in
      String (b64_char (x / 4))
        (String (b64_char ((x mod 4) * 16 + y / 16))
           (String (b64_char ((y mod 16) * 4 + z / 64))
              (String (b64_char (z mod 64)) (urlsafe_b64encode rest))))
  end%N.

(** [secrets.token_urlsafe(nbytes)], given the [nbytes] random bytes [tok]
    that [secrets.token_bytes(nbytes)] returned. *)
Definition token_urlsafe (tok : list byte) : string :=
  str_rstrip "="%char (urlsafe_b64encode tok).

(** [PteroAPI.generate_password(length)]; [tok] is the result of
    [secrets.token_bytes(length)]. *)
Definition generate_password (tok : list byte) (length : nat) : string :=
  str_take length (token_urlsafe tok).

(** The characters of the URL-safe base64 alphabet. *)
Definition is_urlsafe (c : ascii) : bool :=
  let n := N_of_ascii c in
  (((65 <=? n) && (n <=? 90))          (* A-Z *)
   || ((97 <=? n) && (n <=? 122))      (* a-z *)
   || ((48 <=? n) && (n <=? 57))       (* 0-9 *)
   || (n =? 45) || (n =? 95))%N.       (* - and _ *)

(** ** PteroAPI *)

Section Client.

(** The panel: what it answers to a request, given the requests that
    preceded it. *)
Variable panel : trace -> request -> outcome.

(** [async with self.session.<method>(url, ...) as r]. *)
Definition send (req : request) : M response :=
  fun tr =>
    match panel tr req with
    | Refused => (Raise ClientError, tr ++ [req])
    | Replied r => (Ok r, tr ++ [req])
    end.

Definition session_get (e : endpoint) : M response :=
  send (mkRequest GET e None true).

Definition session_post (e : endpoint) (payload : option json) : M response :=
  send (mkRequest POST e payload true).

Definition session_delete (e : endpoint) : M response :=
  send (mkRequest DELETE e None true).

Definition session_patch (e : endpoint) (payload : option json) : M response :=
  send (mkRequest PATCH e payload true).

Definition get_node (node_id : Z) : M json :=
  r <- session_get (Node node_id) ;;
  if status r =? 200 then
    resp <- r_json r ;;
    lift (py_get resp "attributes" resp)
  else
    raise (PteroError ("Node " +++ str_of_int node_id +++ " not found (status "
                       +++ str_of_int (status r) +++ ")")).

(** The [try] block of [get_egg]: [Some v] when it returns [v], [None] when
    control leaves the block without a return or through the handler. *)
Definition get_egg_direct (egg_id : Z) : M (option json) :=
  try_except
    (r <- session_get (Egg egg_id) ;;
     if status r =? 200 then
       resp <- r_json r ;;
       v <- lift (py_get resp "attributes" resp) ;;
       ret (Some v)
     else ret None)
    (fun _ => ret None).

(** The inner loop of [get_egg] over the eggs of one nest. *)
Definition scan_eggs (egg_id : Z) (eggs : list json) : M (option json) :=
  for_each eggs (fun egg =>
    a <- lift (py_get egg "attributes" (JDict [])) ;;
    i <- lift (py_get a "id" JNull) ;;
    if py_eq_int i egg_id then
      v <- lift (py_get egg "attributes" egg) ;;
      ret (Some v)
    else
      j <- lift (py_get egg "id" JNull) ;;
      if py_eq_int j egg_id then
        v <- lift (py_get egg "attributes" egg) ;;
        ret (Some v)
      else ret None).

(** One iteration of the outer loop of [get_egg]. *)
Definition scan_nest (egg_id : Z) (n : json) : M (option json) :=
  a <- lift (py_get n "attributes" (JDict [])) ;;
  nest_id <- lift (py_get a "id" JNull) ;;
  if negb (truthy nest_id) then ret None
  else
    er <- session_get (NestEggs nest_id) ;;
    if negb (status er =? 200) then ret None
    else
      eggs <- r_json er ;;
      d <- lift (py_get eggs "data" (JList [])) ;;
      items <- lift (py_iter d) ;;
      scan_eggs egg_id items.

(** The fallback of [get_egg]: list the nests and search their eggs. *)
Definition get_egg_fallback (egg_id : Z) : M json :=
  r <- session_get Nests ;;
  if negb (status r =? 200) then
    raise (PteroError "Unable to fetch nests to validate egg")
  else
    nests <- r_json r ;;
    d <- lift (py_get nests "data" (JList [])) ;;
    items <- lift (py_iter d) ;;
    found <- for_each items (scan_nest egg_id) ;;
    match found with
    | Some v => ret v
    | None => raise (PteroError ("Egg " +++ str_of_int egg_id +++ " not found"))
    end.

Definition get_egg (egg_id : Z) : M json :=
  d <- get_egg_direct egg_id ;;
  match d with
  | Some v => ret v
  | None => get_egg_fallback egg_id
  end.

Definition list_users (page : Z) : M json :=
  r <- session_get (UsersPage page) ;;
  if status r =? 200 then r_json r
  else raise (PteroError ("List users failed (status "
                          +++ str_of_int (status r) +++ ")")).

Definition find_user_by_email (email : string) : M json :=
  r <- session_get (UsersByEmail email) ;;
  if negb (status r =? 200) then
    users <- list_users 1 ;;
    d <- lift (py_get users "data" (JList [])) ;;
    items <- lift (py_iter d) ;;
    found <- for_each items (fun u =>
      a <- lift (py_get u "attributes" (JDict [])) ;;
      e <- lift (py_get a "email" JNull) ;;
      if py_eq_str e email then ret (Some a) else ret None) ;;
    match found with
    | Some a => ret a
    | None => ret JNull
    end
  else
    data <- r_json r ;;
    d <- lift (py_get data "data" (JList [])) ;;
    items <- lift (py_iter d) ;;
    found <- for_each items (fun u =>
      v <- lift (py_get u "attributes" u) ;;
      ret (Some v)) ;;
    match found with
    | Some v => ret v
    | None => ret JNull
    end.

Definition create_user_payload
    (username email first_name last_name password : string) : json :=
  JDict [ ("username", JStr (str_take 191 username));
          ("email", JStr email);
          ("first_name", JStr (str_take 191 first_name));
          ("last_name", JStr (str_take 191 last_name));
          ("password", JStr password) ].

Definition create_user
    (username email first_name last_name password : string) : M json :=
  r <- session_post Users
         (Some (create_user_payload username email first_name last_name password)) ;;
  if (status r =? 200) || (status r =? 201) then
    data <- r_json r ;;
    lift (py_get data "attributes" data)
  else
    t <- r_text r ;;
    raise (PteroError ("Create user failed: status " +++ str_of_int (status r)
                       +++ ": " +++ t)).

Definition delete_user (user_id : Z) : M json :=
  r <- session_delete (User user_id) ;;
  if (status r =? 200) || (status r =? 204) then ret (JBool true)
  else
    t <- r_text r ;;
    raise (PteroError ("Delete user failed: status " +++ str_of_int (status r)
                       +++ ": " +++ t)).

Definition change_user_password (user_id : Z) (password : string) : M json :=
  r <- session_post (UserResetPassword user_id)
         (Some (JDict [ ("password", JStr password);
                        ("password_confirmation", JStr password) ])) ;;
  if (status r =? 200) || (status r =? 204) then ret (JBool true)
  else
    t <- r_text r ;;
    raise (PteroError ("Change password failed: status " +++ str_of_int (status r)
                       +++ ": " +++ t)).

Definition create_server_payload
    (name : string) (user_id egg_id node_id memory cpu disk : Z)
    (version : string) : json :=
  JDict [ ("name", JStr (str_take 191 name));
          ("user", JInt user_id);
          ("egg", JInt egg_id);
          ("docker_image", JStr version);
          ("startup", JNull);
          ("environment", JDict []);
          ("limits", JDict [ ("memory", JInt memory);
                             ("swap", JInt 0);
                             ("disk", JInt disk);
                             ("io", JInt 500);
                             ("cpu", JInt cpu) ]);
          ("feature_limits", JDict []);
          ("node", JInt node_id);
          ("allocation", JDict []) ].

Definition create_server
    (name : string) (user_id egg_id node_id memory cpu disk : Z)
    (version : string) : M json :=
  r <- session_post Servers
         (Some (create_server_payload name user_id egg_id node_id
                  memory cpu disk version)) ;;
  if (status r =? 200) || (status r =? 201) then
    data <- r_json r ;;
    lift (py_get data "attributes" data)
  else
    t <- r_text r ;;
    raise (PteroError ("Create server failed: status " +++ str_of_int (status r)
                       +++ ": " +++ t)).

Definition delete_server (server_id : string) : M json :=
  r <- session_delete (Server server_id) ;;
  if (status r =? 200) || (status r =? 204) then ret (JBool true)
  else
    t <- r_text r ;;
    raise (PteroError ("Delete server failed: status " +++ str_of_int (status r)
                       +++ ": " +++ t)).

Definition suspend_server (server_id : string) : M json :=
  r <- session_post (ServerSuspend server_id) None ;;
  if (status r =? 200) || (status r =? 204) then ret (JBool true)
  else
    t <- r_text r ;;
    raise (PteroError ("Suspend failed: status " +++ str_of_int (status r)
                       +++ ": " +++ t)).

Definition unsuspend_server (server_id : string) : M json :=
  r <- session_post (ServerUnsuspend server_id) None ;;
  if (status r =? 200) || (status r =? 204) then ret (JBool true)
  else
    t <- r_text r ;;
    raise (PteroError ("Unsuspend failed: status " +++ str_of_int (status r)
                       +++ ": " +++ t)).

Definition get_server (server_id : string) : M json :=
  r <- session_get (Server server_id) ;;
  if status r =? 200 then r_json r
  else
    t <- r_text r ;;
    raise (PteroError ("Get server failed: status " +++ str_of_int (status r)
                       +++ ": " +++ t)).

Definition list_servers (page : Z) : M json :=
  r <- session_get (ServersPage page) ;;
  if status r =? 200 then r_json r
  else raise (PteroError ("List servers failed: status "
                          +++ str_of_int (status r))).

(** [query.lower() in a.get(field, "").lower()]. *)
Definition field_contains (query : string) (a : json) (field : string) : M bool :=
  v <- lift (py_get a field (JStr "")) ;;
  s <- lift (py_lower v) ;;
  ret (str_in (str_lower query) s).

Definition search_servers (query : string) : M json :=
  all_pages <- list_servers 1 ;;
  d <- lift (py_get all_pages "data" (JList [])) ;;
  items <- lift (py_iter d) ;;
  results <- collect items (fun item =>
    a <- lift (py_get item "attributes" (JDict [])) ;;
    by_name <- field_contains query a "name" ;;
    if by_name then ret [a]
    else
      by_identifier <- field_contains query a "identifier" ;;
      if by_identifier then ret [a] else ret []) ;;
  ret (JList results).

Definition set_server_resources (server_id : string) (memory cpu disk : Z) : M json :=
  r <- session_patch (ServerBuild server_id)
         (Some (JDict [ ("memory", JInt memory);
                        ("swap", JInt 0);
                        ("disk", JInt disk);
                        ("io", JInt 500);
                        ("cpu", JInt cpu) ])) ;;
  if (status r =? 200) || (status r =? 204) then ret (JBool true)
  else
    t <- r_text r ;;
    raise (PteroError ("Set resources failed: status " +++ str_of_int (status r)
                       +++ ": " +++ t)).

Definition list_nodes : M json :=
  r <- session_get Nodes ;;
  if status r =? 200 then
    resp <- r_json r ;;
    d <- lift (py_get resp "data" (JList [])) ;;
    items <- lift (py_iter d) ;;
    nodes <- collect items (fun x =>
      v <- lift (py_get x "attributes" x) ;;
      ret [v]) ;;
    ret (JList nodes)
  else raise (PteroError "Failed to list nodes").

Definition list_eggs : M json :=
  r <- session_get Nests ;;
  if negb (status r =? 200) then raise (PteroError "Failed to fetch nests/eggs")
  else
    resp <- r_json r ;;
    d <- lift (py_get resp "data" (JList [])) ;;
    items <- lift (py_iter d) ;;
    eggs <- collect items (fun n =>
      a <- lift (py_get n "attributes" (JDict [])) ;;
      nid <- lift (py_get a "id" JNull) ;;
      er <- session_get (NestEggs nid) ;;
      if negb (status er =? 200) then ret []
      else
        eresp <- r_json er ;;
        ed <- lift (py_get eresp "data" (JList [])) ;;
        eitems <- lift (py_iter ed) ;;
        collect eitems (fun e =>
          v <- lift (py_get e "attributes" e) ;;
          ret [v])) ;;
    ret (JList eggs).

Definition panel_status : M json :=
  r <- send (mkRequest GET ApiRoot None false) ;;
  if status r =? 200 then ret (JStr "OK")
  else ret (JStr ("Unclear (status " +++ str_of_int (status r) +++ ")")).

Definition list_backups (server_id : string) : M json :=
  r <- session_get (ServerBackups server_id) ;;
  if status r =? 200 then
    resp <- r_json r ;;
    lift (py_get resp "data" (JList []))
  else raise (PteroError ("List backups failed: status "
                          +++ str_of_int (status r))).

Definition search_users (query : string) : M json :=
  users <- list_users 1 ;;
  d <- lift (py_get users "data" (JList [])) ;;
  items <- lift (py_iter d) ;;
  matches <- collect items (fun u =>
    a <- lift (py_get u "attributes" (JDict [])) ;;
    by_username <- field_contains query a "username" ;;
    if by_username then ret [a]
    else
      by_email <- field_contains query a "email" ;;
      if by_email then ret [a] else ret []) ;;
  ret (JList matches).

(** ** cogs/servers.py: the panel user of a chat member *)

(** [f"discord-{user.id}@local"]. *)
Definition panel_user_email (user_id : Z) : string :=
  "discord-" +++ str_of_int user_id +++ "@local".

(** The lookup-or-create block of [ServersCog.createserver]: the panel user
    and the password when one was created.  [tok] is what the random source
    delivers if a password is generated; a [PteroError] leaves the command
    with an error reply. *)
Definition createserver_panel_user
    (user_id : Z) (display_name : string) (tok : list byte)
  : M (json * option string) :=
  let email := panel_user_email user_id in
  panel_user <- find_user_by_email email ;;
  if negb (truthy panel_user) then
    let password := generate_password tok 16 in
    created <- create_user (display_name +++ "-" +++ str_of_int user_id) email
                 (str_take 50 display_name) "" password ;;
    ret (created, Some password)
  else ret (panel_user, None).

End Client.

(** ** The namespace of a [PteroAPI] instance

    What [self.ptero.<name>] finds: the instance attributes set by
    [__init__] and the methods the class defines, each with the number of
    arguments a call has to supply. *)

Inductive attribute : Type :=
| Field
| Method (required : nat).

Definition PteroAPI_namespace : list (string * attribute) :=
  [ ("session", Field); ("base_url", Field); ("headers", Field);
    ("generate_password", Method 0);
    ("get_node", Method 1);
    ("get_egg", Method 1);
    ("find_user_by_email", Method 1);
    ("create_user", Method 5);
    ("list_users", Method 0);
    ("delete_user", Method 1);
    ("change_user_password", Method 2);
    ("create_server", Method 8);
    ("delete_server", Method 1);
    ("suspend_server", Method 1);
    ("unsuspend_server", Method 1);
    ("get_server", Method 1);
    ("list_servers", Method 0);
    ("search_servers", Method 1);
    ("set_server_resources", Method 4);
    ("list_nodes", Method 0);
    ("list_eggs", Method 0);
    ("panel_status", Method 0);
    ("list_backups", Method 1);
    ("search_users", Method 1) ].

(** [getattr(self.ptero, name)]. *)
Fixpoint PteroAPI_getattr_in (ns : list (string * attribute)) (name : string)
  : result attribute :=
  match ns with
  | [] => Raise AttributeError
  | (k, a) :: ns' =>
      if String.eqb name k then Ok a else PteroAPI_getattr_in ns' name
  end.

Definition PteroAPI_getattr (name : string) : result attribute :=
  PteroAPI_getattr_in PteroAPI_namespace name.

(** ** The operations that issue exactly one request *)

Inductive operation : Type :=
| OpGetNode (node_id : Z)
| OpGetServer (server_id : string)
| OpListUsers (page : Z)
| OpListServers (page : Z)
| OpListBackups (server_id : string)
| OpListNodes
| OpCreateUser (username email first_name last_name password : string)
| OpCreateServer (name : string) (user_id egg_id node_id memory cpu disk : Z)
                 (version : string)
| OpDeleteUser (user_id : Z)
| OpChangeUserPassword (user_id : Z) (password : string)
| OpDeleteServer (server_id : string)
| OpSuspendServer (server_id : string)
| OpUnsuspendServer (server_id : string)
| OpSetServerResources (server_id : string) (memory cpu disk : Z).

Definition run (panel : trace -> request -> outcome) (o : operation) : M json :=
  match o with
  | OpGetNode i => get_node panel i
  | OpGetServer s => get_server panel s
  | OpListUsers p => list_users panel p
  | OpListServers p => list_servers panel p
  | OpListBackups s => list_backups panel s
  | OpListNodes => list_nodes panel
  | OpCreateUser u e f l p => create_user panel u e f l p
  | OpCreateServer n u e nd m c d v => create_server panel n u e nd m c d v
  | OpDeleteUser i => delete_user panel i
  | OpChangeUserPassword i p => change_user_password panel i p
  | OpDeleteServer s => delete_server panel s
  | OpSuspendServer s => suspend_server panel s
  | OpUnsuspendServer s => unsuspend_server panel s
  | OpSetServerResources s m c d => set_server_resources panel s m c d
  end.

(** The request an operation sends. *)
Definition request_of (o : operation) : request :=
  match o with
  | OpGetNode i => mkRequest GET (Node i) None true
  | OpGetServer s => mkRequest GET (Server s) None true
  | OpListUsers p => mkRequest GET (UsersPage p) None true
  | OpListServers p => mkRequest GET (ServersPage p) None true
  | OpListBackups s => mkRequest GET (ServerBackups s) None true
  | OpListNodes => mkRequest GET Nodes None true
  | OpCreateUser u e f l p =>
      mkRequest POST Users (Some (create_user_payload u e f l p)) true
  | OpCreateServer n u e nd m c d v =>
      mkRequest POST Servers (Some (create_server_payload n u e nd m c d v)) true
  | OpDeleteUser i => mkRequest DELETE (User i) None true
  | OpChangeUserPassword i p =>
      mkRequest POST (UserResetPassword i)
        (Some (JDict [ ("password", JStr p); ("password_confirmation", JStr p) ]))
        true
  | OpDeleteServer s => mkRequest DELETE (Server s) None true
  | OpSuspendServer s => mkRequest POST (ServerSuspend s) None true
  | OpUnsuspendServer s => mkRequest POST (ServerUnsuspend s) None true
  | OpSetServerResources s m c d =>
      mkRequest PATCH (ServerBuild s)
        (Some (JDict [ ("memory", JInt m); ("swap", JInt 0); ("disk", JInt d);
                       ("io", JInt 500); ("cpu", JInt c) ]))
        true
  end.

(** The operation classes of the specification and their success sets:
    fetch and list accept 200, create accepts 200 or 201, mutate accepts 200
    or 204. *)
Inductive op_class : Type := FetchById | ListPage | Create | Mutate.

Definition class_of (o : operation) : op_class :=
  match o with
  | OpGetNode _ | OpGetServer _ => FetchById
  | OpListUsers _ | OpListServers _ | OpListBackups _ | OpListNodes => ListPage
  | OpCreateUser _ _ _ _ _ | OpCreateServer _ _ _ _ _ _ _ _ => Create
  | _ => Mutate
  end.

Definition success_set (c : op_class) : list Z :=
  match c with
  | FetchById | ListPage => [200]
  | Create => [200; 201]
  | Mutate => [200; 204]
  end.

(** The operations whose result is a single record. *)
Definition single_record (o : operation) : bool :=
  match o with
  | OpGetNode _ | OpGetServer _
  | OpCreateUser _ _ _ _ _ | OpCreateServer _ _ _ _ _ _ _ _ => true
  | _ => false
  end.

Definition is_get_server (o : operation) : bool :=
  match o with OpGetServer _ => true | _ => false end.

Definition is_list_nodes (o : operation) : bool :=
  match o with OpListNodes => true | _ => false end.

(** The result normalizer of the specification: the [attributes] member of
    an object when it has one, the object itself otherwise. *)
Definition normalized (body : list (string * json)) : json :=
  match dict_lookup "attributes" body with
  | Some a => a
  | None => JDict body
  end.

(** ** A panel to run the client against *)

Definition ok_json (body : json) : outcome :=
  Replied (mkResponse 200 (Some "") (Some body)).

Definition failing (st : Z) (t : string) : outcome :=
  Replied (mkResponse st (Some t) None).

Definition entity (kind : string) (attrs : list (string * json)) : json :=
  JDict [ ("object", JStr kind); ("attributes", JDict attrs) ].

Definition page (items : list json) : json :=
  JDict [ ("object", JStr "list"); ("data", JList items) ].

Definition survival : list (string * json) :=
  [ ("id", JInt 7); ("identifier", JStr "1a2b3c4d"); ("name", JStr "Survival") ].

Definition creative : list (string * json) :=
  [ ("id", JInt 8); ("identifier", JStr "5e6f7a8b"); ("name", JStr "Creative") ].

Definition hardcore : list (string * json) :=
  [ ("id", JInt 60); ("identifier", JStr "9c0d1e2f"); ("name", JStr "Hardcore") ].

Definition alice : list (string * json) :=
  [ ("id", JInt 3); ("username", JStr "alice-12345");
    ("email", JStr "discord-12345@local") ].

Definition bob : list (string * json) :=
  [ ("id", JInt 4); ("username", JStr "Bob"); ("email", JStr "bob@example.com") ].

Definition paper : list (string * json) :=
  [ ("id", JInt 5); ("name", JStr "Paper") ].

Definition vanilla : list (string * json) :=
  [ ("id", JInt 6); ("name", JStr "Vanilla") ].

Definition forge : list (string * json) :=
  [ ("id", JInt 9); ("name", JStr "Forge") ].

(** A panel without the flat eggs path and without the email filter, with
    two nests, two pages of servers and one page of users; it does not
    change while the client talks to it. *)
Definition demo_panel : trace -> request -> outcome :=
  fun _ req =>
    match req_method req, req_target req with
    | GET, Node n =>
        if n =? 1 then ok_json (entity "node" [ ("id", JInt 1); ("name", JStr "eu-1") ])
        else if n =? 2 then ok_json (JDict [ ("id", JInt 2); ("name", JStr "eu-2") ])
        else failing 404 "not found"
    | GET, Nodes => failing 500 "server error"
    | GET, Egg _ => failing 404 "not found"
    | GET, Nests =>
        ok_json (page [ entity "nest" [ ("id", JInt 1) ];
                        entity "nest" [ ("id", JInt 2) ] ])
    | GET, NestEggs (JInt 1) =>
        ok_json (page [ entity "egg" paper; entity "egg" vanilla ])
    | GET, NestEggs (JInt 2) =>
        ok_json (page [ entity "egg" forge ])
    | GET, UsersByEmail _ => failing 500 "filter unsupported"
    | GET, UsersPage p =>
        if p =? 1 then ok_json (page [ entity "user" bob; entity "user" alice ])
        else ok_json (page [])
    | GET, Server s =>
        if String.eqb s "1a2b3c4d" then ok_json (entity "server" survival)
        else failing 404 "not found"
    | GET, ServersPage p =>
        if p =? 1 then ok_json (page [ entity "server" survival;
                                       entity "server" creative ])
        else if p =? 2 then ok_json (page [ entity "server" hardcore ])
        else ok_json (page [])
    | POST, Users =>
        match req_json req with
        | Some (JDict kv) =>
            Replied (mkResponse 201 (Some "") (Some (entity "user" (("id", JInt 10) :: kv))))
        | _ => failing 422 "invalid"
        end
    | DELETE, User _ => Replied (mkResponse 204 (Some "") None)
    | _, _ => failing 404 "not found"
    end.

(** The same panel with the flat eggs path and the email filter in place. *)
Definition modern_panel : trace -> request -> outcome :=
  fun tr req =>
    match req_method req, req_target req with
    | GET, Egg e =>
        if e =? 9 then ok_json (entity "egg" forge) else failing 404 "not found"
    | GET, UsersByEmail _ => ok_json (page [ entity "user" bob ])
    | _, _ => demo_panel tr req
    end.

(** A link that is down: every request raises. *)
Definition dead_panel : trace -> request -> outcome :=
  fun _ _ => Refused.

(** ** Pages of well-formed entries

    The entries of a list page are objects; the [attributes] member of an
    entry, when it has one, is an object too. *)

Definition is_entry (u : json) : bool :=
  match u with
  | JDict kv =>
      match dict_lookup "attributes" kv with
      | None | Some (JDict _) => true
      | Some _ => false
      end
  | _ => false
  end.

(** [u.get("attributes", {})] of an entry. *)
Definition entry_attrs (u : json) : json :=
  match u with
  | JDict kv =>
      match dict_lookup "attributes" kv with
      | Some a => a
      | None => JDict []
      end
  | _ => JDict []
  end.

(** [u.get("attributes", u)] of an entry. *)
Definition entry_record (u : json) : json :=
  match u with
  | JDict kv => normalized kv
  | _ => u
  end.

(** The member [field] of the attributes of an entry. *)
Definition entry_field (field : string) (u : json) : option json :=
  match entry_attrs u with
  | JDict a => dict_lookup field a
  | _ => None
  end.

(** The entry's [field] is exactly the string [v]. *)
Definition field_is (field v : string) (u : json) : bool :=
  match entry_field field u with
  | Some e => py_eq_str e v
  | None => false
  end.

(** The entry's [field] is absent or a string. *)
Definition field_is_text (field : string) (u : json) : bool :=
  match entry_field field u with
  | None | Some (JStr _) => true
  | Some _ => false
  end.

(** The entry's [field], taken as empty when absent, contains [query]
    without regard to case. *)
Definition field_has (field query : string) (u : json) : bool :=
  match entry_field field u with
  | Some (JStr s) => str_in (str_lower query) (str_lower s)
  | Some _ => false
  | None => str_in (str_lower query) (str_lower "")
  end.

(** What a search over the entries [items] is specified to return: the
    records of the entries one of whose two fields contains the query. *)
Definition search_result (f1 f2 query : string) (items : list json) : json :=
  JList (map entry_attrs
           (filter (fun u => field_has f1 query u || field_has f2 query u) items)).

(** An entry a search can examine: well-formed, with both fields absent or
    strings. *)
Definition searchable (f1 f2 : string) (u : json) : bool :=
  is_entry u && field_is_text f1 u && field_is_text f2 u.

(** ** The nest scan, as specified

    For a panel whose answers do not depend on what was asked before:
    list each nest's eggs in turn and take the first egg whose id is the
    one asked for. *)

(** [n.get("attributes", {}).get("id")] of a nest entry. *)
Definition nest_id_of (n : json) : json :=
  match entry_field "id" n with
  | Some i => i
  | None => JNull
  end.

(** The request the scan makes for a nest: none when its id is falsy. *)
Definition nest_requests (n : json) : list request :=
  if truthy (nest_id_of n)
  then [mkRequest GET (NestEggs (nest_id_of n)) None true]
  else [].

(** The eggs the scan sees in a nest: none when the nest is skipped or its
    listing does not answer 200. *)
Definition nest_listing (answers : request -> outcome) (n : json) : list json :=
  if truthy (nest_id_of n) then
    match answers (mkRequest GET (NestEggs (nest_id_of n)) None true) with
    | Replied r =>
        if status r =? 200 then
          match json_body r with
          | Some (JDict b) =>
              match dict_lookup "data" b with
              | Some (JList eggs) => eggs
              | _ => []
              end
          | _ => []
          end
        else []
    | Refused => []
    end
  else [].

(** A nest entry the scan can process: well-formed, and when its eggs are
    listed with status 200 the body is an object whose [data], if present,
    is a list of well-formed entries. *)
Definition nest_ok (answers : request -> outcome) (n : json) : bool :=
  is_entry n
  && (if truthy (nest_id_of n) then
        match answers (mkRequest GET (NestEggs (nest_id_of n)) None true) with
        | Replied r =>
            if status r =? 200 then
              match json_body r with
              | Some (JDict b) =>
                  match dict_lookup "data" b with
                  | None => true
                  | Some (JList eggs) => forallb is_entry eggs
                  | Some _ => false
                  end
              | _ => false
              end
            else true
        | Refused => false
        end
      else true).

(** The egg's id, inside [attributes] or at the top of the entry, equals
    [egg_id]. *)
Definition egg_matches (egg_id : Z) (e : json) : bool :=
  py_eq_int (nest_id_of e) egg_id
  || py_eq_int match e with
               | JDict kv =>
                   match dict_lookup "id" kv with Some i => i | None => JNull end
               | _ => JNull
               end egg_id.

(** The outcome of the scan and the requests it takes. *)
Fixpoint nest_scan (answers : request -> outcome) (egg_id : Z)
    (nests : list json) : option json * list request :=
  match nests with
  | [] => (None, [])
  | n :: ns =>
      match find (egg_matches egg_id) (nest_listing answers n) with
      | Some e => (Some (entry_record e), nest_requests n)
      | None =>
          let (v, reqs) := nest_scan answers egg_id ns in
          (v, nest_requests n ++ reqs)
      end
  end.

(** A panel whose answers do not depend on the requests before. *)
Definition stateless (answers : request -> outcome)
  : trace -> request -> outcome :=
  fun _ req => answers req.

(** ** The token without its padding *)

(** [urlsafe_b64encode] with the trailing padding left out. *)
Fixpoint b64_body (bs : list byte) : string :=
  match bs with
  | [] => EmptyString
  | [a] =>
      let x := Byte.to_N a in
      String (b64_char (x / 4))
        (String (b64_char ((x mod 4) * 16)) EmptyString)
  | [a; b] =>
      let x := Byte.to_N a in
      let y := Byte.to_N b in
      String (b64_char (x / 4))
        (String (b64_char ((x mod 4) * 16 + y / 16))
           (String (b64_char ((y mod 16) * 4)) EmptyString))
  | a :: b :: c :: rest =>
      let x := Byte.to_N a in
      let y := Byte.to_N b in
      let z := Byte.to_N c in
      String (b64_char (x / 4))
        (String (b64_char ((x mod 4) * 16 + y / 16))
           (String (b64_char ((y mod 16) * 4 + z / 64))
              (String (b64_char (z mod 64)) (b64_body rest))))
  end%N.

(** The position of a character in a string. *)
Fixpoint str_index_of (c : ascii) (s : string) : N :=
  match s with
  | EmptyString => 0%N
  | String a s' => if Ascii.eqb a c then 0%N else (1 + str_index_of c s')%N
  end.

Definition b64_index (c : ascii) : N := str_index_of c b64_alphabet.

(** Every character of [s] satisfies [f]. *)
Definition str_all (f : ascii -> bool) (s : string) : Prop :=
  Forall (fun c => f c = true) (list_ascii_of_string s).

(** ** Statements about traces *)

(** Whatever [m] is started with, it only adds requests to the trace, and
    every request it adds satisfies [P]. *)
Definition emits {A} (P : request -> Prop) (m : M A) : Prop :=
  forall tr, exists rest, snd (m tr) = tr ++ rest /\ Forall P rest.

Definition is_get (req : request) : Prop := req_method req = GET.

(** A display name of 250 characters. *)
Fixpoint str_repeat (c : ascii) (n : nat) : string :=
  match n with
  | O => EmptyString
  | S n' => String c (str_repeat c n')
  end.

Definition long_display_name : string := str_repeat "x"%char 250.

(** Whatever [m] is started with, the first request it adds is [req]. *)
Definition starts_with {A} (req : request) (m : M A) : Prop :=
  forall tr, exists rest, snd (m tr) = tr ++ req :: rest.

(** [t] is [s] cut to [limit] characters: the first [limit] characters of
    [s], which is all of [s] when it has no more than that. *)
Definition truncation_of (limit : nat) (s t : string) : Prop :=
  (exists rest, s = t +++ rest)
  /\ String.length t = Nat.min limit (String.length s).

(** Sixteen bytes as the random source may deliver them. *)
Definition sample_token : list byte :=
  [ x3a; xf1; x07; x9c; x55; xe2; x10; xbb;
    x6d; x04; xc8; x7f; x29; x93; xde; x41 ].

Definition other_token : list byte :=
  [ x3a; xf1; x07; x9c; x55; xe2; x10; xbb;
    x6d; x04; xc8; x7e; x29; x93; xde; x41 ].

(** ** Further statements about the client *)

(** [m] sends no request at all. *)
Definition silent {A} (m : M A) : Prop := emits (fun _ => False) m.

(** A request that reads: a GET without a payload. *)
Definition is_read (req : request) : Prop :=
  req_method req = GET /\ req_json req = None.

(** A request that carries [self.headers]. *)
Definition has_headers (req : request) : Prop := req_headers req = true.

(** The operations whose failure message ends with the response text. *)
Definition reports_body (o : operation) : bool :=
  match class_of o with
  | Create | Mutate => true
  | _ => is_get_server o
  end.

Definition is_object (u : json) : bool :=
  match u with
  | JDict _ => true
  | _ => false
  end.

(** The eggs [list_eggs] takes from a nest: those of its listing when it
    answers 200, none otherwise. *)
Definition eggs_listed (answers : request -> outcome) (n : json) : list json :=
  match answers (mkRequest GET (NestEggs (nest_id_of n)) None true) with
  | Replied r =>
      if status r =? 200 then
        match json_body r with
        | Some (JDict b) =>
            match dict_lookup "data" b with
            | Some (JList eggs) => eggs
            | _ => []
            end
        | _ => []
        end
      else []
  | Refused => []
  end.

(** A nest entry [list_eggs] can process: well-formed, its listing is
    answered, and when the answer is 200 the body is an object whose [data],
    if present, is a list of objects. *)
Definition nest_listable (answers : request -> outcome) (n : json) : bool :=
  is_entry n
  && match answers (mkRequest GET (NestEggs (nest_id_of n)) None true) with
     | Replied r =>
         if status r =? 200 then
           match json_body r with
           | Some (JDict b) =>
               match dict_lookup "data" b with
               | None => true
               | Some (JList eggs) => forallb is_object eggs
               | Some _ => false
               end
           | _ => false
           end
         else true
     | Refused => false
     end.

(** A panel under maintenance: it answers every request with 503. *)
Definition broken_panel : trace -> request -> outcome :=
  fun _ _ => failing 503 "maintenance".

(** A panel whose first nest cannot be listed. *)
Definition flaky_panel : trace -> request -> outcome :=
  fun tr req =>
    match req_method req, req_target req with
    | GET, NestEggs (JInt 1) => Refused
    | _, _ => demo_panel tr req
    end.

(** A panel that lists its nests but answers 403 to the eggs listing of
    every nest. *)
Definition locked_panel : trace -> request -> outcome :=
  fun tr req =>
    match req_method req, req_target req with
    | GET, NestEggs _ => failing 403 "forbidden"
    | _, _ => demo_panel tr req
    end.

(** A panel behind a gateway that answers every request with 502 and a body
    that does not decode as text. *)
Definition garbled_panel : trace -> request -> outcome :=
  fun _ _ => Replied (mkResponse 502 None None).

(** ** Commands (cogs/servers.py, cogs/users.py)

    The part of a command handler that talks to the panel, up to the point
    where it starts to notify people.  A handler catches [PteroError] and
    answers with an error embed; any other exception leaves the handler. *)

Inductive crash : Type :=
| Escaped (e : exn)     (* raised by the client, not a [PteroError] *)
| KeyError              (* [d[k]] on a dict without [k] *)
| ValueError            (* [int(x)] on a value that is not a number *)
| OverflowError.        (* [int(x)] on an infinite float *)

Inductive ending (A : Type) : Type :=
| Goes_on (a : A)
| Error_reply (description : string)   (* [followup.send(embed=self.embed.error(description))] and return *)
| Crashes (c : crash).

Arguments Goes_on {A} a.
Arguments Error_reply {A} description.
Arguments Crashes {A} c.

Definition C (A : Type) : Type := trace -> ending A * trace.

Definition c_ret {A} (a : A) : C A := fun tr => (Goes_on a, tr).

Definition c_reply {A} (description : string) : C A :=
  fun tr => (Error_reply description, tr).

Definition c_bind {A B} (m : C A) (f : A -> C B) : C B :=
  fun tr =>
    match m tr with
    | (Goes_on a, tr') => f a tr'
    | (Error_reply d, tr') => (Error_reply d, tr')
    | (Crashes c, tr') => (Crashes c, tr')
    end.

Definition c_lift {A} (e : ending A) : C A := fun tr => (e, tr).

(** [try: x = await m  except PteroError as e: return error(f"{prefix}{e}")]. *)
Definition guarded {A} (prefix : string) (m : M A) : C A :=
  fun tr =>
    match m tr with
    | (Ok a, tr') => (Goes_on a, tr')
    | (Raise (PteroError msg), tr') => (Error_reply (prefix +++ msg), tr')
    | (Raise e, tr') => (Crashes (Escaped e), tr')
    end.

Notation "x <~ m ;; k" := (c_bind m (fun x => k))
  (at level 61, m at next level, right associativity).

(** [v[k]] for a string key. *)
Definition py_getitem (v : json) (k : string) : ending json :=
  match v with
  | JDict kv =>
      match dict_lookup k kv with
      | Some x => Goes_on x
      | None => Crashes KeyError
      end
  | _ => Crashes (Escaped TypeError)
  end.

(** [int(f)] for a float: the value cut towards zero. *)
Definition float_to_int (f : spec_float) : ending Z :=
  match f with
  | S754_zero _ => Goes_on 0
  | S754_infinity _ => Crashes OverflowError
  | S754_nan => Crashes ValueError
  | S754_finite s m e =>
      let magnitude :=
        if 0 <=? e then Z.pos m * 2 ^ e else Z.pos m / 2 ^ (- e) in
      Goes_on (if s then - magnitude else magnitude)
  end.

(** The bounds createserver and set_resources put on the resources. *)
Definition ram_ok (ram : Z) : bool := negb ((ram <? 128) || (32768 <? ram)).
Definition cpu_ok (cpu : Z) : bool := negb ((cpu <? 1) || (400 <? cpu)).
Definition disk_ok (disk : Z) : bool := negb ((disk <? 100) || (1000000 <? disk)).

Section Commands.

(** [int(s)] for a string, [None] when it raises [ValueError]. *)
Variable py_int_str : string -> option Z.

Variable panel : trace -> request -> outcome.

(** [int(v)]. *)
Definition py_int (v : json) : ending Z :=
  match v with
  | JInt n => Goes_on n
  | JBool b => Goes_on (if b then 1 else 0)
  | JFloat f => float_to_int f
  | JStr s =>
      match py_int_str s with
      | Some n => Goes_on n
      | None => Crashes ValueError
      end
  | _ => Crashes (Escaped TypeError)
  end.

(** [ServersCog.createserver] up to and including the creation of the
    server: the created server, the panel user and the password when a user
    was created.  [tok] is what the random source delivers if a password is
    generated. *)
Definition createserver_provision
    (name : string) (ram cpu disk : Z) (version : string)
    (node_id egg_id : Z) (user_id : Z) (display_name : string)
    (tok : list byte)
  : C (json * json * option string) :=
  if (ram <? 128) || (32768 <? ram) then
    c_reply "RAM must be between 128MB and 32768MB"
  else if (cpu <? 1) || (400 <? cpu) then
    c_reply "CPU must be between 1% and 400%"
  else if (disk <? 100) || (1000000 <? disk) then
    c_reply "Disk must be between 100MB and 1TB"
  else
    node <~ guarded "Node validation failed: " (get_node panel node_id) ;;
    egg <~ guarded "Egg validation failed: " (get_egg panel egg_id) ;;
    found <~ guarded "User lookup/creation failed: "
               (createserver_panel_user panel user_id display_name tok) ;;
    let (panel_user, created_password) := found in
    uid <~ c_lift (py_getitem panel_user "id") ;;
    uid <~ c_lift (py_int uid) ;;
    server <~ guarded "Server creation failed: "
                (create_server panel name uid egg_id node_id ram cpu disk
                   version) ;;
    c_ret (server, panel_user, created_password).

(** [ServersCog.set_resources] up to the change on the panel. *)
Definition set_resources_apply
    (server_id : string) (ram cpu disk : Z) : C json :=
  if (ram <? 128) || (32768 <? ram) then c_reply "Invalid RAM"
  else if (cpu <? 1) || (400 <? cpu) then c_reply "Invalid CPU"
  else if (disk <? 100) || (1000000 <? disk) then c_reply "Invalid Disk"
  else
    guarded "Failed to set resources: "
      (set_server_resources panel server_id ram cpu disk).

(** [UsersCog.change_password] up to the change on the panel: the password
    that the reply will show and whether it was generated.  An absent and an
    empty [new_password] are both falsy. *)
Definition change_password_apply
    (user_id : Z) (new_password : option string) (tok : list byte)
  : C (string * bool) :=
  let chosen :=
    match new_password with
    | Some p => if String.eqb p "" then None else Some p
    | None => None
    end in
  let (password, auto) :=
    match chosen with
    | Some p => (p, false)
    | None => (generate_password tok 16, true)
    end in
  done <~ guarded "Failed to change password: "
            (change_user_password panel user_id password) ;;
  c_ret (password, auto).

(** What [ServersCog.server_info] reads from the result of get_server: the
    value of the Name field and the limits it shows when they are truthy. *)
Definition server_info_view (srv : json) : result (json * json) :=
  match py_get srv "name" JNull with
  | Raise e => Raise e
  | Ok top =>
      match
        (if truthy top then Ok top
         else
           match py_get srv "attributes" (JDict []) with
           | Raise e => Raise e
           | Ok a => py_get a "name" (JStr "unknown")
           end)
      with
      | Raise e => Raise e
      | Ok name =>
          (* [isinstance(srv, dict)] holds here: [srv.get] has succeeded *)
          match py_get srv "attributes" (JDict []) with
          | Raise e => Raise e
          | Ok a =>
              match py_get a "limits" (JDict []) with
              | Raise e => Raise e
              | Ok build => Ok (name, build)
              end
          end
      end
  end.

End Commands.

(** ** The administrators (utils/checks.py) *)

(** [c.isspace()] for a character below 256: U+0009..U+000D,
    U+001C..U+0020, U+0085 and U+00A0. *)
Definition is_space (c : ascii) : bool :=
  let n := N_of_ascii c in
  (((9 <=? n) && (n <=? 13)) || ((28 <=? n) && (n <=? 32))
   || (n =? 133) || (n =? 160))%N.

(** [s.lstrip()], [s.rstrip()] and [s.strip()]. *)
Fixpoint str_lstrip (s : string) : string :=
  match s with
  | EmptyString => EmptyString
  | String c s' => if is_space c then str_lstrip s' else s
  end.

Fixpoint str_rstrip_space (s : string) : string :=
  match s with
  | EmptyString => EmptyString
  | String c s' =>
      match str_rstrip_space s' with
      | EmptyString => if is_space c then EmptyString else String c EmptyString
      | r => String c r
      end
  end.

Definition str_strip (s : string) : string := str_lstrip (str_rstrip_space s).

(** [s.split(sep)] for a separator of one character. *)
Fixpoint str_split (sep : ascii) (s : string) : list string :=
  match s with
  | EmptyString => [EmptyString]
  | String c s' =>
      if Ascii.eqb c sep then EmptyString :: str_split sep s'
      else
        match str_split sep s' with
        | [] => [String c EmptyString]
        | t :: ts => String c t :: ts
        end
  end.

(** [c.isdigit()] for a character below 256: the digits 0-9 and the
    superscripts U+00B2, U+00B3 and U+00B9. *)
Definition is_digit_like (c : ascii) : bool :=
  let n := N_of_ascii c in
  (((48 <=? n) && (n <=? 57)) || (n =? 178) || (n =? 179) || (n =? 185))%N.

Definition is_decimal_digit (c : ascii) : bool :=
  let n := N_of_ascii c in ((48 <=? n) && (n <=? 57))%N.

Fixpoint str_forallb (f : ascii -> bool) (s : string) : bool :=
  match s with
  | EmptyString => true
  | String c s' => f c && str_forallb f s'
  end.

(** [s.isdigit()]: not empty, and every character is a digit. *)
Definition str_isdigit (s : string) : bool :=
  negb (String.eqb s "") && str_forallb is_digit_like s.

(** [sep.join(parts)]. *)
Fixpoint str_join (sep : string) (parts : list string) : string :=
  match parts with
  | [] => EmptyString
  | [p] => p
  | p :: ps => p +++ sep +++ str_join sep ps
  end.

Section Admins.

(** [int(s)] for a string, [None] when it raises [ValueError]. *)
Variable py_int_str : string -> option Z.

(** The comprehension over the tokens: [None] when an [int(...)] raises. *)
Fixpoint admin_ids_of_tokens (tokens : list string) : option (list Z) :=
  match tokens with
  | [] => Some []
  | x :: rest =>
      if str_isdigit (str_strip x) then
        match py_int_str (str_strip x) with
        | None => None
        | Some n =>
            match admin_ids_of_tokens rest with
            | None => None
            | Some ns => Some (n :: ns)
            end
        end
      else admin_ids_of_tokens rest
  end.

(** [ADMIN_IDS], computed when utils/checks.py is imported, from the value of
    the environment variable ([None] when it is not set); the members of the
    set in the order of the tokens.  The result is [None] when the import
    fails with [ValueError]. *)
Definition ADMIN_IDS (env : option string) : option (list Z) :=
  admin_ids_of_tokens
    (str_split ","%char (match env with Some v => v | None => "" end)).

(** The predicate of [admin_check]: [interaction.user.id in ADMIN_IDS]. *)
Definition admin_predicate (ids : list Z) (user_id : Z) : bool :=
  existsb (Z.eqb user_id) ids.

End Admins.

(** The value of a string of decimal digits. *)
Definition decimal_value (s : string) : option Z :=
  match NilZero.uint_of_string s with
  | Some u => Some (Z.of_uint u)
  | None => None
  end.

(** [int] restricted to strings of decimal digits. *)
Definition int_of_decimal (s : string) : option Z :=
  if negb (String.eqb s "") && str_forallb is_decimal_digit s
  then decimal_value s
  else None.

(** ** Statements about commands *)

(** Whatever the command part [m] is started with, it only adds requests,
    and every request it adds satisfies [P]. *)
Definition c_emits {A} (P : request -> Prop) (m : C A) : Prop :=
  forall tr, exists rest, snd (m tr) = tr ++ rest /\ Forall P rest.

(** A request createserver may send before it creates the server: a GET or
    a POST, and not to the servers collection. *)
Definition before_server (req : request) : Prop :=
  (req_method req = GET \/ req_method req = POST)
  /\ req_target req <> Servers.

Definition resources_ok (ram cpu disk : Z) : bool :=
  ram_ok ram && cpu_ok cpu && disk_ok disk.

(** The request that changes the limits of a server. *)
Definition build_request (server_id : string) (ram cpu disk : Z) : request :=
  mkRequest PATCH (ServerBuild server_id)
    (Some (JDict [ ("memory", JInt ram); ("swap", JInt 0); ("disk", JInt disk);
                   ("io", JInt 500); ("cpu", JInt cpu) ]))
    true.

(** The request that resets a password. *)
Definition reset_request (user_id : Z) (password : string) : request :=
  mkRequest POST (UserResetPassword user_id)
    (Some (JDict [ ("password", JStr password);
                   ("password_confirmation", JStr password) ]))
    true.

(** A panel whose email filter answers with a user record without id. *)
Definition anonymous_panel : trace -> request -> outcome :=
  fun tr req =>
    match req_method req, req_target req with
    | GET, UsersByEmail _ =>
        ok_json (page [ entity "user" [ ("username", JStr "zed") ] ])
    | _, _ => modern_panel tr req
    end.

(** A panel that creates the servers it is asked for. *)
Definition hosting_panel : trace -> request -> outcome :=
  fun tr req =>
    match req_method req, req_target req with
    | POST, Servers =>
        Replied (mkResponse 201 (Some "")
                   (Some (entity "server"
                            [ ("id", JInt 21); ("identifier", JStr "0a1b2c3d") ])))
    | _, _ => modern_panel tr req
    end.

(** * Properties *)

(** ** Strings *)

Lemma append_length (s t : string) :
  String.length (s +++ t) = (String.length s + String.length t)%nat.
Proof.
  induction s as [|c s IH]; simpl; [reflexivity | now rewrite IH].
Qed.

Lemma append_assoc (s t u : string) : (s +++ t) +++ u = s +++ t +++ u.
Proof.
  induction s as [|c s IH]; simpl; [reflexivity | now rewrite IH].
Qed.

Lemma append_empty_r (s : string) : s +++ "" = s.
Proof.
  induction s as [|c s IH]; simpl; [reflexivity | now rewrite IH].
Qed.

Lemma append_cancel_r (t s1 s2 : string) : s1 +++ t = s2 +++ t -> s1 = s2.
Proof.
  revert s2; induction s1 as [|c s1 IH]; intros [|d s2] H; simpl in H.
  - reflexivity.
  - apply (f_equal String.length) in H; simpl in H.
    rewrite append_length in H; lia.
  - apply (f_equal String.length) in H; simpl in H.
    rewrite append_length in H; lia.
  - injection H as -> H. f_equal. now apply IH.
Qed.

Lemma prefix_iff (x s : string) :
  String.prefix x s = true <-> exists q, s = x +++ q.
Proof.
  revert s; induction x as [|c x IH]; intros s; simpl.
  - split; [intros _; now exists s | intros _; now destruct s].
  - destruct s as [|d s].
    + split; [discriminate | intros [q Hq]; discriminate].
    + simpl. destruct (ascii_dec c d) as [->|Hne].
      * rewrite IH. split; intros [q Hq]; exists q; congruence.
      * split; [discriminate | intros [q Hq]; congruence].
Qed.

(** [str_in] decides the substring relation. *)
Lemma str_in_iff (x s : string) :
  str_in x s = true <-> exists p q, s = p +++ x +++ q.
Proof.
  induction s as [|c s IH]; cbn [str_in].
  - rewrite orb_false_r. rewrite prefix_iff. split.
    + intros [q Hq]. now exists "", q.
    + intros [[|d p] [q Hq]]; [now exists q | discriminate].
  - rewrite orb_true_iff, IH, prefix_iff. split.
    + intros [[q Hq] | [p [q Hq]]].
      * now exists "", q.
      * exists (String c p), q. simpl. now rewrite Hq.
    + intros [[|d p] [q Hq]].
      * left. now exists q.
      * right. simpl in Hq. injection Hq as _ Hq. now exists p, q.
Qed.

Lemma str_in_here (x s : string) : str_in x (x +++ s) = true.
Proof. apply str_in_iff. now exists "", s. Qed.

Lemma str_in_self (x : string) : str_in x x = true.
Proof. apply str_in_iff. exists "", "". simpl. now rewrite append_empty_r. Qed.

Lemma str_in_skip (p x s : string) :
  str_in x s = true -> str_in x (p +++ s) = true.
Proof.
  rewrite !str_in_iff. intros [a [b ->]].
  exists (p +++ a), b. now rewrite append_assoc.
Qed.

Ltac find_substring :=
  repeat first [ apply str_in_here | apply str_in_self | apply str_in_skip ].

Lemma str_take_length (n : nat) (s : string) :
  String.length (str_take n s) = Nat.min n (String.length s).
Proof.
  revert s; induction n as [|n IH]; intros [|c s]; simpl; auto.
Qed.

Lemma str_take_prefix (n : nat) (s : string) :
  exists rest, s = str_take n s +++ rest.
Proof.
  revert s; induction n as [|n IH]; intros s.
  - now exists s.
  - destruct s as [|c s]; [now exists "" |].
    destruct (IH s) as [rest Hrest]. exists rest. simpl. now rewrite <- Hrest.
Qed.

Lemma str_take_short (n : nat) (s : string) :
  (String.length s <= n)%nat -> str_take n s = s.
Proof.
  revert s; induction n as [|n IH]; intros [|c s] H; simpl in *;
    try reflexivity; try lia.
  f_equal. apply IH. lia.
Qed.

(** Decimal rendering loses nothing. *)
Lemma str_of_int_inj (a b : Z) : str_of_int a = str_of_int b -> a = b.
Proof.
  unfold str_of_int. intros H.
  assert (Hnn : forall z, Z.to_int z <> Pos Nil /\ Z.to_int z <> Neg Nil).
  { intros [|p|p]; simpl; split; try discriminate;
      intros E; injection E as E; now apply (DecimalPos.Unsigned.to_uint_nonnil p). }
  apply to_int_inj.
  assert (E : Some (Z.to_int a) = Some (Z.to_int b)).
  { rewrite <- (NilZero.isi (Z.to_int a)) by apply Hnn.
    rewrite <- (NilZero.isi (Z.to_int b)) by apply Hnn.
    now rewrite H. }
  now injection E.
Qed.

(** ** The monad *)

Lemma emits_ret {A} P (a : A) : emits P (ret a).
Proof. intros tr. exists []. simpl. now rewrite app_nil_r. Qed.

Lemma emits_raise {A} P e : emits P (@raise A e).
Proof. intros tr. exists []. simpl. now rewrite app_nil_r. Qed.

Lemma emits_lift {A} P (r : result A) : emits P (lift r).
Proof. intros tr. exists []. simpl. now rewrite app_nil_r. Qed.

Lemma emits_send panel (P : request -> Prop) req :
  P req -> emits P (send panel req).
Proof.
  intros HP tr. exists [req]. unfold send.
  destruct (panel tr req); simpl; auto.
Qed.

Lemma emits_bind {A B} P (m : M A) (f : A -> M B) :
  emits P m -> (forall a, emits P (f a)) -> emits P (bind m f).
Proof.
  intros Hm Hf tr. unfold bind.
  destruct (Hm tr) as [r1 [E1 F1]].
  destruct (m tr) as [[a|e] tr1]; simpl in E1; subst tr1.
  - destruct (Hf a (tr ++ r1)) as [r2 [E2 F2]].
    exists (r1 ++ r2). rewrite E2, app_assoc. split; [reflexivity |].
    apply Forall_app; auto.
  - now exists r1.
Qed.

Lemma emits_try {A} P (m : M A) (h : exn -> M A) :
  emits P m -> (forall e, emits P (h e)) -> emits P (try_except m h).
Proof.
  intros Hm Hh tr. unfold try_except.
  destruct (Hm tr) as [r1 [E1 F1]].
  destruct (m tr) as [[a|e] tr1]; simpl in E1; subst tr1.
  - now exists r1.
  - destruct (Hh e (tr ++ r1)) as [r2 [E2 F2]].
    exists (r1 ++ r2). rewrite E2, app_assoc. split; [reflexivity |].
    apply Forall_app; auto.
Qed.

Lemma emits_for_each {A B} P (xs : list A) (body : A -> M (option B)) :
  (forall x, emits P (body x)) -> emits P (for_each xs body).
Proof.
  intros Hb. induction xs as [|x xs IH]; simpl.
  - apply emits_ret.
  - apply emits_bind; [apply Hb |].
    intros [b|]; [apply emits_ret | exact IH].
Qed.

Lemma emits_collect {A B} P (xs : list A) (body : A -> M (list B)) :
  (forall x, emits P (body x)) -> emits P (collect xs body).
Proof.
  intros Hb. induction xs as [|x xs IH]; simpl.
  - apply emits_ret.
  - apply emits_bind; [apply Hb |]. intros ys.
    apply emits_bind; [exact IH |]. intros zs. apply emits_ret.
Qed.

Lemma emits_r_json P r : emits P (r_json r).
Proof.
  unfold r_json. destruct (json_body r); [apply emits_ret | apply emits_raise].
Qed.

Lemma emits_r_text P r : emits P (r_text r).
Proof.
  unfold r_text. destruct (text r); [apply emits_ret | apply emits_raise].
Qed.

(** Breaks a statement about the requests of a client method into
    statements about the requests it sends. *)
Ltac emits_steps :=
  repeat first
    [ apply emits_ret | apply emits_raise | apply emits_lift
    | apply emits_r_json | apply emits_r_text
    | apply emits_for_each; intros
    | apply emits_collect; intros
    | apply emits_try; intros
    | apply emits_bind; [| intros]
    | match goal with
      | |- emits _ (if ?c then _ else _) => destruct c
      | |- emits _ (match ?o with Some _ => _ | None => _ end) => destruct o
      end
    | apply emits_send ].

Lemma bind_bind {A B C} (m : M A) (f : A -> M B) (g : B -> M C) tr :
  bind (bind m f) g tr = bind m (fun a => bind (f a) g) tr.
Proof. unfold bind. destruct (m tr) as [[a|e] tr1]; reflexivity. Qed.

Lemma bind_ret {A B} (a : A) (f : A -> M B) tr : bind (ret a) f tr = f a tr.
Proof. reflexivity. Qed.

Lemma bind_lift {A B} (a : A) (f : A -> M B) tr :
  bind (lift (Ok a)) f tr = f a tr.
Proof. reflexivity. Qed.

Lemma bind_send {A} panel req r (k : response -> M A) tr :
  panel tr req = Replied r ->
  bind (send panel req) k tr = k r (tr ++ [req]).
Proof. intros H. unfold bind, send. now rewrite H. Qed.

Lemma bind_send_refused {A} panel req (k : response -> M A) tr :
  panel tr req = Refused ->
  bind (send panel req) k tr = (Raise ClientError, tr ++ [req]).
Proof. intros H. unfold bind, send. now rewrite H. Qed.

(** One step of a client method: a request whose answer is a hypothesis, a
    decoded body, a status comparison or a dictionary access that a
    hypothesis settles. *)
Ltac mstep :=
  match goal with
  | |- context [bind (bind _ _) _ _] => rewrite bind_bind
  | |- context [bind (ret _) _ _] => rewrite bind_ret
  | |- context [bind (lift (Ok _)) _ _] => rewrite bind_lift
  | H : ?panel ?tr ?req = Replied _
    |- context [bind (send ?panel ?req) _ ?tr] =>
      rewrite (bind_send panel req _ _ tr H)
  | H : ?panel ?tr ?req = Refused
    |- context [bind (send ?panel ?req) _ ?tr] =>
      rewrite (bind_send_refused panel req _ tr H)
  | H : json_body ?r = Some _ |- context [r_json ?r] =>
      unfold r_json; rewrite H
  | H : (status ?r =? ?c) = _ |- context [status ?r =? ?c] => rewrite H
  | H : dict_lookup ?k ?kv = _ |- context [dict_lookup ?k ?kv] => rewrite H
  end; cbv beta; cbn [negb orb py_get py_iter].

Lemma starts_with_send {A} panel req (k : response -> M A) :
  (forall r, emits (fun _ => True) (k r)) ->
  starts_with req (bind (send panel req) k).
Proof.
  intros Hk tr. unfold bind, send.
  destruct (panel tr req) as [|r].
  - now exists [].
  - destruct (Hk r (tr ++ [req])) as [rest [E _]].
    exists rest. rewrite E, <- app_assoc. reflexivity.
Qed.

Lemma starts_with_bind {A B} req (m : M A) (f : A -> M B) :
  starts_with req m -> (forall a, emits (fun _ => True) (f a)) ->
  starts_with req (bind m f).
Proof.
  intros Hm Hf tr. unfold bind.
  destruct (Hm tr) as [r1 E1].
  destruct (m tr) as [[a|e] tr1]; simpl in E1; subst tr1.
  - destruct (Hf a (tr ++ req :: r1)) as [r2 [E2 _]].
    exists (r1 ++ r2). rewrite E2, <- app_assoc. reflexivity.
  - now exists r1.
Qed.

(** Runs the single request of a client method against the answer [H]
    says the panel gives. *)
Ltac answer_with H :=
  unfold bind, session_get, session_post, session_delete, session_patch, send;
  rewrite H.

Lemma not_in_eqb (x : Z) (l : list Z) :
  ~ In x l -> forallb (fun y => negb (x =? y)) l = true.
Proof.
  induction l as [|y l IH]; intros H; simpl; [reflexivity |].
  apply andb_true_iff. split.
  - apply negb_true_iff, Z.eqb_neq. intros E. apply H. left. now symmetry.
  - apply IH. intros Hin. apply H. now right.
Qed.

(** Turns "the status is outside the success set" into the outcome of each
    comparison the method makes. *)
Ltac not_status Hnot :=
  apply not_in_eqb in Hnot; cbn [forallb] in Hnot;
  repeat (apply andb_true_iff in Hnot;
          let E := fresh "E" in
          destruct Hnot as [E Hnot]; apply negb_true_iff in E).

(** ** Single records *)

(** C1 (as amended): for get_node, create_user and create_server, and for the
    direct fetch of get_egg, a 200 response whose body is an object yields
    the contents of its [attributes] member when it has one and the body
    itself otherwise; get_server yields the body itself in both cases. *)
Theorem single_record_normalized :
  forall panel tr,
    (forall o r body,
        single_record o = true ->
        panel tr (request_of o) = Replied r ->
        status r = 200 ->
        json_body r = Some (JDict body) ->
        (is_get_server o = false ->
           (forall a, dict_lookup "attributes" body = Some a ->
              run panel o tr = (Ok a, tr ++ [request_of o]))
           /\ (dict_lookup "attributes" body = None ->
              run panel o tr = (Ok (JDict body), tr ++ [request_of o])))
        /\ (is_get_server o = true ->
              run panel o tr = (Ok (JDict body), tr ++ [request_of o])))
    /\ (forall egg_id r body,
        panel tr (mkRequest GET (Egg egg_id) None true) = Replied r ->
        status r = 200 ->
        json_body r = Some (JDict body) ->
        get_egg panel egg_id tr
          = (Ok (normalized body), tr ++ [mkRequest GET (Egg egg_id) None true])).
Proof.
  intros panel tr. split.
  - intros o r body Hs Hp Hst Hb.
    destruct o; try discriminate Hs; cbn [run request_of is_get_server] in *;
      (split;
       [ intros Hg; first [discriminate Hg | split; [intros a Ha | intros Ha]]
       | intros Hg; try discriminate Hg ];
       unfold get_node, get_server, create_user, create_server;
       answer_with Hp; rewrite Hst; cbn; unfold r_json, bind; rewrite Hb; cbn;
       try rewrite Ha; reflexivity).
  - intros egg_id r body Hp Hst Hb.
    unfold get_egg, get_egg_direct, try_except.
    answer_with Hp. rewrite Hst. cbn. unfold r_json, bind. rewrite Hb. reflexivity.
Qed.

Lemma single_record_normalized_witness :
  run demo_panel (OpGetNode 1) []
    = (Ok (JDict [ ("id", JInt 1); ("name", JStr "eu-1") ]),
       [request_of (OpGetNode 1)])
  /\ run demo_panel (OpGetNode 2) []
    = (Ok (JDict [ ("id", JInt 2); ("name", JStr "eu-2") ]),
       [request_of (OpGetNode 2)])
  /\ run demo_panel (OpGetServer "1a2b3c4d") []
    = (Ok (entity "server" survival), [request_of (OpGetServer "1a2b3c4d")])
  /\ get_egg modern_panel 9 []
    = (Ok (JDict forge), [mkRequest GET (Egg 9) None true]).
Proof.
  split; [| split; [| split]].
  - destruct (proj1 (single_record_normalized demo_panel [])
                (OpGetNode 1)
                (mkResponse 200 (Some "") (Some (entity "node" [ ("id", JInt 1); ("name", JStr "eu-1") ])))
                [ ("object", JStr "node");
                  ("attributes", JDict [ ("id", JInt 1); ("name", JStr "eu-1") ]) ]
                eq_refl eq_refl eq_refl eq_refl) as [Hn _].
    destruct (Hn eq_refl) as [Hwith _]. exact (Hwith _ eq_refl).
  - destruct (proj1 (single_record_normalized demo_panel [])
                (OpGetNode 2)
                (mkResponse 200 (Some "") (Some (JDict [ ("id", JInt 2); ("name", JStr "eu-2") ])))
                [ ("id", JInt 2); ("name", JStr "eu-2") ]
                eq_refl eq_refl eq_refl eq_refl) as [Hn _].
    destruct (Hn eq_refl) as [_ Hwithout]. exact (Hwithout eq_refl).
  - destruct (proj1 (single_record_normalized demo_panel [])
                (OpGetServer "1a2b3c4d")
                (mkResponse 200 (Some "") (Some (entity "server" survival)))
                [ ("object", JStr "server"); ("attributes", JDict survival) ]
                eq_refl eq_refl eq_refl eq_refl) as [_ Hs].
    exact (Hs eq_refl).
  - apply (proj2 (single_record_normalized modern_panel [])
             9 (mkResponse 200 (Some "") (Some (entity "egg" forge)))
             [ ("object", JStr "egg"); ("attributes", JDict forge) ]);
      reflexivity.
Defined.

(** get_server answers with the whole body where the claim expects the
    contents of [attributes]. *)
Lemma get_server_keeps_envelope :
  demo_panel [] (request_of (OpGetServer "1a2b3c4d"))
    = Replied (mkResponse 200 (Some "") (Some (entity "server" survival)))
  /\ dict_lookup "attributes"
       [ ("object", JStr "server"); ("attributes", JDict survival) ]
     = Some (JDict survival)
  /\ fst (get_server demo_panel "1a2b3c4d" []) <> Ok (JDict survival).
Proof.
  split; [reflexivity | split; [reflexivity |]].
  vm_compute. discriminate.
Qed.

(** ** The synthetic email *)

Lemma createserver_looks_up_email panel user_id display_name tok :
  starts_with (mkRequest GET (UsersByEmail (panel_user_email user_id)) None true)
    (createserver_panel_user panel user_id display_name tok).
Proof.
  unfold createserver_panel_user.
  apply starts_with_bind.
  - unfold find_user_by_email, session_get.
    apply starts_with_send. intros r.
    unfold list_users, session_get. emits_steps; exact I.
  - intros a. unfold create_user, session_post, r_text. emits_steps; exact I.
Qed.

(** C9: the email under which a chat identity is looked up is "discord-",
    the decimal user id, "@local"; for 12345 it is "discord-12345@local",
    different ids never share an email, and it is the email the lookup of
    createserver sends. *)
Theorem panel_user_email_exact :
  forall a b : Z,
    panel_user_email a = "discord-" +++ str_of_int a +++ "@local"
    /\ panel_user_email 12345 = "discord-12345@local"
    /\ (panel_user_email a = panel_user_email b -> a = b)
    /\ (forall panel display_name tok,
          starts_with
            (mkRequest GET (UsersByEmail (panel_user_email a)) None true)
            (createserver_panel_user panel a display_name tok)).
Proof.
  intros a b. split; [reflexivity | split; [reflexivity | split]].
  - unfold panel_user_email. intros H.
    simpl in H. injection H as H.
    apply append_cancel_r in H. now apply str_of_int_inj.
  - intros panel display_name tok. apply createserver_looks_up_email.
Qed.

Lemma panel_user_email_exact_witness :
  panel_user_email 12345 = panel_user_email 12345 /\ 12345 = 12345.
Proof.
  split; [reflexivity |].
  apply (proj1 (proj2 (proj2 (panel_user_email_exact 12345 12345)))).
  reflexivity.
Defined.

(** ** The create-user payload *)

Lemma str_take_truncation (limit : nat) (s : string) :
  truncation_of limit s (str_take limit s).
Proof.
  unfold truncation_of. split.
  - apply str_take_prefix.
  - apply str_take_length.
Qed.

(** Only one string is the truncation of [s]. *)
Lemma truncation_of_unique (limit : nat) (s t t' : string) :
  truncation_of limit s t -> truncation_of limit s t' -> t = t'.
Proof.
  intros [[rest Hs] Hl] [[rest' Hs'] Hl'].
  rewrite <- Hl' in Hl. clear Hl'. subst s.
  revert t' Hs' Hl. induction t as [|c t IH]; intros [|c' t'] Hs' Hl;
    simpl in *; try reflexivity; try discriminate Hl.
  injection Hs' as -> Hs'. injection Hl as Hl.
  f_equal. now apply IH.
Qed.

(** C7: the one request create_user sends carries the first 191 characters
    of username, first_name and last_name (the whole field when it has no
    more), so no submitted field is longer than 191 characters; with three
    fields of 250 characters each is submitted with 191, and with a display
    name of 250 characters createserver submits a username of 191 and a
    first name of 50 characters. *)
Theorem create_user_truncates :
  forall panel username email first_name last_name password tr,
    exists u f l,
      snd (create_user panel username email first_name last_name password tr)
        = tr ++ [ mkRequest POST Users
                    (Some (JDict [ ("username", JStr u);
                                   ("email", JStr email);
                                   ("first_name", JStr f);
                                   ("last_name", JStr l);
                                   ("password", JStr password) ]))
                    true ]
      /\ truncation_of 191 username u
      /\ truncation_of 191 first_name f
      /\ truncation_of 191 last_name l
      /\ (String.length u <= 191)%nat
      /\ (String.length f <= 191)%nat
      /\ (String.length l <= 191)%nat
      /\ ((String.length username <= 191)%nat -> u = username)
      /\ ((String.length first_name <= 191)%nat -> f = first_name)
      /\ ((String.length last_name <= 191)%nat -> l = last_name)
      /\ (forall t, truncation_of 191 username t -> t = u)
      /\ (forall t, truncation_of 191 first_name t -> t = f)
      /\ (forall t, truncation_of 191 last_name t -> t = l)
      /\ String.length long_display_name = 250%nat
      /\ snd (create_user demo_panel long_display_name "member@example.com"
                long_display_name long_display_name "pw" [])
         = [ mkRequest POST Users
               (Some (JDict [ ("username", JStr (str_repeat "x"%char 191));
                              ("email", JStr "member@example.com");
                              ("first_name", JStr (str_repeat "x"%char 191));
                              ("last_name", JStr (str_repeat "x"%char 191));
                              ("password", JStr "pw") ]))
               true ]
      /\ exists u' f' p',
           snd (createserver_panel_user demo_panel 42 long_display_name
                  sample_token [])
             = [ mkRequest GET (UsersByEmail "discord-42@local") None true;
                 mkRequest GET (UsersPage 1) None true;
                 mkRequest POST Users
                   (Some (JDict [ ("username", JStr u');
                                  ("email", JStr "discord-42@local");
                                  ("first_name", JStr f');
                                  ("last_name", JStr "");
                                  ("password", JStr p') ]))
                   true ]
           /\ String.length u' = 191%nat
           /\ String.length f' = 50%nat.
Proof.
  intros panel username email first_name last_name password tr.
  exists (str_take 191 username), (str_take 191 first_name),
    (str_take 191 last_name).
  split; [| repeat split; try apply str_take_truncation ].
  - unfold create_user, session_post, bind, send, create_user_payload.
    destruct (panel tr _) as [|r]; [reflexivity |].
    destruct ((status r =? 200) || (status r =? 201)); cbn.
    + unfold r_json. destruct (json_body r) as [j|]; cbn; [| reflexivity].
      unfold lift. reflexivity.
    + unfold r_text. destruct (text r); reflexivity.
  - rewrite str_take_length. apply Nat.le_min_l.
  - rewrite str_take_length. apply Nat.le_min_l.
  - rewrite str_take_length. apply Nat.le_min_l.
  - apply str_take_short.
  - apply str_take_short.
  - apply str_take_short.
  - intros t Ht. exact (truncation_of_unique _ _ _ _ Ht (str_take_truncation _ _)).
  - intros t Ht. exact (truncation_of_unique _ _ _ _ Ht (str_take_truncation _ _)).
  - intros t Ht. exact (truncation_of_unique _ _ _ _ Ht (str_take_truncation _ _)).
  - eexists _, _, _. split; [vm_compute; reflexivity | split; reflexivity].
Qed.

(** ** Looking up a user by email *)

Lemma bind_ok {A B} (m : M A) (f : A -> M B) tr b tr' :
  bind m f tr = (Ok b, tr') ->
  exists a tr1, m tr = (Ok a, tr1) /\ f a tr1 = (Ok b, tr').
Proof.
  unfold bind. destruct (m tr) as [[a|e] tr1]; intros H.
  - now exists a, tr1.
  - discriminate H.
Qed.

Lemma lift_ok {A} (r : result A) tr a tr' :
  lift r tr = (Ok a, tr') -> r = Ok a /\ tr' = tr.
Proof. unfold lift. intros H. injection H as -> ->. auto. Qed.

Lemma py_get_ok v k d x :
  py_get v k d = Ok x ->
  exists kv, v = JDict kv
             /\ x = match dict_lookup k kv with Some y => y | None => d end.
Proof.
  destruct v; simpl; intros H; try discriminate H.
  injection H as <-. now exists kv.
Qed.

Lemma py_eq_str_true v s : py_eq_str v s = true -> v = JStr s.
Proof.
  destruct v; simpl; try discriminate. intros H.
  apply String.eqb_eq in H. now subst.
Qed.

(** The loop of the fallback only ever returns a record whose email is the
    one asked for. *)
Lemma email_scan_sound email (items : list json) tr a tr' :
  for_each items (fun u =>
      a <- lift (py_get u "attributes" (JDict [])) ;;
      e <- lift (py_get a "email" JNull) ;;
      if py_eq_str e email then ret (Some a) else ret None) tr
    = (Ok (Some a), tr') ->
  exists kv, a = JDict kv /\ dict_lookup "email" kv = Some (JStr email).
Proof.
  revert tr. induction items as [|u items IH]; intros tr H; cbn [for_each] in H.
  - discriminate H.
  - apply bind_ok in H. destruct H as [o [tr1 [Hbody Hrest]]].
    apply bind_ok in Hbody. destruct Hbody as [x [tr2 [Hx Hbody]]].
    apply lift_ok in Hx. destruct Hx as [Hx ->].
    apply bind_ok in Hbody. destruct Hbody as [e [tr3 [He Hbody]]].
    apply lift_ok in He. destruct He as [He ->].
    apply py_get_ok in He. destruct He as [kv [-> He]].
    destruct (py_eq_str e email) eqn:Heq.
    + injection Hbody as <- <-. injection Hrest as <- _.
      exists kv. split; [reflexivity |].
      apply py_eq_str_true in Heq. rewrite Heq in He.
      destruct (dict_lookup "email" kv); [now subst | discriminate He].
    + injection Hbody as <- <-. now apply (IH tr).
Qed.

(** On a page of well-formed entries the loop of the fallback returns the
    attributes of the first entry with the email asked for. *)
Lemma email_scan_finds email (items : list json) tr :
  forallb is_entry items = true ->
  for_each items (fun u =>
      a <- lift (py_get u "attributes" (JDict [])) ;;
      e <- lift (py_get a "email" JNull) ;;
      if py_eq_str e email then ret (Some a) else ret None) tr
    = (Ok (option_map entry_attrs (find (field_is "email" email) items)), tr).
Proof.
  induction items as [|u items IH]; intros Hwf; [reflexivity |].
  cbn [forallb] in Hwf. apply andb_true_iff in Hwf. destruct Hwf as [Hu Hwf].
  cbn [for_each find]. unfold bind at 1.
  destruct u as [| | | | | |kv]; try discriminate Hu.
  unfold field_is, entry_field, entry_attrs. simpl in Hu.
  destruct (dict_lookup "attributes" kv) as [[| | | | | |a]|] eqn:Ha;
    try discriminate Hu; unfold bind, lift; simpl; rewrite Ha; simpl.
  - destruct (dict_lookup "email" a) as [e|]; simpl.
    + destruct (py_eq_str e email); simpl; [now rewrite Ha | now apply IH].
    + now apply IH.
  - now apply IH.
Qed.

(** The entry a search for an email stops at has exactly that email. *)
Lemma field_is_email email (u : json) :
  field_is "email" email u = true ->
  entry_field "email" u = Some (JStr email).
Proof.
  unfold field_is. destruct (entry_field "email" u) as [e|]; [| discriminate].
  intros H. apply py_eq_str_true in H. now subst.
Qed.

(** C10: when the filtered query answers 200, find_user_by_email returns the
    attributes of the first entry of [data] whatever its email is, and None
    when [data] is empty.  When it answers with another status, page 1 of
    the full list is fetched and compared: the result is the attributes of
    the first entry whose email is exactly the one asked for, the entries
    before it having another email or none, and None when no entry has that
    email; whatever record is returned on this path has the email asked
    for. *)
Theorem filtered_lookup_takes_first :
  forall panel email tr,
    (forall r body,
        panel tr (mkRequest GET (UsersByEmail email) None true) = Replied r ->
        status r = 200 ->
        json_body r = Some (JDict body) ->
        (forall u rest a,
            dict_lookup "data" body = Some (JList (JDict u :: rest)) ->
            dict_lookup "attributes" u = Some a ->
            find_user_by_email panel email tr
              = (Ok a, tr ++ [mkRequest GET (UsersByEmail email) None true]))
        /\ (dict_lookup "data" body = Some (JList []) ->
            find_user_by_email panel email tr
              = (Ok JNull, tr ++ [mkRequest GET (UsersByEmail email) None true])))
    /\ (forall r a tr',
        panel tr (mkRequest GET (UsersByEmail email) None true) = Replied r ->
        status r <> 200 ->
        find_user_by_email panel email tr = (Ok a, tr') ->
        a = JNull
        \/ exists kv, a = JDict kv /\ dict_lookup "email" kv = Some (JStr email))
    /\ (forall r r2 body users,
        panel tr (mkRequest GET (UsersByEmail email) None true) = Replied r ->
        status r <> 200 ->
        panel (tr ++ [mkRequest GET (UsersByEmail email) None true])
              (mkRequest GET (UsersPage 1) None true) = Replied r2 ->
        status r2 = 200 ->
        json_body r2 = Some (JDict body) ->
        dict_lookup "data" body = Some (JList users) ->
        forallb is_entry users = true ->
        (forall pre u post,
            users = pre ++ u :: post ->
            entry_field "email" u = Some (JStr email) ->
            (forall v, In v pre -> entry_field "email" v <> Some (JStr email)) ->
            find_user_by_email panel email tr
              = (Ok (entry_attrs u),
                 tr ++ [mkRequest GET (UsersByEmail email) None true]
                    ++ [mkRequest GET (UsersPage 1) None true]))
        /\ ((forall v, In v users -> entry_field "email" v <> Some (JStr email)) ->
            find_user_by_email panel email tr
              = (Ok JNull,
                 tr ++ [mkRequest GET (UsersByEmail email) None true]
                    ++ [mkRequest GET (UsersPage 1) None true]))).
Proof.
  intros panel email tr. split; [| split].
  - intros r body Hp Hst Hb. split.
    + intros u rest a Hd Ha. unfold find_user_by_email. answer_with Hp.
      rewrite Hst. cbn. unfold r_json, bind. rewrite Hb. cbn.
      rewrite Hd. cbn. rewrite Ha. reflexivity.
    + intros Hd. unfold find_user_by_email. answer_with Hp.
      rewrite Hst. cbn. unfold r_json, bind. rewrite Hb. cbn.
      rewrite Hd. reflexivity.
  - intros r a tr' Hp Hst H. unfold find_user_by_email in H.
    unfold bind at 1, session_get, send in H. rewrite Hp in H.
    apply Z.eqb_neq in Hst. rewrite Hst in H. cbn [negb] in H.
    apply bind_ok in H. destruct H as [users [tr1 [_ H]]].
    apply bind_ok in H. destruct H as [d [tr2 [_ H]]].
    apply bind_ok in H. destruct H as [items [tr3 [_ H]]].
    apply bind_ok in H. destruct H as [found [tr4 [Hscan H]]].
    destruct found as [x|].
    + injection H as <- _. right. exact (email_scan_sound _ _ _ _ _ Hscan).
    + injection H as <- _. now left.
  - intros r r2 body users Hp Hst Hp2 Hst2 Hb Hd Hwf.
    apply Z.eqb_neq in Hst. apply Z.eqb_eq in Hst2.
    assert (Hrun : find_user_by_email panel email tr
                   = (Ok match find (field_is "email" email) users with
                         | Some u => entry_attrs u
                         | None => JNull
                         end,
                      tr ++ [mkRequest GET (UsersByEmail email) None true]
                         ++ [mkRequest GET (UsersPage 1) None true])).
    { unfold find_user_by_email, list_users, session_get.
      repeat mstep.
      unfold bind at 1. rewrite (email_scan_finds email users _ Hwf).
      rewrite <- app_assoc.
      destruct (find (field_is "email" email) users); reflexivity. }
    rewrite Hrun. split.
    + intros pre u post -> Hu Hpre.
      assert (Hf : find (field_is "email" email) (pre ++ u :: post) = Some u).
      { clear Hrun Hd Hwf. induction pre as [|v pre IH]; simpl.
        - unfold field_is. rewrite Hu. cbn [py_eq_str].
          now rewrite String.eqb_refl.
        - destruct (field_is "email" email v) eqn:Hv.
          + exfalso. apply (Hpre v (or_introl eq_refl)).
            now apply field_is_email.
          + apply IH. intros w Hw. apply Hpre. now right. }
      now rewrite Hf.
    + intros Hnone.
      destruct (find (field_is "email" email) users) as [u|] eqn:Hf;
        [| reflexivity].
      apply find_some in Hf. destruct Hf as [Hin Hu].
      exfalso. apply (Hnone u Hin). now apply field_is_email.
Qed.

Lemma filtered_lookup_takes_first_witness :
  find_user_by_email modern_panel "discord-12345@local" []
    = (Ok (JDict bob), [mkRequest GET (UsersByEmail "discord-12345@local") None true])
  /\ dict_lookup "email" bob = Some (JStr "bob@example.com")
  /\ (forall a tr',
        find_user_by_email demo_panel "discord-12345@local" [] = (Ok a, tr') ->
        a = JNull
        \/ exists kv, a = JDict kv
                      /\ dict_lookup "email" kv = Some (JStr "discord-12345@local"))
  /\ find_user_by_email demo_panel "discord-12345@local" []
     = (Ok (JDict alice),
        [ mkRequest GET (UsersByEmail "discord-12345@local") None true;
          mkRequest GET (UsersPage 1) None true ])
  /\ find_user_by_email demo_panel "Bob@example.com" []
     = (Ok JNull,
        [ mkRequest GET (UsersByEmail "Bob@example.com") None true;
          mkRequest GET (UsersPage 1) None true ]).
Proof.
  assert (H500 : status (mkResponse 500 (Some "filter unsupported") None) <> 200)
    by (simpl; discriminate).
  split; [| split; [reflexivity | split; [| split]]].
  - apply (proj1 (proj1 (filtered_lookup_takes_first modern_panel
                           "discord-12345@local" [])
                    (mkResponse 200 (Some "") (Some (page [ entity "user" bob ])))
                    [ ("object", JStr "list");
                      ("data", JList [ entity "user" bob ]) ]
                    eq_refl eq_refl eq_refl)
             [ ("object", JStr "user"); ("attributes", JDict bob) ] []);
      reflexivity.
  - intros a tr'.
    apply (proj1 (proj2 (filtered_lookup_takes_first demo_panel
                           "discord-12345@local" []))
             (mkResponse 500 (Some "filter unsupported") None)).
    + reflexivity.
    + exact H500.
  - apply (proj1 (proj2 (proj2 (filtered_lookup_takes_first demo_panel
                                  "discord-12345@local" []))
                    (mkResponse 500 (Some "filter unsupported") None)
                    (mkResponse 200 (Some "")
                       (Some (page [ entity "user" bob; entity "user" alice ])))
                    [ ("object", JStr "list");
                      ("data", JList [ entity "user" bob; entity "user" alice ]) ]
                    [ entity "user" bob; entity "user" alice ]
                    eq_refl H500 eq_refl eq_refl eq_refl eq_refl eq_refl)
             [ entity "user" bob ] (entity "user" alice) []).
    + reflexivity.
    + reflexivity.
    + intros v [<- | []]. vm_compute. discriminate.
  - apply (proj2 (proj2 (proj2 (filtered_lookup_takes_first demo_panel
                                  "Bob@example.com" []))
                    (mkResponse 500 (Some "filter unsupported") None)
                    (mkResponse 200 (Some "")
                       (Some (page [ entity "user" bob; entity "user" alice ])))
                    [ ("object", JStr "list");
                      ("data", JList [ entity "user" bob; entity "user" alice ]) ]
                    [ entity "user" bob; entity "user" alice ]
                    eq_refl H500 eq_refl eq_refl eq_refl eq_refl eq_refl)).
    intros v [<- | [<- | []]]; vm_compute; discriminate.
Defined.

(** C3 (as amended): when the filtered query answers with a status other
    than 200, find_user_by_email fetches page 1 of the users and, when that
    page is served, returns the attributes of the first entry whose email is
    exactly the one asked for, or None; when the filtered request itself
    fails, the failure reaches the caller and no second request is made; the
    method only ever sends GET requests. *)
Theorem user_lookup_fallback :
  forall panel email tr,
    (forall r r2 body users,
        panel tr (mkRequest GET (UsersByEmail email) None true) = Replied r ->
        status r <> 200 ->
        panel (tr ++ [mkRequest GET (UsersByEmail email) None true])
              (mkRequest GET (UsersPage 1) None true) = Replied r2 ->
        status r2 = 200 ->
        json_body r2 = Some (JDict body) ->
        dict_lookup "data" body = Some (JList users) ->
        forallb is_entry users = true ->
        find_user_by_email panel email tr
          = (Ok match find (field_is "email" email) users with
                | Some u => entry_attrs u
                | None => JNull
                end,
             tr ++ [mkRequest GET (UsersByEmail email) None true]
                ++ [mkRequest GET (UsersPage 1) None true]))
    /\ (panel tr (mkRequest GET (UsersByEmail email) None true) = Refused ->
        find_user_by_email panel email tr
          = (Raise ClientError,
             tr ++ [mkRequest GET (UsersByEmail email) None true]))
    /\ emits is_get (find_user_by_email panel email).
Proof.
  intros panel email tr. split; [| split].
  - intros r r2 body users Hp Hst Hp2 Hst2 Hb Hd Hwf.
    apply Z.eqb_neq in Hst. apply Z.eqb_eq in Hst2.
    unfold find_user_by_email, list_users, session_get.
    repeat mstep.
    unfold bind at 1. rewrite (email_scan_finds email users _ Hwf).
    rewrite <- app_assoc.
    destruct (find (field_is "email" email) users); reflexivity.
  - intros Hp. unfold find_user_by_email. answer_with Hp. reflexivity.
  - unfold find_user_by_email, list_users, session_get.
    emits_steps; reflexivity.
Qed.

Lemma user_lookup_fallback_witness :
  find_user_by_email demo_panel "discord-12345@local" []
    = (Ok (JDict alice),
       [ mkRequest GET (UsersByEmail "discord-12345@local") None true;
         mkRequest GET (UsersPage 1) None true ])
  /\ find_user_by_email dead_panel "discord-12345@local" []
    = (Raise ClientError,
       [ mkRequest GET (UsersByEmail "discord-12345@local") None true ]).
Proof.
  split.
  - apply (proj1 (user_lookup_fallback demo_panel "discord-12345@local" [])
             (mkResponse 500 (Some "filter unsupported") None)
             (mkResponse 200 (Some "") (Some (page [ entity "user" bob; entity "user" alice ])))
             [ ("object", JStr "list");
               ("data", JList [ entity "user" bob; entity "user" alice ]) ]
             [ entity "user" bob; entity "user" alice ]);
      try reflexivity.
    simpl. discriminate.
  - apply (proj1 (proj2 (user_lookup_fallback dead_panel
                           "discord-12345@local" []))).
    reflexivity.
Defined.

(** When the filtered request itself fails, nothing is swallowed and no
    fallback request follows. *)
Lemma request_failure_is_not_swallowed :
  dead_panel [] (mkRequest GET (UsersByEmail "discord-12345@local") None true)
    = Refused
  /\ find_user_by_email dead_panel "discord-12345@local" []
     = (Raise ClientError,
        [ mkRequest GET (UsersByEmail "discord-12345@local") None true ])
  /\ ~ In (mkRequest GET (UsersPage 1) None true)
          (snd (find_user_by_email dead_panel "discord-12345@local" [])).
Proof.
  split; [reflexivity | split; [reflexivity |]].
  simpl. intros [E | []]. discriminate E.
Qed.

(** ** Searching *)

Lemma py_get_attributes (u : json) :
  is_entry u = true -> py_get u "attributes" (JDict []) = Ok (entry_attrs u).
Proof.
  destruct u; simpl; try discriminate. reflexivity.
Qed.

Lemma field_contains_entry query (u : json) (f : string) tr :
  is_entry u = true ->
  field_is_text f u = true ->
  field_contains query (entry_attrs u) f tr = (Ok (field_has f query u), tr).
Proof.
  intros Hu Hf. unfold field_contains, field_has.
  unfold field_is_text in Hf. unfold entry_field in *.
  destruct u as [| | | | | |kv]; try discriminate Hu.
  simpl in *.
  destruct (dict_lookup "attributes" kv) as [[| | | | | |a]|];
    try discriminate Hu; simpl in *.
  - destruct (dict_lookup f a) as [[| | | |s| |]|]; try discriminate Hf;
      reflexivity.
  - reflexivity.
Qed.

(** The loop of a search computes the specified result on a page of entries
    it can examine, and sends nothing. *)
Lemma search_scan f1 f2 query (items : list json) tr :
  forallb (searchable f1 f2) items = true ->
  collect items (fun item =>
      a <- lift (py_get item "attributes" (JDict [])) ;;
      first <- field_contains query a f1 ;;
      if first then ret [a]
      else
        second <- field_contains query a f2 ;;
        if second then ret [a] else ret []) tr
    = (Ok (map entry_attrs
             (filter (fun u => field_has f1 query u || field_has f2 query u)
                items)),
       tr).
Proof.
  induction items as [|u items IH]; intros Hwf; [reflexivity |].
  cbn [forallb] in Hwf. apply andb_true_iff in Hwf. destruct Hwf as [Hu Hwf].
  unfold searchable in Hu.
  apply andb_true_iff in Hu. destruct Hu as [Hu H2].
  apply andb_true_iff in Hu. destruct Hu as [Hu H1].
  cbn [collect filter].
  rewrite bind_bind, (py_get_attributes u Hu), bind_lift.
  rewrite bind_bind. unfold bind at 1.
  rewrite (field_contains_entry query u f1 tr Hu H1).
  destruct (field_has f1 query u); cbn [orb].
  - rewrite bind_ret. unfold bind at 1. rewrite (IH Hwf). reflexivity.
  - rewrite bind_bind. unfold bind at 1.
    rewrite (field_contains_entry query u f2 tr Hu H2).
    destruct (field_has f2 query u);
      rewrite bind_ret; unfold bind at 1; rewrite (IH Hwf); reflexivity.
Qed.

(** C6: search_servers and search_users request page 1 and nothing else, and
    return the records of exactly those entries of that page whose name or
    identifier (username or email) contains the query without regard to
    case; any spelling of "surv" finds Survival and not Creative, and
    "hard" finds nothing although Hardcore is on page 2. *)
Theorem search_scans_first_page :
  forall panel query tr,
    (forall r body items,
        panel tr (mkRequest GET (ServersPage 1) None true) = Replied r ->
        status r = 200 ->
        json_body r = Some (JDict body) ->
        dict_lookup "data" body = Some (JList items) ->
        forallb (searchable "name" "identifier") items = true ->
        search_servers panel query tr
          = (Ok (search_result "name" "identifier" query items),
             tr ++ [mkRequest GET (ServersPage 1) None true]))
    /\ (forall r body items,
        panel tr (mkRequest GET (UsersPage 1) None true) = Replied r ->
        status r = 200 ->
        json_body r = Some (JDict body) ->
        dict_lookup "data" body = Some (JList items) ->
        forallb (searchable "username" "email") items = true ->
        search_users panel query tr
          = (Ok (search_result "username" "email" query items),
             tr ++ [mkRequest GET (UsersPage 1) None true]))
    /\ (str_lower query = "surv" ->
        search_servers demo_panel query []
          = (Ok (JList [JDict survival]),
             [mkRequest GET (ServersPage 1) None true]))
    /\ (demo_panel [] (mkRequest GET (ServersPage 2) None true)
          = ok_json (page [ entity "server" hardcore ])
        /\ search_servers demo_panel "hard" []
          = (Ok (JList []), [mkRequest GET (ServersPage 1) None true])).
Proof.
  intros panel query tr.
  assert (Hservers : forall panel tr r body items,
    panel tr (mkRequest GET (ServersPage 1) None true) = Replied r ->
    status r = 200 ->
    json_body r = Some (JDict body) ->
    dict_lookup "data" body = Some (JList items) ->
    forallb (searchable "name" "identifier") items = true ->
    search_servers panel query tr
      = (Ok (search_result "name" "identifier" query items),
         tr ++ [mkRequest GET (ServersPage 1) None true])).
  { clear panel tr. intros panel tr r body items Hp Hst Hb Hd Hwf.
    apply Z.eqb_eq in Hst.
    unfold search_servers, list_servers, session_get. repeat mstep.
    unfold bind at 1. rewrite (search_scan _ _ query items _ Hwf).
    reflexivity. }
  split; [apply Hservers | split; [| split; [| split; reflexivity]]].
  - intros r body items Hp Hst Hb Hd Hwf.
    apply Z.eqb_eq in Hst.
    unfold search_users, list_users, session_get. repeat mstep.
    unfold bind at 1. rewrite (search_scan _ _ query items _ Hwf).
    reflexivity.
  - intros Hq.
    rewrite (Hservers demo_panel []
               (mkResponse 200 (Some "") (Some (page [ entity "server" survival;
                                               entity "server" creative ])))
               [ ("object", JStr "list");
                 ("data", JList [ entity "server" survival;
                                  entity "server" creative ]) ]
               [ entity "server" survival; entity "server" creative ]
               eq_refl eq_refl eq_refl eq_refl eq_refl).
    unfold search_result, field_has, entry_field. cbn.
    rewrite Hq. reflexivity.
Qed.

Lemma search_scans_first_page_witness :
  search_servers demo_panel "SuRv" []
    = (Ok (JList [JDict survival]), [mkRequest GET (ServersPage 1) None true])
  /\ search_servers demo_panel "creat" []
    = (Ok (JList [JDict creative]), [mkRequest GET (ServersPage 1) None true])
  /\ search_users demo_panel "BOB@" []
    = (Ok (JList [JDict bob]), [mkRequest GET (UsersPage 1) None true]).
Proof.
  split; [| split].
  - apply (proj1 (proj2 (proj2 (search_scans_first_page demo_panel "SuRv" [])))).
    reflexivity.
  - apply (proj1 (search_scans_first_page demo_panel "creat" [])
             (mkResponse 200 (Some "") (Some (page [ entity "server" survival;
                                             entity "server" creative ])))
             [ ("object", JStr "list");
               ("data", JList [ entity "server" survival;
                                entity "server" creative ]) ]
             [ entity "server" survival; entity "server" creative ]);
      reflexivity.
  - apply (proj1 (proj2 (search_scans_first_page demo_panel "BOB@" []))
             (mkResponse 200 (Some "") (Some (page [ entity "user" bob;
                                             entity "user" alice ])))
             [ ("object", JStr "list");
               ("data", JList [ entity "user" bob; entity "user" alice ]) ]
             [ entity "user" bob; entity "user" alice ]);
      reflexivity.
Defined.

(** ** Resolving an egg *)

Lemma find_split {A} (f : A -> bool) (l : list A) (x : A) :
  find f l = Some x ->
  exists pre post,
    l = pre ++ x :: post /\ f x = true /\ (forall y, In y pre -> f y = false).
Proof.
  induction l as [|a l IH]; simpl; [discriminate |].
  destruct (f a) eqn:Ha.
  - intros H. injection H as ->. exists [], l. repeat split; auto.
    intros y [].
  - intros H. destruct (IH H) as [pre [post [-> [Hx Hpre]]]].
    exists (a :: pre), post. repeat split; auto.
    intros y [<- | Hy]; auto.
Qed.

(** The inner loop of get_egg returns the record of the first matching egg
    of a nest, and sends nothing. *)
Lemma scan_eggs_finds egg_id (eggs : list json) tr :
  forallb is_entry eggs = true ->
  scan_eggs egg_id eggs tr
    = (Ok (option_map entry_record (find (egg_matches egg_id) eggs)), tr).
Proof.
  unfold scan_eggs.
  induction eggs as [|e eggs IH]; intros Hwf; [reflexivity |].
  cbn [forallb] in Hwf. apply andb_true_iff in Hwf. destruct Hwf as [He Hwf].
  cbn [for_each find].
  rewrite bind_bind, (py_get_attributes e He), bind_lift.
  unfold egg_matches, nest_id_of, entry_field.
  destruct e as [| | | | | |kv]; try discriminate He.
  simpl in He. cbn [entry_attrs entry_record].
  unfold normalized.
  destruct (dict_lookup "attributes" kv) as [[| | | | | |a]|] eqn:Ha;
    try discriminate He; cbn [py_get].
  - rewrite bind_bind, bind_lift.
    destruct (py_eq_int match dict_lookup "id" a with
                        | Some i => i
                        | None => JNull
                        end egg_id) eqn:E1; cbn [orb].
    + rewrite bind_bind, Ha, bind_lift, bind_ret.
      cbn [option_map entry_record]. unfold normalized. now rewrite Ha.
    + rewrite bind_bind, bind_lift.
      destruct (py_eq_int match dict_lookup "id" kv with
                          | Some i => i
                          | None => JNull
                          end egg_id) eqn:E2.
      * rewrite bind_bind, Ha, bind_lift, bind_ret.
      cbn [option_map entry_record]. unfold normalized. now rewrite Ha.
      * rewrite bind_ret. now apply IH.
  - rewrite bind_bind, bind_lift. cbn [dict_lookup py_eq_int orb].
    rewrite bind_bind, bind_lift.
    destruct (py_eq_int match dict_lookup "id" kv with
                        | Some i => i
                        | None => JNull
                        end egg_id) eqn:E2.
    + rewrite bind_bind, Ha, bind_lift, bind_ret.
      cbn [option_map entry_record]. unfold normalized. now rewrite Ha.
    + rewrite bind_ret. now apply IH.
Qed.

Lemma py_get_id_of_attrs (n : json) :
  is_entry n = true -> py_get (entry_attrs n) "id" JNull = Ok (nest_id_of n).
Proof.
  unfold nest_id_of, entry_field.
  destruct n as [| | | | | |kv]; try discriminate. simpl.
  destruct (dict_lookup "attributes" kv) as [[| | | | | |a]|];
    try discriminate; reflexivity.
Qed.

(** One iteration of the outer loop of get_egg on a nest it can process. *)
Lemma scan_nest_finds answers egg_id (n : json) tr :
  nest_ok answers n = true ->
  scan_nest (stateless answers) egg_id n tr
    = (Ok (option_map entry_record
             (find (egg_matches egg_id) (nest_listing answers n))),
       tr ++ nest_requests n).
Proof.
  intros Hok. unfold nest_ok in Hok.
  apply andb_true_iff in Hok. destruct Hok as [Hn Hok].
  unfold scan_nest, nest_listing, nest_requests, session_get.
  rewrite (py_get_attributes n Hn), bind_lift.
  rewrite (py_get_id_of_attrs n Hn), bind_lift.
  destruct (truthy (nest_id_of n)); cbn [negb].
  - destruct (answers (mkRequest GET (NestEggs (nest_id_of n)) None true))
      as [|r] eqn:Ha; [discriminate Hok |].
    rewrite (bind_send (stateless answers) _ r _ tr Ha).
    destruct (status r =? 200); cbn [negb].
    + destruct (json_body r) as [[| | | | | |b]|] eqn:Hb; try discriminate Hok.
      unfold r_json. rewrite Hb, bind_ret. cbn [py_get].
      destruct (dict_lookup "data" b) as [[| | | | |eggs|]|];
        try discriminate Hok; rewrite bind_lift; cbn [py_iter];
        rewrite bind_lift.
      * now apply scan_eggs_finds.
      * reflexivity.
    + reflexivity.
  - cbn. now rewrite app_nil_r.
Qed.

(** The outer loop of get_egg computes the specified scan. *)
Lemma scan_nests_finds answers egg_id (nests : list json) tr :
  forallb (nest_ok answers) nests = true ->
  for_each nests (scan_nest (stateless answers) egg_id) tr
    = (Ok (fst (nest_scan answers egg_id nests)),
       tr ++ snd (nest_scan answers egg_id nests)).
Proof.
  revert tr. induction nests as [|n nests IH]; intros tr Hwf.
  - simpl. now rewrite app_nil_r.
  - cbn [forallb] in Hwf. apply andb_true_iff in Hwf.
    destruct Hwf as [Hn Hwf].
    cbn [for_each nest_scan]. unfold bind at 1.
    rewrite (scan_nest_finds answers egg_id n tr Hn).
    destruct (find (egg_matches egg_id) (nest_listing answers n)) as [e|];
      cbn [option_map].
    + reflexivity.
    + rewrite (IH _ Hwf).
      destruct (nest_scan answers egg_id nests) as [v reqs]. cbn [fst snd].
      now rewrite app_assoc.
Qed.

(** What the specified scan returns is the first matching egg of the first
    nest that lists one, and its requests stop at that nest. *)
Lemma nest_scan_hit answers egg_id (nests : list json) v :
  fst (nest_scan answers egg_id nests) = Some v ->
  exists pre n post epre e epost,
    nests = pre ++ n :: post
    /\ nest_listing answers n = epre ++ e :: epost
    /\ egg_matches egg_id e = true
    /\ v = entry_record e
    /\ (forall m x, In m pre -> In x (nest_listing answers m) ->
          egg_matches egg_id x = false)
    /\ (forall x, In x epre -> egg_matches egg_id x = false)
    /\ snd (nest_scan answers egg_id nests)
       = flat_map nest_requests (pre ++ [n]).
Proof.
  induction nests as [|n nests IH]; cbn [nest_scan]; [discriminate |].
  destruct (find (egg_matches egg_id) (nest_listing answers n)) as [e|] eqn:Hf.
  - cbn [fst snd]. intros H. injection H as <-.
    destruct (find_split _ _ _ Hf) as [epre [epost [Hl [He Hpre]]]].
    exists [], n, nests, epre, e, epost. repeat split; auto.
    + intros m x [].
    + simpl. now rewrite app_nil_r.
  - destruct (nest_scan answers egg_id nests) as [w reqs]. cbn [fst snd] in *.
    intros H. destruct (IH H)
      as [pre [m [post [epre [e [epost [-> [Hl [He [Hv [Hpre [Hepre Hreq]]]]]]]]]]]].
    exists (n :: pre), m, post, epre, e, epost. repeat split; auto.
    + intros k x [<- | Hk] Hx.
      * exact (find_none _ _ Hf x Hx).
      * exact (Hpre k x Hk Hx).
    + simpl. now rewrite Hreq.
Qed.

Lemma nest_scan_miss answers egg_id (nests : list json) :
  fst (nest_scan answers egg_id nests) = None ->
  (forall n x, In n nests -> In x (nest_listing answers n) ->
     egg_matches egg_id x = false)
  /\ snd (nest_scan answers egg_id nests) = flat_map nest_requests nests.
Proof.
  induction nests as [|n nests IH]; cbn [nest_scan].
  - intros _. split; [intros n x [] | reflexivity].
  - destruct (find (egg_matches egg_id) (nest_listing answers n)) as [e|] eqn:Hf;
      [discriminate |].
    destruct (nest_scan answers egg_id nests) as [w reqs]. cbn [fst snd] in *.
    intros H. destruct (IH H) as [Hall Hreq]. split.
    + intros k x [<- | Hk] Hx.
      * exact (find_none _ _ Hf x Hx).
      * exact (Hall k x Hk Hx).
    + simpl. now rewrite Hreq.
Qed.

(** C2: a 200 answer of the flat eggs path is normalized and returned and
    nothing else is requested; when that path fails (the request raises, or
    the status is not 200) get_egg lists the nests, then the eggs of one nest
    after the other, returns the record of the first egg whose id is the one
    asked for without listing further nests, and raises "Egg <id> not found"
    when no nest has such an egg. *)
Theorem egg_resolution :
  forall panel answers egg_id tr,
    (forall r body,
        panel tr (mkRequest GET (Egg egg_id) None true) = Replied r ->
        status r = 200 ->
        json_body r = Some (JDict body) ->
        get_egg panel egg_id tr
          = (Ok (normalized body), tr ++ [mkRequest GET (Egg egg_id) None true]))
    /\ (forall r nbody nests,
        (answers (mkRequest GET (Egg egg_id) None true) = Refused
         \/ exists r1, answers (mkRequest GET (Egg egg_id) None true) = Replied r1
                       /\ status r1 <> 200) ->
        answers (mkRequest GET Nests None true) = Replied r ->
        status r = 200 ->
        json_body r = Some (JDict nbody) ->
        dict_lookup "data" nbody = Some (JList nests) ->
        forallb (nest_ok answers) nests = true ->
        get_egg (stateless answers) egg_id tr
          = (match fst (nest_scan answers egg_id nests) with
             | Some v => Ok v
             | None => Raise (PteroError ("Egg " +++ str_of_int egg_id
                                          +++ " not found"))
             end,
             tr ++ [mkRequest GET (Egg egg_id) None true]
                ++ [mkRequest GET Nests None true]
                ++ snd (nest_scan answers egg_id nests))
        /\ (forall v,
              fst (nest_scan answers egg_id nests) = Some v ->
              exists pre n post epre e epost,
                nests = pre ++ n :: post
                /\ nest_listing answers n = epre ++ e :: epost
                /\ egg_matches egg_id e = true
                /\ v = entry_record e
                /\ (forall m x, In m pre -> In x (nest_listing answers m) ->
                      egg_matches egg_id x = false)
                /\ (forall x, In x epre -> egg_matches egg_id x = false)
                /\ snd (nest_scan answers egg_id nests)
                   = flat_map nest_requests (pre ++ [n]))
        /\ (fst (nest_scan answers egg_id nests) = None ->
              (forall n x, In n nests -> In x (nest_listing answers n) ->
                 egg_matches egg_id x = false)
              /\ snd (nest_scan answers egg_id nests)
                 = flat_map nest_requests nests)).
Proof.
  intros panel answers egg_id tr. split.
  - intros r body Hp Hst Hb. apply Z.eqb_eq in Hst.
    unfold get_egg, get_egg_direct, try_except, session_get.
    unfold bind at 1. rewrite (bind_send panel _ r _ tr Hp).
    rewrite Hst. unfold r_json. rewrite Hb. reflexivity.
  - intros r nbody nests Hfail Hn Hst Hb Hd Hwf.
    split; [| split; [apply nest_scan_hit | apply nest_scan_miss]].
    assert (Hdirect : get_egg_direct (stateless answers) egg_id tr
                      = (Ok None, tr ++ [mkRequest GET (Egg egg_id) None true])).
    { unfold get_egg_direct, try_except, session_get.
      destruct Hfail as [Hr | [r1 [Hr Hs]]].
      - rewrite (bind_send_refused (stateless answers) _ _ tr Hr). reflexivity.
      - rewrite (bind_send (stateless answers) _ r1 _ tr Hr).
        apply Z.eqb_neq in Hs. rewrite Hs. reflexivity. }
    unfold get_egg. unfold bind at 1. rewrite Hdirect.
    unfold get_egg_fallback, session_get.
    assert (Hn' : stateless answers
                    (tr ++ [mkRequest GET (Egg egg_id) None true])
                    (mkRequest GET Nests None true) = Replied r) by exact Hn.
    apply Z.eqb_eq in Hst. repeat mstep.
    unfold bind at 1. rewrite (scan_nests_finds answers egg_id nests _ Hwf).
    rewrite <- !app_assoc.
    destruct (fst (nest_scan answers egg_id nests)); reflexivity.
Qed.

Lemma egg_resolution_witness :
  get_egg modern_panel 9 []
    = (Ok (JDict forge), [mkRequest GET (Egg 9) None true])
  /\ get_egg demo_panel 5 []
    = (Ok (JDict paper),
       [ mkRequest GET (Egg 5) None true;
         mkRequest GET Nests None true;
         mkRequest GET (NestEggs (JInt 1)) None true ])
  /\ get_egg demo_panel 9 []
    = (Ok (JDict forge),
       [ mkRequest GET (Egg 9) None true;
         mkRequest GET Nests None true;
         mkRequest GET (NestEggs (JInt 1)) None true;
         mkRequest GET (NestEggs (JInt 2)) None true ])
  /\ get_egg demo_panel 99 []
    = (Raise (PteroError "Egg 99 not found"),
       [ mkRequest GET (Egg 99) None true;
         mkRequest GET Nests None true;
         mkRequest GET (NestEggs (JInt 1)) None true;
         mkRequest GET (NestEggs (JInt 2)) None true ]).
Proof.
  assert (Hfallback : forall egg_id,
    get_egg demo_panel egg_id []
      = (match fst (nest_scan (demo_panel []) egg_id
                      [ entity "nest" [ ("id", JInt 1) ];
                        entity "nest" [ ("id", JInt 2) ] ]) with
         | Some v => Ok v
         | None => Raise (PteroError ("Egg " +++ str_of_int egg_id
                                      +++ " not found"))
         end,
         [] ++ [mkRequest GET (Egg egg_id) None true]
            ++ [mkRequest GET Nests None true]
            ++ snd (nest_scan (demo_panel []) egg_id
                      [ entity "nest" [ ("id", JInt 1) ];
                        entity "nest" [ ("id", JInt 2) ] ]))).
  { intros egg_id.
    apply (proj2 (egg_resolution demo_panel (demo_panel []) egg_id [])
             (mkResponse 200 (Some "")
                (Some (page [ entity "nest" [ ("id", JInt 1) ];
                              entity "nest" [ ("id", JInt 2) ] ])))
             [ ("object", JStr "list");
               ("data", JList [ entity "nest" [ ("id", JInt 1) ];
                                entity "nest" [ ("id", JInt 2) ] ]) ]
             [ entity "nest" [ ("id", JInt 1) ];
               entity "nest" [ ("id", JInt 2) ] ]);
      try reflexivity.
    right. exists (mkResponse 404 (Some "not found") None).
    split; [reflexivity | simpl; discriminate]. }
  split; [| split; [| split]].
  - apply (proj1 (egg_resolution modern_panel (modern_panel []) 9 [])
             (mkResponse 200 (Some "") (Some (entity "egg" forge)))
             [ ("object", JStr "egg"); ("attributes", JDict forge) ]);
      reflexivity.
  - exact (Hfallback 5).
  - exact (Hfallback 9).
  - exact (Hfallback 99).
Defined.

(** ** Failures *)

(** A nest whose eggs listing answers with another status than 200 is passed
    over by the scan of get_egg. *)
Lemma scan_nest_skips panel egg_id (n : json) r tr :
  is_entry n = true ->
  truthy (nest_id_of n) = true ->
  panel tr (mkRequest GET (NestEggs (nest_id_of n)) None true) = Replied r ->
  status r <> 200 ->
  scan_nest panel egg_id n tr
    = (Ok None, tr ++ [mkRequest GET (NestEggs (nest_id_of n)) None true]).
Proof.
  intros Hn Hid Hp Hst. apply Z.eqb_neq in Hst.
  unfold scan_nest, session_get.
  rewrite (py_get_attributes n Hn), bind_lift.
  rewrite (py_get_id_of_attrs n Hn), bind_lift.
  rewrite Hid. cbn [negb].
  rewrite (bind_send panel _ r _ tr Hp), Hst. reflexivity.
Qed.

(** The loop of list_eggs takes nothing from nests whose eggs listing answers
    with another status than 200. *)
Lemma list_eggs_skips panel (nests : list json) tr :
  forallb is_entry nests = true ->
  (forall tr' n, In n nests ->
     exists r, panel tr' (mkRequest GET (NestEggs (nest_id_of n)) None true)
               = Replied r
               /\ status r <> 200) ->
  collect nests (fun n =>
      a <- lift (py_get n "attributes" (JDict [])) ;;
      nid <- lift (py_get a "id" JNull) ;;
      er <- session_get panel (NestEggs nid) ;;
      if negb (status er =? 200) then ret []
      else
        eresp <- r_json er ;;
        ed <- lift (py_get eresp "data" (JList [])) ;;
        eitems <- lift (py_iter ed) ;;
        collect eitems (fun e =>
          v <- lift (py_get e "attributes" e) ;;
          ret [v])) tr
    = (Ok [],
       tr ++ map (fun n => mkRequest GET (NestEggs (nest_id_of n)) None true)
               nests).
Proof.
  revert tr. induction nests as [|n nests IH]; intros tr Hwf Hall.
  - simpl. now rewrite app_nil_r.
  - cbn [forallb] in Hwf. apply andb_true_iff in Hwf.
    destruct Hwf as [Hn Hwf].
    destruct (Hall tr n (or_introl eq_refl)) as [r [Hp Hst]].
    apply Z.eqb_neq in Hst.
    cbn [collect map]. unfold session_get.
    rewrite !bind_bind, (py_get_attributes n Hn), bind_lift.
    rewrite !bind_bind, (py_get_id_of_attrs n Hn), bind_lift.
    rewrite !bind_bind, (bind_send panel _ r _ tr Hp), Hst.
    cbn [negb]. rewrite bind_ret.
    unfold bind at 1. unfold session_get in IH. rewrite (IH _ Hwf).
    + unfold ret. cbn [app]. now rewrite <- app_assoc.
    + intros tr' m Hm. apply Hall. now right.
Qed.

(** C4 (as amended): for the operations that send one request, a status
    outside the success set of the operation's class raises [PteroError],
    provided the response text decodes where the operation puts it into the
    message (get_server, the creates and the mutates); the message contains
    the status code, except for list_nodes, whose message is a fixed text.
    For list_eggs and get_egg a nests request answered with another status
    than 200 raises [PteroError] with a fixed text, while such an answer to
    the direct request of get_egg or to the eggs listing of a nest raises
    nothing: get_egg goes on with the nest scan, respectively passes over
    that nest, and list_eggs returns the empty list when the listing of
    every nest is answered that way. *)
Theorem failure_message_has_status :
  forall panel tr,
    (forall o r,
        panel tr (request_of o) = Replied r ->
        ~ In (status r) (success_set (class_of o)) ->
        (reports_body o = true -> text r <> None) ->
        exists msg,
          run panel o tr = (Raise (PteroError msg), tr ++ [request_of o])
          /\ (is_list_nodes o = false ->
                str_in (str_of_int (status r)) msg = true)
          /\ (is_list_nodes o = true -> msg = "Failed to list nodes"))
    /\ (forall r,
        panel tr (mkRequest GET Nests None true) = Replied r ->
        status r <> 200 ->
        list_eggs panel tr
          = (Raise (PteroError "Failed to fetch nests/eggs"),
             tr ++ [mkRequest GET Nests None true]))
    /\ (forall egg_id r1 r2,
        panel tr (mkRequest GET (Egg egg_id) None true) = Replied r1 ->
        status r1 <> 200 ->
        panel (tr ++ [mkRequest GET (Egg egg_id) None true])
              (mkRequest GET Nests None true) = Replied r2 ->
        status r2 <> 200 ->
        get_egg panel egg_id tr
          = (Raise (PteroError "Unable to fetch nests to validate egg"),
             tr ++ [mkRequest GET (Egg egg_id) None true]
                ++ [mkRequest GET Nests None true]))
    /\ (forall egg_id r,
        panel tr (mkRequest GET (Egg egg_id) None true) = Replied r ->
        status r <> 200 ->
        get_egg panel egg_id tr
          = get_egg_fallback panel egg_id
              (tr ++ [mkRequest GET (Egg egg_id) None true]))
    /\ (forall egg_id n r,
        is_entry n = true ->
        truthy (nest_id_of n) = true ->
        panel tr (mkRequest GET (NestEggs (nest_id_of n)) None true) = Replied r ->
        status r <> 200 ->
        scan_nest panel egg_id n tr
          = (Ok None,
             tr ++ [mkRequest GET (NestEggs (nest_id_of n)) None true]))
    /\ (forall r body nests,
        panel tr (mkRequest GET Nests None true) = Replied r ->
        status r = 200 ->
        json_body r = Some (JDict body) ->
        dict_lookup "data" body = Some (JList nests) ->
        forallb is_entry nests = true ->
        (forall tr' n, In n nests ->
           exists r', panel tr' (mkRequest GET (NestEggs (nest_id_of n)) None true)
                      = Replied r'
                      /\ status r' <> 200) ->
        list_eggs panel tr
          = (Ok (JList []),
             tr ++ mkRequest GET Nests None true
                :: map (fun n => mkRequest GET (NestEggs (nest_id_of n)) None true)
                     nests)).
Proof.
  intros panel tr. split; [| split; [| split; [| split; [| split]]]].
  - intros o r Hp Hnot Hdec.
    destruct o;
      cbn [run request_of class_of success_set is_list_nodes
           reports_body is_get_server] in *;
      not_status Hnot;
      unfold get_node, get_server, list_users, list_servers, list_backups,
        list_nodes, create_user, create_server, delete_user,
        change_user_password, delete_server, suspend_server,
        unsuspend_server, set_server_resources;
      answer_with Hp;
      repeat match goal with E : (_ =? _) = false |- _ => rewrite E; clear E end;
      cbn [orb negb];
      try (unfold r_text;
           destruct (text r) as [t|]; [| exfalso; now apply Hdec]);
      (eexists; split; [reflexivity |];
       split; intros Hl; first [discriminate Hl | reflexivity | find_substring]).
  - intros r Hp Hst. unfold list_eggs. answer_with Hp.
    apply Z.eqb_neq in Hst. rewrite Hst. reflexivity.
  - intros egg_id r1 r2 Hp1 Hst1 Hp2 Hst2.
    unfold get_egg, get_egg_direct, try_except. answer_with Hp1.
    apply Z.eqb_neq in Hst1. rewrite Hst1. cbn.
    unfold get_egg_fallback. answer_with Hp2.
    apply Z.eqb_neq in Hst2. rewrite Hst2. cbn. now rewrite <- app_assoc.
  - intros egg_id r Hp Hst. apply Z.eqb_neq in Hst.
    unfold get_egg, get_egg_direct, try_except. answer_with Hp.
    rewrite Hst. reflexivity.
  - intros egg_id n r. apply scan_nest_skips.
  - intros r body nests Hp Hst Hb Hd Hwf Hall. apply Z.eqb_eq in Hst.
    unfold list_eggs. unfold session_get at 1. repeat mstep.
    unfold bind at 1. rewrite (list_eggs_skips panel nests _ Hwf Hall).
    unfold ret. now rewrite <- app_assoc.
Qed.

Lemma failure_message_has_status_witness :
  (exists msg,
      run demo_panel (OpGetNode 3) []
        = (Raise (PteroError msg), [request_of (OpGetNode 3)])
      /\ str_in "404" msg = true)
  /\ (exists msg,
      run demo_panel OpListNodes [] = (Raise (PteroError msg), [request_of OpListNodes])
      /\ msg = "Failed to list nodes")
  /\ (exists msg,
      run demo_panel (OpDeleteServer "ffff") []
        = (Raise (PteroError msg), [request_of (OpDeleteServer "ffff")])
      /\ str_in "404" msg = true)
  /\ list_eggs broken_panel []
     = (Raise (PteroError "Failed to fetch nests/eggs"),
        [mkRequest GET Nests None true])
  /\ get_egg broken_panel 9 []
     = (Raise (PteroError "Unable to fetch nests to validate egg"),
        [mkRequest GET (Egg 9) None true; mkRequest GET Nests None true])
  /\ get_egg demo_panel 9 []
     = get_egg_fallback demo_panel 9 [mkRequest GET (Egg 9) None true]
  /\ scan_nest locked_panel 9 (entity "nest" [ ("id", JInt 1) ]) []
     = (Ok None, [mkRequest GET (NestEggs (JInt 1)) None true])
  /\ list_eggs locked_panel []
     = (Ok (JList []),
        [ mkRequest GET Nests None true;
          mkRequest GET (NestEggs (JInt 1)) None true;
          mkRequest GET (NestEggs (JInt 2)) None true ]).
Proof.
  assert (H503 : status (mkResponse 503 (Some "maintenance") None) <> 200)
    by (simpl; discriminate).
  assert (H404 : status (mkResponse 404 (Some "not found") None) <> 200)
    by (simpl; discriminate).
  assert (H403 : status (mkResponse 403 (Some "forbidden") None) <> 200)
    by (simpl; discriminate).
  split; [| split; [| split; [| split; [| split; [| split; [| split]]]]]].
  - destruct (proj1 (failure_message_has_status demo_panel [])
                (OpGetNode 3) (mkResponse 404 (Some "not found") None) eq_refl)
      as [msg [Hrun [Hmsg _]]].
    + simpl. intros [E | []]. discriminate E.
    + discriminate.
    + exists msg. split; [exact Hrun | exact (Hmsg eq_refl)].
  - destruct (proj1 (failure_message_has_status demo_panel [])
                OpListNodes (mkResponse 500 (Some "server error") None) eq_refl)
      as [msg [Hrun [_ Hmsg]]].
    + simpl. intros [E | []]. discriminate E.
    + discriminate.
    + exists msg. split; [exact Hrun | exact (Hmsg eq_refl)].
  - destruct (proj1 (failure_message_has_status demo_panel [])
                (OpDeleteServer "ffff")
                (mkResponse 404 (Some "not found") None) eq_refl)
      as [msg [Hrun [Hmsg _]]].
    + simpl. intros [E | [E | []]]; discriminate E.
    + intros _. simpl. discriminate.
    + exists msg. split; [exact Hrun | exact (Hmsg eq_refl)].
  - exact (proj1 (proj2 (failure_message_has_status broken_panel []))
             (mkResponse 503 (Some "maintenance") None) eq_refl H503).
  - exact (proj1 (proj2 (proj2 (failure_message_has_status broken_panel [])))
             9 (mkResponse 503 (Some "maintenance") None)
             (mkResponse 503 (Some "maintenance") None)
             eq_refl H503 eq_refl H503).
  - exact (proj1 (proj2 (proj2 (proj2 (failure_message_has_status demo_panel []))))
             9 (mkResponse 404 (Some "not found") None) eq_refl H404).
  - exact (proj1 (proj2 (proj2 (proj2 (proj2
                   (failure_message_has_status locked_panel [])))))
             9 (entity "nest" [ ("id", JInt 1) ])
             (mkResponse 403 (Some "forbidden") None)
             eq_refl eq_refl eq_refl H403).
  - apply (proj2 (proj2 (proj2 (proj2 (proj2
                   (failure_message_has_status locked_panel [])))))
             (mkResponse 200 (Some "")
                (Some (page [ entity "nest" [ ("id", JInt 1) ];
                              entity "nest" [ ("id", JInt 2) ] ])))
             [ ("object", JStr "list");
               ("data", JList [ entity "nest" [ ("id", JInt 1) ];
                                entity "nest" [ ("id", JInt 2) ] ]) ]
             [ entity "nest" [ ("id", JInt 1) ];
               entity "nest" [ ("id", JInt 2) ] ]);
      try reflexivity.
    intros tr' n [<- | [<- | []]];
      (exists (mkResponse 403 (Some "forbidden") None);
       split; [reflexivity | exact H403]).
Defined.

(** list_nodes fails on status 500 with a message that does not contain
    500. *)
Lemma list_nodes_failure_hides_status :
  demo_panel [] (request_of OpListNodes)
    = Replied (mkResponse 500 (Some "server error") None)
  /\ ~ In 500 (success_set (class_of OpListNodes))
  /\ run demo_panel OpListNodes []
     = (Raise (PteroError "Failed to list nodes"), [request_of OpListNodes])
  /\ str_in (str_of_int 500) "Failed to list nodes" = false.
Proof.
  split; [reflexivity | split; [| split; reflexivity]].
  simpl. intros [E | []]. discriminate E.
Qed.

(** ** Passwords *)

Lemma check_below_64 (f : N -> bool) :
  forallb f (map N.of_nat (seq 0 64)) = true ->
  forall i, (i < 64)%N -> f i = true.
Proof.
  intros H i Hi. rewrite forallb_forall in H. apply H.
  rewrite <- (N2Nat.id i). apply in_map. apply in_seq. lia.
Qed.

Lemma b64_char_urlsafe (i : N) : (i < 64)%N -> is_urlsafe (b64_char i) = true.
Proof.
  apply (check_below_64 (fun i => is_urlsafe (b64_char i))).
  vm_compute. reflexivity.
Qed.

Lemma b64_char_not_pad (i : N) : (i < 64)%N -> b64_char i <> "="%char.
Proof.
  intros Hi E. pose proof (b64_char_urlsafe i Hi) as H.
  rewrite E in H. discriminate H.
Qed.

Lemma b64_index_char (i : N) : (i < 64)%N -> b64_index (b64_char i) = i.
Proof.
  intros Hi. apply N.eqb_eq. revert i Hi.
  apply (check_below_64 (fun i => (b64_index (b64_char i) =? i)%N)).
  vm_compute. reflexivity.
Qed.

Lemma b64_char_inj (i j : N) :
  (i < 64)%N -> (j < 64)%N -> b64_char i = b64_char j -> i = j.
Proof.
  intros Hi Hj E.
  rewrite <- (b64_index_char i Hi), <- (b64_index_char j Hj). now rewrite E.
Qed.

(** Names the quotient and the remainder of a division by a constant, for
    linear arithmetic. *)
Ltac split_div x d :=
  let q := fresh "q" in
  let m := fresh "m" in
  let Hq := fresh "Hq" in
  let Hm := fresh "Hm" in
  pose proof (N.div_mod x d ltac:(discriminate)) as Hq;
  pose proof (N.mod_lt x d ltac:(discriminate)) as Hm;
  set (q := (x / d)%N) in *; set (m := (x mod d)%N) in *; clearbody q m.

(** The four sextets of three bytes are below 64. *)
Lemma sextets_bounded (a b c : byte) :
  let x := Byte.to_N a in
  let y := Byte.to_N b in
  let z := Byte.to_N c in
  (x / 4 < 64 /\ (x mod 4) * 16 + y / 16 < 64
   /\ (y mod 16) * 4 + z / 64 < 64 /\ z mod 64 < 64
   /\ (x mod 4) * 16 < 64 /\ (y mod 16) * 4 < 64)%N.
Proof.
  intros x y z.
  pose proof (Byte.to_N_bounded a). pose proof (Byte.to_N_bounded b).
  pose proof (Byte.to_N_bounded c).
  fold x in H. fold y in H0. fold z in H1. clearbody x y z.
  split_div x 4%N. split_div y 16%N. split_div z 64%N. lia.
Qed.

Lemma list_ind3 {A} (P : list A -> Prop) :
  P [] ->
  (forall a, P [a]) ->
  (forall a b, P [a; b]) ->
  (forall a b c l, P l -> P (a :: b :: c :: l)) ->
  forall l, P l.
Proof.
  intros H0 H1 H2 H3.
  assert (H : forall l, P l /\ (forall a, P (a :: l))
                        /\ (forall a b, P (a :: b :: l))).
  { induction l as [|x l [IH0 [IH1 IH2]]].
    - repeat split; auto.
    - repeat split; auto. }
  intros l. apply H.
Qed.

Lemma str_rstrip_keep (c a : ascii) (s : string) :
  a <> c -> str_rstrip c (String a s) = String a (str_rstrip c s).
Proof.
  intros Hne. cbn [str_rstrip].
  destruct (str_rstrip c s); [| reflexivity].
  destruct (Ascii.eqb_spec a c); [contradiction | reflexivity].
Qed.

(** Stripping the padding leaves the encoding of the bytes. *)
Lemma token_urlsafe_body (tok : list byte) : token_urlsafe tok = b64_body tok.
Proof.
  unfold token_urlsafe. induction tok as [|a|a b|a b c l IH] using list_ind3.
  - reflexivity.
  - destruct (sextets_bounded a a a) as [H1 [_ [_ [_ [H5 _]]]]].
    cbn [urlsafe_b64encode b64_body].
    rewrite !str_rstrip_keep by now apply b64_char_not_pad.
    reflexivity.
  - destruct (sextets_bounded a b b) as [H1 [H2 [_ [_ [_ H6]]]]].
    cbn [urlsafe_b64encode b64_body].
    rewrite !str_rstrip_keep by now apply b64_char_not_pad.
    reflexivity.
  - destruct (sextets_bounded a b c) as [H1 [H2 [H3 [H4 _]]]].
    cbn [urlsafe_b64encode b64_body].
    rewrite !str_rstrip_keep by now apply b64_char_not_pad.
    now rewrite IH.
Qed.

Lemma b64_body_length (tok : list byte) :
  (List.length tok <= String.length (b64_body tok))%nat.
Proof.
  induction tok as [|a|a b|a b c l IH] using list_ind3; simpl in *; lia.
Qed.

Lemma b64_body_urlsafe (tok : list byte) : str_all is_urlsafe (b64_body tok).
Proof.
  unfold str_all.
  induction tok as [|a|a b|a b c l IH] using list_ind3.
  - constructor.
  - destruct (sextets_bounded a a a) as [H1 [_ [_ [_ [H5 _]]]]].
    cbn [b64_body list_ascii_of_string].
    repeat constructor; now apply b64_char_urlsafe.
  - destruct (sextets_bounded a b b) as [H1 [H2 [_ [_ [_ H6]]]]].
    cbn [b64_body list_ascii_of_string].
    repeat constructor; now apply b64_char_urlsafe.
  - destruct (sextets_bounded a b c) as [H1 [H2 [H3 [H4 _]]]].
    cbn [b64_body list_ascii_of_string].
    repeat (constructor; [now apply b64_char_urlsafe |]). exact IH.
Qed.

Lemma str_take_all (f : ascii -> bool) (n : nat) (s : string) :
  str_all f s -> str_all f (str_take n s).
Proof.
  unfold str_all. revert s. induction n as [|n IH]; intros [|c s] H; simpl;
    try constructor.
  - now inversion H.
  - apply IH. now inversion H.
Qed.

Lemma to_N_inj (a b : byte) : Byte.to_N a = Byte.to_N b -> a = b.
Proof.
  intros E. pose proof (Byte.of_to_N a) as Ha.
  rewrite E, Byte.of_to_N in Ha. now injection Ha.
Qed.

(** Three bytes are determined by the four characters that encode them. *)
Lemma group_inj (a b c a' b' c' : byte) :
  b64_char (Byte.to_N a / 4) = b64_char (Byte.to_N a' / 4) ->
  b64_char ((Byte.to_N a mod 4) * 16 + Byte.to_N b / 16)
    = b64_char ((Byte.to_N a' mod 4) * 16 + Byte.to_N b' / 16) ->
  b64_char ((Byte.to_N b mod 16) * 4 + Byte.to_N c / 64)
    = b64_char ((Byte.to_N b' mod 16) * 4 + Byte.to_N c' / 64) ->
  b64_char (Byte.to_N c mod 64) = b64_char (Byte.to_N c' mod 64) ->
  a = a' /\ b = b' /\ c = c'.
Proof.
  intros E1 E2 E3 E4.
  destruct (sextets_bounded a b c) as [H1 [H2 [H3 [H4 _]]]].
  destruct (sextets_bounded a' b' c') as [H1' [H2' [H3' [H4' _]]]].
  apply b64_char_inj in E1, E2, E3, E4; auto.
  clear H1 H2 H3 H4 H1' H2' H3' H4'.
  pose proof (Byte.to_N_bounded a). pose proof (Byte.to_N_bounded b).
  pose proof (Byte.to_N_bounded c). pose proof (Byte.to_N_bounded a').
  pose proof (Byte.to_N_bounded b'). pose proof (Byte.to_N_bounded c').
  assert (Byte.to_N a = Byte.to_N a' /\ Byte.to_N b = Byte.to_N b'
          /\ Byte.to_N c = Byte.to_N c') as [Ea [Eb Ec]].
  { set (x := Byte.to_N a) in *. set (y := Byte.to_N b) in *.
    set (z := Byte.to_N c) in *. set (x' := Byte.to_N a') in *.
    set (y' := Byte.to_N b') in *. set (z' := Byte.to_N c') in *.
    clearbody x y z x' y' z'.
    split_div x 4%N. split_div x' 4%N. split_div y 16%N. split_div y' 16%N.
    split_div z 64%N. split_div z' 64%N. lia. }
  repeat split; now apply to_N_inj.
Qed.

(** X25: given the [length] bytes the random source delivers,
    generate_password returns exactly [length] characters, all of the
    URL-safe base64 alphabet; for length 16 two passwords are equal exactly
    when the first twelve delivered bytes are, so the last four bytes do not
    reach the password. *)
Theorem generate_password_shape :
  forall (tok tok' : list byte) (n : nat),
    List.length tok = n ->
    List.length tok' = n ->
    String.length (generate_password tok n) = n
    /\ str_all is_urlsafe (generate_password tok n)
    /\ (n = 16%nat ->
        (generate_password tok n = generate_password tok' n
         <-> firstn 12 tok = firstn 12 tok')).
Proof.
  intros tok tok' n Hlen Hlen'. unfold generate_password.
  rewrite !token_urlsafe_body. split; [| split].
  - rewrite str_take_length. pose proof (b64_body_length tok). lia.
  - apply str_take_all, b64_body_urlsafe.
  - intros ->.
    do 17 (destruct tok as [|? tok]; try discriminate Hlen).
    do 17 (destruct tok' as [|? tok']; try discriminate Hlen').
    cbn [b64_body str_take firstn]. split; intros H.
    + injection H as E1 E2 E3 E4 E5 E6 E7 E8 E9 E10 E11 E12 E13 E14 E15 E16.
      destruct (group_inj _ _ _ _ _ _ E1 E2 E3 E4) as [-> [-> ->]].
      destruct (group_inj _ _ _ _ _ _ E5 E6 E7 E8) as [-> [-> ->]].
      destruct (group_inj _ _ _ _ _ _ E9 E10 E11 E12) as [-> [-> ->]].
      destruct (group_inj _ _ _ _ _ _ E13 E14 E15 E16) as [-> [-> ->]].
      reflexivity.
    + injection H as -> -> -> -> -> -> -> -> -> -> -> ->. reflexivity.
Qed.

Lemma generate_password_shape_witness :
  String.length (generate_password sample_token 16) = 16%nat
  /\ generate_password sample_token 16 = "OvEHnFXiELttBMh_"
  /\ generate_password sample_token 16 <> generate_password other_token 16.
Proof.
  destruct (generate_password_shape sample_token other_token 16 eq_refl eq_refl)
    as [Hlen [_ Hsame]].
  split; [exact Hlen | split; [reflexivity |]].
  intros E. apply (Hsame eq_refl) in E. discriminate E.
Defined.

(** ** The maintenance commands *)

(** C5: the class has no maintenance_on and no maintenance_off: the lookup
    the maintenance commands of cogs/panel.py make on the client raises
    AttributeError, whatever the panel would answer. *)
Theorem maintenance_methods_missing :
  PteroAPI_getattr "maintenance_on" = Raise AttributeError
  /\ PteroAPI_getattr "maintenance_off" = Raise AttributeError
  /\ PteroAPI_getattr "suspend_server" = Ok (Method 1).
Proof. repeat split. Qed.

(** * Further properties of the client *)

Lemma silent_trace {A} (m : M A) tr : silent m -> snd (m tr) = tr.
Proof.
  intros H. destruct (H tr) as [rest [E F]].
  destruct rest as [|x rest]; [now rewrite app_nil_r in E |].
  inversion F as [|? ? Hx _]. destruct Hx.
Qed.

Lemma send_then_silent {A} panel req (k : response -> M A) tr :
  (forall r, silent (k r)) ->
  snd (bind (send panel req) k tr) = tr ++ [req].
Proof.
  intros Hk. unfold bind, send. destruct (panel tr req) as [|r].
  - reflexivity.
  - apply silent_trace, Hk.
Qed.

(** X1: Every operation of one request sends exactly that request, whatever the
    answer is, and a request that fails reaches the caller as the request's
    own error. *)
Theorem one_request_per_operation :
  forall panel o tr,
    snd (run panel o tr) = tr ++ [request_of o]
    /\ (panel tr (request_of o) = Refused ->
        fst (run panel o tr) = Raise ClientError).
Proof.
  intros panel o tr. split.
  - destruct o; cbn [run request_of];
      unfold get_node, get_server, list_users, list_servers, list_backups,
        list_nodes, create_user, create_server, delete_user,
        change_user_password, delete_server, suspend_server,
        unsuspend_server, set_server_resources,
        session_get, session_post, session_delete, session_patch, r_text;
      apply send_then_silent; intros r; unfold silent; emits_steps.
  - intros Hp.
    destruct o; cbn [run request_of] in *;
      unfold get_node, get_server, list_users, list_servers, list_backups,
        list_nodes, create_user, create_server, delete_user,
        change_user_password, delete_server, suspend_server,
        unsuspend_server, set_server_resources,
        session_get, session_post, session_delete, session_patch;
      now rewrite (bind_send_refused panel _ _ tr Hp).
Qed.

Lemma one_request_per_operation_witness :
  run dead_panel (OpDeleteUser 4) []
    = (Raise ClientError, [request_of (OpDeleteUser 4)]).
Proof.
  destruct (one_request_per_operation dead_panel (OpDeleteUser 4) [])
    as [Htrace Hfail].
  specialize (Hfail eq_refl).
  destruct (run dead_panel (OpDeleteUser 4) []) as [res tr'].
  simpl in Htrace, Hfail. now subst.
Defined.

(** X2: A mutate operation answered with 200 or 204 returns [True] without
    looking at the body. *)
Theorem mutate_success_ignores_body :
  forall panel o tr r,
    class_of o = Mutate ->
    panel tr (request_of o) = Replied r ->
    In (status r) [200; 204] ->
    run panel o tr = (Ok (JBool true), tr ++ [request_of o]).
Proof.
  intros panel o tr r Hc Hp Hst.
  assert (Hs : (status r =? 200) || (status r =? 204) = true).
  { destruct Hst as [<- | [<- | []]]; reflexivity. }
  destruct o; try discriminate Hc; cbn [run request_of] in *;
    unfold delete_user, change_user_password, delete_server, suspend_server,
      unsuspend_server, set_server_resources,
      session_post, session_delete, session_patch;
    rewrite (bind_send panel _ r _ tr Hp), Hs; reflexivity.
Qed.

Lemma mutate_success_ignores_body_witness :
  run demo_panel (OpDeleteUser 4) []
    = (Ok (JBool true), [request_of (OpDeleteUser 4)]).
Proof.
  apply (mutate_success_ignores_body demo_panel (OpDeleteUser 4) []
           (mkResponse 204 (Some "") None)); [reflexivity | reflexivity |].
  simpl. auto.
Defined.

(** X3: A create operation answered with 200 or 201 returns the normalized body
    when it is an object; a body that does not decode, or decodes to
    something else, raises an error that is not a [PteroError]. *)
Theorem create_success_decodes_body :
  forall panel o tr r,
    class_of o = Create ->
    panel tr (request_of o) = Replied r ->
    In (status r) [200; 201] ->
    run panel o tr
      = (match json_body r with
         | Some (JDict body) => Ok (normalized body)
         | Some _ => Raise AttributeError
         | None => Raise DecodeError
         end,
         tr ++ [request_of o]).
Proof.
  intros panel o tr r Hc Hp Hst.
  assert (Hs : (status r =? 200) || (status r =? 201) = true).
  { destruct Hst as [<- | [<- | []]]; reflexivity. }
  destruct o; try discriminate Hc; cbn [run request_of] in *;
    unfold create_user, create_server, session_post;
    rewrite (bind_send panel _ r _ tr Hp), Hs;
    unfold r_json, bind;
    destruct (json_body r) as [[| | | | | |body]|]; reflexivity.
Qed.

Lemma create_success_decodes_body_witness :
  run demo_panel (OpCreateUser "carol" "carol@example.com" "Carol" "" "pw") []
    = (Ok (JDict (("id", JInt 10)
                  :: [ ("username", JStr "carol");
                       ("email", JStr "carol@example.com");
                       ("first_name", JStr "Carol");
                       ("last_name", JStr "");
                       ("password", JStr "pw") ])),
       [request_of (OpCreateUser "carol" "carol@example.com" "Carol" "" "pw")]).
Proof.
  apply (create_success_decodes_body demo_panel
           (OpCreateUser "carol" "carol@example.com" "Carol" "" "pw") []
           (mkResponse 201 (Some "")
              (Some (entity "user"
                       (("id", JInt 10)
                        :: [ ("username", JStr "carol");
                             ("email", JStr "carol@example.com");
                             ("first_name", JStr "Carol");
                             ("last_name", JStr "");
                             ("password", JStr "pw") ])))));
    [reflexivity | reflexivity |].
  simpl. auto.
Defined.

(** X4: When a create or mutate operation, or get_server, fails on the status
    and the response decodes as text, the message ends with the status, a
    colon and that text, unchanged; when the response does not decode as
    text, the operation ends with the decoding error and no [PteroError] is
    raised. *)
Theorem failure_message_carries_body :
  forall panel o tr r,
    reports_body o = true ->
    panel tr (request_of o) = Replied r ->
    ~ In (status r) (success_set (class_of o)) ->
    (forall t,
        text r = Some t ->
        exists pre,
          run panel o tr
            = (Raise (PteroError (pre +++ str_of_int (status r) +++ ": " +++ t)),
               tr ++ [request_of o]))
    /\ (text r = None ->
        run panel o tr = (Raise DecodeError, tr ++ [request_of o])).
Proof.
  intros panel o tr r Hb Hp Hnot.
  destruct o; try discriminate Hb;
    cbn [run request_of class_of success_set] in *;
    not_status Hnot;
    unfold get_server, create_user, create_server, delete_user,
      change_user_password, delete_server, suspend_server,
      unsuspend_server, set_server_resources,
      session_get, session_post, session_delete, session_patch;
    rewrite (bind_send panel _ r _ tr Hp);
    repeat match goal with E : (_ =? _) = false |- _ => rewrite E; clear E end;
    cbn [orb]; unfold r_text;
    (split; [intros t Ht | intros Ht]; rewrite Ht;
     [rewrite bind_ret; eexists; unfold raise; reflexivity | reflexivity]).
Qed.

Lemma failure_message_carries_body_witness :
  (exists pre,
      run demo_panel (OpGetServer "ffff") []
        = (Raise (PteroError (pre +++ "404: not found")),
           [request_of (OpGetServer "ffff")]))
  /\ run garbled_panel (OpDeleteUser 4) []
     = (Raise DecodeError, [request_of (OpDeleteUser 4)]).
Proof.
  split.
  - destruct (failure_message_carries_body demo_panel (OpGetServer "ffff") []
                (mkResponse 404 (Some "not found") None) eq_refl eq_refl)
      as [Htext _].
    + simpl. intros [E | []]. discriminate E.
    + destruct (Htext "not found" eq_refl) as [pre H]. exists pre. exact H.
  - destruct (failure_message_carries_body garbled_panel (OpDeleteUser 4) []
                (mkResponse 502 None None) eq_refl eq_refl)
      as [_ Hnone].
    + simpl. intros [E | [E | []]]; discriminate E.
    + exact (Hnone eq_refl).
Defined.

(** X5: Fetching, listing, looking up and searching only ever send GET requests
    without a payload: none of them changes anything on the panel. *)
Theorem lookups_only_read :
  forall panel,
    (forall i, emits is_read (get_node panel i))
    /\ (forall i, emits is_read (get_egg panel i))
    /\ (forall e, emits is_read (find_user_by_email panel e))
    /\ (forall p, emits is_read (list_users panel p))
    /\ (forall s, emits is_read (get_server panel s))
    /\ (forall p, emits is_read (list_servers panel p))
    /\ (forall q, emits is_read (search_servers panel q))
    /\ emits is_read (list_nodes panel)
    /\ emits is_read (list_eggs panel)
    /\ emits is_read (panel_status panel)
    /\ (forall s, emits is_read (list_backups panel s))
    /\ (forall q, emits is_read (search_users panel q)).
Proof.
  intros panel.
  repeat match goal with |- _ /\ _ => split end; intros;
    unfold get_node, get_egg, get_egg_direct, get_egg_fallback, scan_nest,
      scan_eggs, find_user_by_email, list_users, get_server, list_servers,
      search_servers, list_nodes, list_eggs, panel_status, list_backups,
      search_users, field_contains, session_get, r_text;
    emits_steps; split; reflexivity.
Qed.

(** X6: Every request of the client carries the authorization headers, except
    the one of panel_status; that probe sends a single bare GET, answers
    "OK" on 200 and a text with the status otherwise, and never fails on a
    status. *)
Theorem only_the_probe_is_unauthenticated :
  forall panel tr,
    (forall o, emits has_headers (run panel o))
    /\ (forall i, emits has_headers (get_egg panel i))
    /\ (forall e, emits has_headers (find_user_by_email panel e))
    /\ (forall q, emits has_headers (search_servers panel q))
    /\ (forall q, emits has_headers (search_users panel q))
    /\ emits has_headers (list_eggs panel)
    /\ (forall u d tok, emits has_headers (createserver_panel_user panel u d tok))
    /\ snd (panel_status panel tr) = tr ++ [mkRequest GET ApiRoot None false]
    /\ (forall r,
          panel tr (mkRequest GET ApiRoot None false) = Replied r ->
          fst (panel_status panel tr)
            = Ok (JStr (if status r =? 200 then "OK"
                        else "Unclear (status " +++ str_of_int (status r)
                             +++ ")"))).
Proof.
  intros panel tr.
  repeat match goal with |- _ /\ _ => split end; intros.
  1-7: try destruct o; cbn [run];
    unfold get_node, get_server, list_users, list_servers, list_backups,
      list_nodes, create_user, create_server, delete_user,
      change_user_password, delete_server, suspend_server,
      unsuspend_server, set_server_resources,
      get_egg, get_egg_direct, get_egg_fallback, scan_nest,
      scan_eggs, find_user_by_email, list_users, search_servers, list_eggs,
      search_users, field_contains, createserver_panel_user,
      session_get, session_post, session_delete, session_patch, r_text;
    emits_steps; reflexivity.
  - unfold panel_status. apply send_then_silent. intros r.
    unfold silent. emits_steps.
  - unfold panel_status. rewrite (bind_send panel _ r _ tr H).
    destruct (status r =? 200); reflexivity.
Qed.

Lemma only_the_probe_is_unauthenticated_witness :
  panel_status demo_panel []
    = (Ok (JStr "Unclear (status 404)"), [mkRequest GET ApiRoot None false]).
Proof.
  destruct (only_the_probe_is_unauthenticated demo_panel [])
    as [_ [_ [_ [_ [_ [_ [_ [Htrace Hres]]]]]]]].
  specialize (Hres (mkResponse 404 (Some "not found") None) eq_refl).
  destruct (panel_status demo_panel []) as [res tr'].
  simpl in Htrace, Hres. now subst.
Defined.

Lemma collect_records (items : list json) tr :
  forallb is_object items = true ->
  collect items (fun x =>
      v <- lift (py_get x "attributes" x) ;;
      ret [v]) tr
    = (Ok (map entry_record items), tr).
Proof.
  induction items as [|u items IH]; intros Hwf; [reflexivity |].
  cbn [forallb] in Hwf. apply andb_true_iff in Hwf. destruct Hwf as [Hu Hwf].
  destruct u as [| | | | | |kv]; try discriminate Hu.
  cbn [collect map]. rewrite bind_bind. cbn [py_get].
  rewrite bind_lift, bind_ret. unfold bind at 1. rewrite (IH Hwf).
  reflexivity.
Qed.

(** X7: What the list operations hand back on a 200 answer whose body is an
    object: list_users and list_servers the whole body, list_backups the
    value of [data] as it is (an empty list when absent), list_nodes the
    entries of [data] with each envelope removed, in order. *)
Theorem list_results :
  forall panel tr r body,
    status r = 200 ->
    json_body r = Some (JDict body) ->
    (forall p, panel tr (mkRequest GET (UsersPage p) None true) = Replied r ->
       list_users panel p tr
         = (Ok (JDict body), tr ++ [mkRequest GET (UsersPage p) None true]))
    /\ (forall p, panel tr (mkRequest GET (ServersPage p) None true) = Replied r ->
       list_servers panel p tr
         = (Ok (JDict body), tr ++ [mkRequest GET (ServersPage p) None true]))
    /\ (forall s, panel tr (mkRequest GET (ServerBackups s) None true) = Replied r ->
       list_backups panel s tr
         = (Ok match dict_lookup "data" body with
               | Some d => d
               | None => JList []
               end,
            tr ++ [mkRequest GET (ServerBackups s) None true]))
    /\ (panel tr (mkRequest GET Nodes None true) = Replied r ->
        (forall items,
            dict_lookup "data" body = Some (JList items) ->
            forallb is_object items = true ->
            list_nodes panel tr
              = (Ok (JList (map entry_record items)),
                 tr ++ [mkRequest GET Nodes None true]))
        /\ (dict_lookup "data" body = None ->
            list_nodes panel tr
              = (Ok (JList []), tr ++ [mkRequest GET Nodes None true]))).
Proof.
  intros panel tr r body Hst Hb. apply Z.eqb_eq in Hst.
  repeat match goal with |- _ /\ _ => split end; intros.
  - unfold list_users, session_get. repeat mstep. reflexivity.
  - unfold list_servers, session_get. repeat mstep. reflexivity.
  - unfold list_backups, session_get. repeat mstep. reflexivity.
  - split; [intros items Hd Hwf | intros Hd];
      unfold list_nodes, session_get; repeat mstep.
    + unfold bind at 1. rewrite (collect_records items _ Hwf). reflexivity.
    + reflexivity.
Qed.

Lemma list_results_witness :
  list_users demo_panel 1 []
    = (Ok (page [ entity "user" bob; entity "user" alice ]),
       [mkRequest GET (UsersPage 1) None true])
  /\ list_servers demo_panel 2 []
    = (Ok (page [ entity "server" hardcore ]),
       [mkRequest GET (ServersPage 2) None true]).
Proof.
  split.
  - apply (proj1 (list_results demo_panel []
                    (mkResponse 200 (Some "")
                       (Some (page [ entity "user" bob; entity "user" alice ])))
                    [ ("object", JStr "list");
                      ("data", JList [ entity "user" bob; entity "user" alice ]) ]
                    eq_refl eq_refl) 1).
    reflexivity.
  - apply (proj1 (proj2 (list_results demo_panel []
                    (mkResponse 200 (Some "") (Some (page [ entity "server" hardcore ])))
                    [ ("object", JStr "list");
                      ("data", JList [ entity "server" hardcore ]) ]
                    eq_refl eq_refl)) 2).
    reflexivity.
Defined.

(** X8: A failure of the page-1 listing is not hidden by the operations built
    on it: find_user_by_email (after a failed filter) and both searches raise
    the listing's [PteroError] with the listing's status; the status of the
    failed filter is lost. *)
Theorem listing_failure_surfaces :
  forall panel tr r2,
    status r2 <> 200 ->
    (forall email r1,
        panel tr (mkRequest GET (UsersByEmail email) None true) = Replied r1 ->
        status r1 <> 200 ->
        panel (tr ++ [mkRequest GET (UsersByEmail email) None true])
              (mkRequest GET (UsersPage 1) None true) = Replied r2 ->
        find_user_by_email panel email tr
          = (Raise (PteroError ("List users failed (status "
                                +++ str_of_int (status r2) +++ ")")),
             tr ++ [mkRequest GET (UsersByEmail email) None true]
                ++ [mkRequest GET (UsersPage 1) None true]))
    /\ (forall q,
        panel tr (mkRequest GET (UsersPage 1) None true) = Replied r2 ->
        search_users panel q tr
          = (Raise (PteroError ("List users failed (status "
                                +++ str_of_int (status r2) +++ ")")),
             tr ++ [mkRequest GET (UsersPage 1) None true]))
    /\ (forall q,
        panel tr (mkRequest GET (ServersPage 1) None true) = Replied r2 ->
        search_servers panel q tr
          = (Raise (PteroError ("List servers failed: status "
                                +++ str_of_int (status r2))),
             tr ++ [mkRequest GET (ServersPage 1) None true])).
Proof.
  intros panel tr r2 Hst2. apply Z.eqb_neq in Hst2.
  repeat match goal with |- _ /\ _ => split end.
  - intros email r1 Hp1 Hst1 Hp2. apply Z.eqb_neq in Hst1.
    unfold find_user_by_email, list_users, session_get.
    repeat mstep. unfold bind, raise. now rewrite <- app_assoc.
  - intros q Hp. unfold search_users, list_users, session_get.
    repeat mstep. reflexivity.
  - intros q Hp. unfold search_servers, list_servers, session_get.
    repeat mstep. reflexivity.
Qed.

Lemma listing_failure_surfaces_witness :
  find_user_by_email broken_panel "discord-12345@local" []
    = (Raise (PteroError "List users failed (status 503)"),
       [ mkRequest GET (UsersByEmail "discord-12345@local") None true;
         mkRequest GET (UsersPage 1) None true ])
  /\ search_servers broken_panel "surv" []
    = (Raise (PteroError "List servers failed: status 503"),
       [ mkRequest GET (ServersPage 1) None true ]).
Proof.
  assert (H503 : status (mkResponse 503 (Some "maintenance") None) <> 200)
    by (simpl; discriminate).
  split.
  - apply (proj1 (listing_failure_surfaces broken_panel []
                    (mkResponse 503 (Some "maintenance") None) H503)
             "discord-12345@local" (mkResponse 503 (Some "maintenance") None));
      [reflexivity | exact H503 | reflexivity].
  - apply (proj2 (proj2 (listing_failure_surfaces broken_panel []
                           (mkResponse 503 (Some "maintenance") None) H503))
             "surv").
    reflexivity.
Defined.

(** ** Eggs: the scan and the listing *)

(** X9: The direct attempt of get_egg cannot fail: a 200 answer whose body is an
    object is returned normalized, and every other outcome (a failed request,
    another status, a body that does not decode or is not an object) leads
    to the nest scan. *)
Theorem direct_attempt_never_fails :
  forall panel egg_id tr,
    get_egg panel egg_id tr
      = match panel tr (mkRequest GET (Egg egg_id) None true) with
        | Replied r =>
            if status r =? 200 then
              match json_body r with
              | Some (JDict body) =>
                  (Ok (normalized body),
                   tr ++ [mkRequest GET (Egg egg_id) None true])
              | _ =>
                  get_egg_fallback panel egg_id
                    (tr ++ [mkRequest GET (Egg egg_id) None true])
              end
            else
              get_egg_fallback panel egg_id
                (tr ++ [mkRequest GET (Egg egg_id) None true])
        | Refused =>
            get_egg_fallback panel egg_id
              (tr ++ [mkRequest GET (Egg egg_id) None true])
        end.
Proof.
  intros panel egg_id tr.
  unfold get_egg, get_egg_direct, try_except, session_get.
  unfold bind at 1, bind at 1, send.
  destruct (panel tr (mkRequest GET (Egg egg_id) None true)) as [|r];
    [reflexivity |].
  destruct (status r =? 200); [| reflexivity].
  unfold r_json, bind.
  destruct (json_body r) as [[| | | | | |body]|]; reflexivity.
Qed.

(** X10: Inside the scan nothing is guarded: a nest listing that cannot be
    requested, a nests page that does not decode, or a listing of one nest
    that cannot be requested ends get_egg with that error, without asking
    the nests that follow. *)
Theorem scan_failures_propagate :
  forall panel egg_id tr,
    (panel tr (mkRequest GET Nests None true) = Refused ->
     get_egg_fallback panel egg_id tr
       = (Raise ClientError, tr ++ [mkRequest GET Nests None true]))
    /\ (forall r,
        panel tr (mkRequest GET Nests None true) = Replied r ->
        status r = 200 ->
        json_body r = None ->
        get_egg_fallback panel egg_id tr
          = (Raise DecodeError, tr ++ [mkRequest GET Nests None true]))
    /\ (forall r body n rest,
        panel tr (mkRequest GET Nests None true) = Replied r ->
        status r = 200 ->
        json_body r = Some (JDict body) ->
        dict_lookup "data" body = Some (JList (n :: rest)) ->
        is_entry n = true ->
        truthy (nest_id_of n) = true ->
        panel (tr ++ [mkRequest GET Nests None true])
              (mkRequest GET (NestEggs (nest_id_of n)) None true) = Refused ->
        get_egg_fallback panel egg_id tr
          = (Raise ClientError,
             tr ++ [mkRequest GET Nests None true]
                ++ [mkRequest GET (NestEggs (nest_id_of n)) None true])).
Proof.
  intros panel egg_id tr. split; [| split].
  - intros Hp. unfold get_egg_fallback, session_get.
    now rewrite (bind_send_refused panel _ _ tr Hp).
  - intros r Hp Hst Hb. apply Z.eqb_eq in Hst.
    unfold get_egg_fallback, session_get.
    rewrite (bind_send panel _ r _ tr Hp), Hst. cbn [negb].
    unfold r_json. now rewrite Hb.
  - intros r body n rest Hp Hst Hb Hd Hn Hid Hp2. apply Z.eqb_eq in Hst.
    unfold get_egg_fallback, session_get. repeat mstep.
    cbn [for_each]. unfold scan_nest, session_get.
    rewrite !bind_bind, (py_get_attributes n Hn), bind_lift.
    rewrite !bind_bind, (py_get_id_of_attrs n Hn), bind_lift.
    rewrite Hid. cbn [negb]. rewrite !bind_bind.
    rewrite (bind_send_refused panel _ _ _ Hp2).
    now rewrite <- app_assoc.
Qed.

Lemma scan_failures_propagate_witness :
  get_egg_fallback dead_panel 9 []
    = (Raise ClientError, [mkRequest GET Nests None true])
  /\ get_egg_fallback flaky_panel 9 [mkRequest GET (Egg 9) None true]
    = (Raise ClientError,
       [ mkRequest GET (Egg 9) None true;
         mkRequest GET Nests None true;
         mkRequest GET (NestEggs (JInt 1)) None true ])
  /\ get_egg flaky_panel 9 []
    = get_egg_fallback flaky_panel 9 [mkRequest GET (Egg 9) None true]
  /\ flaky_panel [] (mkRequest GET (NestEggs (JInt 2)) None true)
    = ok_json (page [ entity "egg" forge ]).
Proof.
  split; [| split; [| split; reflexivity]].
  - apply (proj1 (scan_failures_propagate dead_panel 9 [])). reflexivity.
  - apply (proj2 (proj2 (scan_failures_propagate flaky_panel 9
                           [mkRequest GET (Egg 9) None true]))
             (mkResponse 200 (Some "")
                (Some (page [ entity "nest" [ ("id", JInt 1) ];
                              entity "nest" [ ("id", JInt 2) ] ])))
             [ ("object", JStr "list");
               ("data", JList [ entity "nest" [ ("id", JInt 1) ];
                                entity "nest" [ ("id", JInt 2) ] ]) ]
             (entity "nest" [ ("id", JInt 1) ])
             [ entity "nest" [ ("id", JInt 2) ] ]);
      reflexivity.
Defined.

(** One iteration of the loop of list_eggs on a nest it can process. *)
Lemma list_nest_eggs answers (n : json) tr :
  nest_listable answers n = true ->
  (a <- lift (py_get n "attributes" (JDict [])) ;;
   nid <- lift (py_get a "id" JNull) ;;
   er <- session_get (stateless answers) (NestEggs nid) ;;
   if negb (status er =? 200) then ret []
   else
     eresp <- r_json er ;;
     ed <- lift (py_get eresp "data" (JList [])) ;;
     eitems <- lift (py_iter ed) ;;
     collect eitems (fun e =>
       v <- lift (py_get e "attributes" e) ;;
       ret [v])) tr
    = (Ok (map entry_record (eggs_listed answers n)),
       tr ++ [mkRequest GET (NestEggs (nest_id_of n)) None true]).
Proof.
  intros Hok. unfold nest_listable in Hok.
  apply andb_true_iff in Hok. destruct Hok as [Hn Hok].
  unfold eggs_listed, session_get.
  rewrite (py_get_attributes n Hn), bind_lift.
  rewrite (py_get_id_of_attrs n Hn), bind_lift.
  destruct (answers (mkRequest GET (NestEggs (nest_id_of n)) None true))
    as [|r] eqn:Ha; [discriminate Hok |].
  rewrite (bind_send (stateless answers) _ r _ tr Ha).
  destruct (status r =? 200); cbn [negb]; [| reflexivity].
  destruct (json_body r) as [[| | | | | |b]|] eqn:Hb; try discriminate Hok.
  unfold r_json. rewrite Hb, bind_ret. cbn [py_get].
  destruct (dict_lookup "data" b) as [[| | | | |eggs|]|];
    try discriminate Hok; rewrite bind_lift; cbn [py_iter];
    rewrite bind_lift.
  - now apply collect_records.
  - reflexivity.
Qed.

Lemma list_nests_eggs answers (nests : list json) tr :
  forallb (nest_listable answers) nests = true ->
  collect nests (fun n =>
      a <- lift (py_get n "attributes" (JDict [])) ;;
      nid <- lift (py_get a "id" JNull) ;;
      er <- session_get (stateless answers) (NestEggs nid) ;;
      if negb (status er =? 200) then ret []
      else
        eresp <- r_json er ;;
        ed <- lift (py_get eresp "data" (JList [])) ;;
        eitems <- lift (py_iter ed) ;;
        collect eitems (fun e =>
          v <- lift (py_get e "attributes" e) ;;
          ret [v])) tr
    = (Ok (flat_map (fun n => map entry_record (eggs_listed answers n)) nests),
       tr ++ map (fun n => mkRequest GET (NestEggs (nest_id_of n)) None true)
               nests).
Proof.
  revert tr. induction nests as [|n nests IH]; intros tr Hwf.
  - simpl. now rewrite app_nil_r.
  - cbn [forallb] in Hwf. apply andb_true_iff in Hwf.
    destruct Hwf as [Hn Hwf].
    cbn [collect flat_map map]. unfold bind at 1.
    rewrite (list_nest_eggs answers n tr Hn).
    unfold bind at 1. rewrite (IH _ Hwf). unfold ret.
    now rewrite <- app_assoc.
Qed.

(** X11: On a panel whose answers do not depend on earlier requests, list_eggs
    asks for the nests and then for the eggs of every nest, one request per
    nest and also for a nest without an id, and returns the records of all
    eggs of the nests whose listing answered 200, in the order of the nests;
    a nest whose listing answers another status contributes nothing. *)
Theorem list_eggs_collects :
  forall answers tr r body nests,
    answers (mkRequest GET Nests None true) = Replied r ->
    status r = 200 ->
    json_body r = Some (JDict body) ->
    dict_lookup "data" body = Some (JList nests) ->
    forallb (nest_listable answers) nests = true ->
    list_eggs (stateless answers) tr
      = (Ok (JList (flat_map (fun n => map entry_record (eggs_listed answers n))
                      nests)),
         tr ++ mkRequest GET Nests None true
            :: map (fun n => mkRequest GET (NestEggs (nest_id_of n)) None true)
                 nests).
Proof.
  intros answers tr r body nests Hp Hst Hb Hd Hwf. apply Z.eqb_eq in Hst.
  assert (Hp' : stateless answers tr (mkRequest GET Nests None true)
                = Replied r) by exact Hp.
  unfold list_eggs. unfold session_get at 1. repeat mstep.
  unfold bind at 1. rewrite (list_nests_eggs answers nests _ Hwf).
  unfold ret. now rewrite <- app_assoc.
Qed.

Lemma list_eggs_collects_witness :
  list_eggs demo_panel []
    = (Ok (JList [ JDict paper; JDict vanilla; JDict forge ]),
       [ mkRequest GET Nests None true;
         mkRequest GET (NestEggs (JInt 1)) None true;
         mkRequest GET (NestEggs (JInt 2)) None true ]).
Proof.
  apply (list_eggs_collects (demo_panel []) []
           (mkResponse 200 (Some "")
              (Some (page [ entity "nest" [ ("id", JInt 1) ];
                            entity "nest" [ ("id", JInt 2) ] ])))
           [ ("object", JStr "list");
             ("data", JList [ entity "nest" [ ("id", JInt 1) ];
                              entity "nest" [ ("id", JInt 2) ] ]) ]
           [ entity "nest" [ ("id", JInt 1) ];
             entity "nest" [ ("id", JInt 2) ] ]);
    reflexivity.
Defined.

(** What the scan of get_egg computes once the direct attempt has failed. *)
Lemma get_egg_fallback_scan answers egg_id tr r body nests :
  answers (mkRequest GET Nests None true) = Replied r ->
  status r = 200 ->
  json_body r = Some (JDict body) ->
  dict_lookup "data" body = Some (JList nests) ->
  forallb (nest_ok answers) nests = true ->
  get_egg_fallback (stateless answers) egg_id tr
    = (match fst (nest_scan answers egg_id nests) with
       | Some v => Ok v
       | None => Raise (PteroError ("Egg " +++ str_of_int egg_id
                                    +++ " not found"))
       end,
       tr ++ mkRequest GET Nests None true
          :: snd (nest_scan answers egg_id nests)).
Proof.
  intros Hp Hst Hb Hd Hwf. apply Z.eqb_eq in Hst.
  assert (Hp' : stateless answers tr (mkRequest GET Nests None true)
                = Replied r) by exact Hp.
  unfold get_egg_fallback, session_get. repeat mstep.
  unfold bind at 1. rewrite (scan_nests_finds answers egg_id nests _ Hwf).
  rewrite <- app_assoc.
  destruct (fst (nest_scan answers egg_id nests)); reflexivity.
Qed.

Lemma nest_listing_listed answers (n e : json) :
  In e (nest_listing answers n) -> In e (eggs_listed answers n).
Proof.
  unfold nest_listing, eggs_listed.
  destruct (truthy (nest_id_of n)); [auto | intros []].
Qed.

(** X12: An egg that the scan of get_egg resolves is one of the eggs list_eggs
    returns for the same panel. *)
Theorem resolved_egg_is_listed :
  forall answers egg_id tr tr' r body nests v tr1,
    answers (mkRequest GET Nests None true) = Replied r ->
    status r = 200 ->
    json_body r = Some (JDict body) ->
    dict_lookup "data" body = Some (JList nests) ->
    forallb (nest_ok answers) nests = true ->
    forallb (nest_listable answers) nests = true ->
    get_egg_fallback (stateless answers) egg_id tr = (Ok v, tr1) ->
    exists eggs tr2,
      list_eggs (stateless answers) tr' = (Ok (JList eggs), tr2)
      /\ In v eggs.
Proof.
  intros answers egg_id tr tr' r body nests v tr1 Hp Hst Hb Hd Hok Hl Hget.
  rewrite (get_egg_fallback_scan answers egg_id tr r body nests
             Hp Hst Hb Hd Hok) in Hget.
  destruct (fst (nest_scan answers egg_id nests)) as [w|] eqn:Hscan;
    [| discriminate Hget].
  injection Hget as <- _.
  destruct (nest_scan_hit answers egg_id nests w Hscan)
    as [pre [n [post [epre [e [epost [Hn [He [_ [Hw _]]]]]]]]]].
  assert (Hlist : list_eggs (stateless answers) tr'
            = (Ok (JList (flat_map
                            (fun n => map entry_record (eggs_listed answers n))
                            nests)),
               tr' ++ mkRequest GET Nests None true
                   :: map (fun n =>
                             mkRequest GET (NestEggs (nest_id_of n)) None true)
                        nests)).
  { assert (Hp' : stateless answers tr' (mkRequest GET Nests None true)
                  = Replied r) by exact Hp.
    assert (Hst' : (status r =? 200) = true) by now apply Z.eqb_eq.
    unfold list_eggs. unfold session_get at 1. repeat mstep.
    unfold bind at 1. rewrite (list_nests_eggs answers nests _ Hl).
    unfold ret. now rewrite <- app_assoc. }
  rewrite Hlist.
  eexists _, _. split; [reflexivity |].
  apply in_flat_map. exists n. split.
  - rewrite Hn. apply in_or_app. right. now left.
  - rewrite Hw. apply in_map. apply nest_listing_listed.
    rewrite He. apply in_or_app. right. now left.
Qed.

Lemma resolved_egg_is_listed_witness :
  exists eggs tr2,
    list_eggs demo_panel [] = (Ok (JList eggs), tr2) /\ In (JDict forge) eggs.
Proof.
  apply (resolved_egg_is_listed (demo_panel []) 9
           [mkRequest GET (Egg 9) None true] []
           (mkResponse 200 (Some "")
              (Some (page [ entity "nest" [ ("id", JInt 1) ];
                            entity "nest" [ ("id", JInt 2) ] ])))
           [ ("object", JStr "list");
             ("data", JList [ entity "nest" [ ("id", JInt 1) ];
                              entity "nest" [ ("id", JInt 2) ] ]) ]
           [ entity "nest" [ ("id", JInt 1) ];
             entity "nest" [ ("id", JInt 2) ] ]
           (JDict forge)
           [ mkRequest GET (Egg 9) None true;
             mkRequest GET Nests None true;
             mkRequest GET (NestEggs (JInt 1)) None true;
             mkRequest GET (NestEggs (JInt 2)) None true ]);
    reflexivity.
Defined.

(** ** Searching: edge cases *)

Lemma lower_char_idem (c : ascii) : lower_char (lower_char c) = lower_char c.
Proof. destruct c as [[] [] [] [] [] [] [] []]; reflexivity. Qed.

Lemma str_lower_idem (s : string) : str_lower (str_lower s) = str_lower s.
Proof.
  induction s as [|c s IH]; simpl; [reflexivity |].
  now rewrite lower_char_idem, IH.
Qed.

Lemma prefix_empty (s : string) : String.prefix "" s = true.
Proof. now destruct s. Qed.

Lemma str_in_empty (s : string) : str_in "" s = true.
Proof. destruct s; reflexivity. Qed.

Lemma field_has_empty (f : string) (u : json) :
  field_is_text f u = true -> field_has f "" u = true.
Proof.
  unfold field_is_text, field_has.
  destruct (entry_field f u) as [[| | | |s| |]|]; try discriminate;
    intros _; apply str_in_empty.
Qed.

Lemma filter_all {A} (f : A -> bool) (l : list A) :
  forallb f l = true -> filter f l = l.
Proof.
  induction l as [|x l IH]; simpl; [reflexivity |].
  intros H. apply andb_true_iff in H. destruct H as [Hx Hl].
  now rewrite Hx, IH.
Qed.

(** X13: A search does not depend on the case of the query, and an empty query
    returns the record of every entry of page 1. *)
Theorem search_edge_cases :
  forall panel query tr,
    search_servers panel (str_lower query) tr = search_servers panel query tr
    /\ search_users panel (str_lower query) tr = search_users panel query tr
    /\ (forall r body items,
        panel tr (mkRequest GET (ServersPage 1) None true) = Replied r ->
        status r = 200 ->
        json_body r = Some (JDict body) ->
        dict_lookup "data" body = Some (JList items) ->
        forallb (searchable "name" "identifier") items = true ->
        search_servers panel "" tr
          = (Ok (JList (map entry_attrs items)),
             tr ++ [mkRequest GET (ServersPage 1) None true])).
Proof.
  intros panel query tr. split; [| split].
  - unfold search_servers, field_contains. now rewrite str_lower_idem.
  - unfold search_users, field_contains. now rewrite str_lower_idem.
  - intros r body items Hp Hst Hb Hd Hwf. apply Z.eqb_eq in Hst.
    unfold search_servers, list_servers, session_get. repeat mstep.
    unfold bind at 1. rewrite (search_scan _ _ "" items _ Hwf).
    rewrite filter_all; [reflexivity |].
    rewrite forallb_forall in Hwf |- *. intros u Hu.
    specialize (Hwf u Hu). unfold searchable in Hwf.
    apply andb_true_iff in Hwf. destruct Hwf as [Hwf _].
    apply andb_true_iff in Hwf. destruct Hwf as [_ H1].
    now rewrite (field_has_empty _ _ H1).
Qed.

Lemma search_edge_cases_witness :
  search_servers demo_panel "" []
    = (Ok (JList [ JDict survival; JDict creative ]),
       [mkRequest GET (ServersPage 1) None true]).
Proof.
  apply (proj2 (proj2 (search_edge_cases demo_panel "" []))
           (mkResponse 200 (Some "") (Some (page [ entity "server" survival;
                                           entity "server" creative ])))
           [ ("object", JStr "list");
             ("data", JList [ entity "server" survival;
                              entity "server" creative ]) ]
           [ entity "server" survival; entity "server" creative ]);
    reflexivity.
Defined.

(** ** The panel user of createserver *)

Lemma find_user_reads panel email :
  emits is_read (find_user_by_email panel email).
Proof.
  unfold find_user_by_email, list_users, session_get.
  emits_steps; split; reflexivity.
Qed.

Lemma create_user_trace panel u e f l p tr :
  snd (create_user panel u e f l p tr)
    = tr ++ [mkRequest POST Users (Some (create_user_payload u e f l p)) true].
Proof.
  unfold create_user, session_post, r_text.
  apply send_then_silent. intros r. unfold silent. emits_steps.
Qed.

(** X14: When the lookup-or-create block of createserver succeeds, either it
    found a user and sent nothing but reads (no password is handed out and
    the user is not touched), or it sent its reads followed by exactly one
    create-user request, and the password it hands out is the one that
    request submitted. *)
Theorem panel_user_found_or_created :
  forall panel user_id display_name tok tr u pw tr',
    createserver_panel_user panel user_id display_name tok tr
      = (Ok (u, pw), tr') ->
    (pw = None /\ truthy u = true
     /\ exists reads, tr' = tr ++ reads /\ Forall is_read reads)
    \/ (pw = Some (generate_password tok 16)
        /\ exists reads,
             tr' = tr ++ reads
                   ++ [mkRequest POST Users
                         (Some (create_user_payload
                                  (display_name +++ "-" +++ str_of_int user_id)
                                  (panel_user_email user_id)
                                  (str_take 50 display_name) ""
                                  (generate_password tok 16)))
                         true]
             /\ Forall is_read reads).
Proof.
  intros panel user_id display_name tok tr u pw tr' H.
  unfold createserver_panel_user in H.
  apply bind_ok in H. destruct H as [found [tr1 [Hfind H]]].
  destruct (find_user_reads panel (panel_user_email user_id) tr)
    as [reads [Etr Hreads]].
  rewrite Hfind in Etr. simpl in Etr. subst tr1.
  destruct (truthy found) eqn:Ht; cbn [negb] in H.
  - injection H as <- <- <-. left. repeat split; auto. now exists reads.
  - apply bind_ok in H. destruct H as [created [tr2 [Hcreate H]]].
    injection H as <- <- <-. right. split; [reflexivity |].
    exists reads. split; [| exact Hreads].
    pose proof (create_user_trace panel
                  (display_name +++ "-" +++ str_of_int user_id)
                  (panel_user_email user_id) (str_take 50 display_name) ""
                  (generate_password tok 16) (tr ++ reads)) as E.
    rewrite Hcreate in E. simpl in E. rewrite E. now rewrite <- app_assoc.
Qed.

Lemma panel_user_found_or_created_witness :
  (@None string = None /\ truthy (JDict alice) = true
   /\ exists reads,
        [ mkRequest GET (UsersByEmail "discord-12345@local") None true;
          mkRequest GET (UsersPage 1) None true ] = [] ++ reads
        /\ Forall is_read reads)
  \/ (@None string = Some (generate_password sample_token 16)
      /\ exists reads,
           [ mkRequest GET (UsersByEmail "discord-12345@local") None true;
             mkRequest GET (UsersPage 1) None true ]
             = [] ++ reads
               ++ [mkRequest POST Users
                     (Some (create_user_payload
                              ("Alice" +++ "-" +++ str_of_int 12345)
                              (panel_user_email 12345)
                              (str_take 50 "Alice") ""
                              (generate_password sample_token 16)))
                     true]
           /\ Forall is_read reads).
Proof.
  apply (panel_user_found_or_created demo_panel 12345 "Alice" sample_token []).
  reflexivity.
Defined.

(** * Properties of the commands *)

Lemma emits_weaken {A} (P Q : request -> Prop) (m : M A) :
  (forall req, P req -> Q req) -> emits P m -> emits Q m.
Proof.
  intros HPQ Hm tr. destruct (Hm tr) as [rest [E F]].
  exists rest. split; [exact E |].
  eapply Forall_impl; [exact HPQ | exact F].
Qed.

Lemma c_emits_ret {A} P (a : A) : c_emits P (c_ret a).
Proof. intros tr. exists []. simpl. now rewrite app_nil_r. Qed.

Lemma c_emits_reply {A} P d : c_emits P (@c_reply A d).
Proof. intros tr. exists []. simpl. now rewrite app_nil_r. Qed.

Lemma c_emits_lift {A} P (e : ending A) : c_emits P (c_lift e).
Proof. intros tr. exists []. simpl. now rewrite app_nil_r. Qed.

Lemma c_emits_guarded {A} P prefix (m : M A) :
  emits P m -> c_emits P (guarded prefix m).
Proof.
  intros Hm tr. destruct (Hm tr) as [rest [E F]].
  exists rest. unfold guarded.
  destruct (m tr) as [[a|[msg| | | |]] tr1]; simpl in *; auto.
Qed.

Lemma c_emits_bind {A B} P (m : C A) (f : A -> C B) :
  c_emits P m -> (forall a, c_emits P (f a)) -> c_emits P (c_bind m f).
Proof.
  intros Hm Hf tr. unfold c_bind.
  destruct (Hm tr) as [r1 [E1 F1]].
  destruct (m tr) as [[a|d|c] tr1]; simpl in E1; subst tr1.
  - destruct (Hf a (tr ++ r1)) as [r2 [E2 F2]].
    exists (r1 ++ r2). rewrite E2, app_assoc. split; [reflexivity |].
    apply Forall_app; auto.
  - now exists r1.
  - now exists r1.
Qed.

Lemma get_node_before_server panel i : emits before_server (get_node panel i).
Proof.
  unfold get_node, session_get.
  emits_steps; (split; [now left | discriminate]).
Qed.

Lemma get_egg_before_server panel i : emits before_server (get_egg panel i).
Proof.
  unfold get_egg, get_egg_direct, get_egg_fallback, scan_nest, scan_eggs,
    session_get.
  emits_steps; (split; [now left | discriminate]).
Qed.

Lemma panel_user_before_server panel u d tok :
  emits before_server (createserver_panel_user panel u d tok).
Proof.
  unfold createserver_panel_user, find_user_by_email, list_users, create_user,
    session_get, session_post, r_text.
  emits_steps; (split; first [now left | now right | discriminate]).
Qed.

Lemma create_server_request panel n u e nd m c d v :
  emits (fun req =>
           req = mkRequest POST Servers
                   (Some (create_server_payload n u e nd m c d v)) true)
    (create_server panel n u e nd m c d v).
Proof.
  unfold create_server, session_post, r_text. emits_steps. reflexivity.
Qed.

Lemma resources_ok_bounds ram cpu disk :
  resources_ok ram cpu disk = true <->
  128 <= ram <= 32768 /\ 1 <= cpu <= 400 /\ 100 <= disk <= 1000000.
Proof.
  unfold resources_ok, ram_ok, cpu_ok, disk_ok.
  rewrite !andb_true_iff, !negb_true_iff, !orb_false_iff, !Z.ltb_ge. lia.
Qed.

(** X15: createserver checks before it acts: resources out of range are refused
    without a single request; a node that cannot be validated ends the
    command right after the node request, and an egg that cannot be validated
    right after the egg lookup, each with the client's message in the reply;
    in none of these cases is a user looked up or created. *)
Theorem createserver_validates_first :
  forall py_int_str panel name ram cpu disk version node_id egg_id user_id
         display_name tok tr,
    (resources_ok ram cpu disk = false ->
     exists msg,
       createserver_provision py_int_str panel name ram cpu disk version
         node_id egg_id user_id display_name tok tr
         = (Error_reply msg, tr))
    /\ (resources_ok ram cpu disk = true ->
        forall msg tr1,
          get_node panel node_id tr = (Raise (PteroError msg), tr1) ->
          createserver_provision py_int_str panel name ram cpu disk version
            node_id egg_id user_id display_name tok tr
            = (Error_reply ("Node validation failed: " +++ msg), tr1))
    /\ (resources_ok ram cpu disk = true ->
        forall node tr1 msg tr2,
          get_node panel node_id tr = (Ok node, tr1) ->
          get_egg panel egg_id tr1 = (Raise (PteroError msg), tr2) ->
          createserver_provision py_int_str panel name ram cpu disk version
            node_id egg_id user_id display_name tok tr
            = (Error_reply ("Egg validation failed: " +++ msg), tr2)).
Proof.
  intros py_int_str panel name ram cpu disk version node_id egg_id user_id
    display_name tok tr.
  unfold resources_ok, ram_ok, cpu_ok, disk_ok, createserver_provision.
  split; [| split].
  - intros H.
    destruct ((ram <? 128) || (32768 <? ram)); [now eexists |].
    destruct ((cpu <? 1) || (400 <? cpu)); [now eexists |].
    destruct ((disk <? 100) || (1000000 <? disk)); [now eexists |].
    discriminate H.
  - intros H msg tr1 Hnode.
    destruct ((ram <? 128) || (32768 <? ram)); [discriminate H |].
    destruct ((cpu <? 1) || (400 <? cpu)); [discriminate H |].
    destruct ((disk <? 100) || (1000000 <? disk)); [discriminate H |].
    unfold c_bind at 1, guarded at 1. now rewrite Hnode.
  - intros H node tr1 msg tr2 Hnode Hegg.
    destruct ((ram <? 128) || (32768 <? ram)); [discriminate H |].
    destruct ((cpu <? 1) || (400 <? cpu)); [discriminate H |].
    destruct ((disk <? 100) || (1000000 <? disk)); [discriminate H |].
    unfold c_bind at 1, guarded at 1. rewrite Hnode.
    unfold c_bind at 1, guarded at 1. now rewrite Hegg.
Qed.

Lemma createserver_validates_first_witness :
  (exists msg,
      createserver_provision int_of_decimal demo_panel "lobby" 64 100 5000
        "java17" 1 5 12345 "Alice" sample_token []
        = (Error_reply msg, []))
  /\ createserver_provision int_of_decimal demo_panel "lobby" 1024 100 5000
       "java17" 3 5 12345 "Alice" sample_token []
     = (Error_reply
          "Node validation failed: Node 3 not found (status 404)",
        [mkRequest GET (Node 3) None true])
  /\ createserver_provision int_of_decimal demo_panel "lobby" 1024 100 5000
       "java17" 1 99 12345 "Alice" sample_token []
     = (Error_reply "Egg validation failed: Egg 99 not found",
        [ mkRequest GET (Node 1) None true;
          mkRequest GET (Egg 99) None true;
          mkRequest GET Nests None true;
          mkRequest GET (NestEggs (JInt 1)) None true;
          mkRequest GET (NestEggs (JInt 2)) None true ]).
Proof.
  split; [| split].
  - apply (proj1 (createserver_validates_first int_of_decimal demo_panel
                    "lobby" 64 100 5000 "java17" 1 5 12345 "Alice"
                    sample_token [])).
    reflexivity.
  - apply (proj1 (proj2 (createserver_validates_first int_of_decimal
                           demo_panel "lobby" 1024 100 5000 "java17" 3 5
                           12345 "Alice" sample_token []))
             eq_refl "Node 3 not found (status 404)").
    reflexivity.
  - apply (proj2 (proj2 (createserver_validates_first int_of_decimal
                           demo_panel "lobby" 1024 100 5000 "java17" 1 99
                           12345 "Alice" sample_token []))
             eq_refl
             (JDict [ ("id", JInt 1); ("name", JStr "eu-1") ])
             [mkRequest GET (Node 1) None true]
             "Egg 99 not found").
    + reflexivity.
    + reflexivity.
Defined.

(** X16: createserver never deletes or patches anything, and the only request
    it ever sends to the servers collection is the creation of the server
    with the name, egg, node and resources of the command, resources that
    are then within the bounds: 128..32768 MB of memory, 1..400 % of CPU,
    100..1000000 MB of disk. *)
Theorem createserver_requests :
  forall py_int_str panel name ram cpu disk version node_id egg_id user_id
         display_name tok,
    c_emits
      (fun req =>
         (req_method req = GET \/ req_method req = POST)
         /\ (req_target req = Servers ->
             (128 <= ram <= 32768 /\ 1 <= cpu <= 400 /\ 100 <= disk <= 1000000)
             /\ exists uid,
                  req = mkRequest POST Servers
                          (Some (create_server_payload name uid egg_id node_id
                                   ram cpu disk version))
                          true))
      (createserver_provision py_int_str panel name ram cpu disk version
         node_id egg_id user_id display_name tok).
Proof.
  intros py_int_str panel name ram cpu disk version node_id egg_id user_id
    display_name tok.
  unfold createserver_provision.
  destruct ((ram <? 128) || (32768 <? ram)) eqn:Hr; [apply c_emits_reply |].
  destruct ((cpu <? 1) || (400 <? cpu)) eqn:Hc; [apply c_emits_reply |].
  destruct ((disk <? 100) || (1000000 <? disk)) eqn:Hd; [apply c_emits_reply |].
  assert (Hok : 128 <= ram <= 32768 /\ 1 <= cpu <= 400
                /\ 100 <= disk <= 1000000).
  { apply resources_ok_bounds. unfold resources_ok, ram_ok, cpu_ok, disk_ok.
    now rewrite Hr, Hc, Hd. }
  assert (Hpre : forall req, before_server req ->
            (req_method req = GET \/ req_method req = POST)
            /\ (req_target req = Servers ->
                (128 <= ram <= 32768 /\ 1 <= cpu <= 400
                 /\ 100 <= disk <= 1000000)
                /\ exists uid,
                     req = mkRequest POST Servers
                             (Some (create_server_payload name uid egg_id
                                      node_id ram cpu disk version))
                             true)).
  { intros req [Hm Ht]. split; [exact Hm | intros E; contradiction]. }
  apply c_emits_bind;
    [apply c_emits_guarded, (emits_weaken _ _ _ Hpre), get_node_before_server |].
  intros node. apply c_emits_bind;
    [apply c_emits_guarded, (emits_weaken _ _ _ Hpre), get_egg_before_server |].
  intros egg. apply c_emits_bind;
    [apply c_emits_guarded, (emits_weaken _ _ _ Hpre),
       panel_user_before_server |].
  intros [panel_user created_password].
  apply c_emits_bind; [apply c_emits_lift |]. intros uid0.
  apply c_emits_bind; [apply c_emits_lift |]. intros uid.
  apply c_emits_bind; [| intros server; apply c_emits_ret].
  apply c_emits_guarded.
  eapply emits_weaken; [| apply create_server_request].
  intros req E. cbv beta in E. subst req. split; [now right |].
  intros _. split; [exact Hok | now exists uid].
Qed.

(** X17: A user record without an [id] stops createserver with an uncaught
    error once node, egg and user are settled: no server is requested and no
    error embed is sent, although a user may just have been created. *)
Theorem createserver_needs_user_id :
  forall py_int_str panel name ram cpu disk version node_id egg_id user_id
         display_name tok tr node tr1 egg tr2 panel_user password tr3 c,
    resources_ok ram cpu disk = true ->
    get_node panel node_id tr = (Ok node, tr1) ->
    get_egg panel egg_id tr1 = (Ok egg, tr2) ->
    createserver_panel_user panel user_id display_name tok tr2
      = (Ok (panel_user, password), tr3) ->
    py_getitem panel_user "id" = Crashes c ->
    createserver_provision py_int_str panel name ram cpu disk version
      node_id egg_id user_id display_name tok tr
      = (Crashes c, tr3).
Proof.
  intros py_int_str panel name ram cpu disk version node_id egg_id user_id
    display_name tok tr node tr1 egg tr2 panel_user password tr3 c
    Hok Hnode Hegg Huser Hid.
  unfold resources_ok, ram_ok, cpu_ok, disk_ok in Hok.
  unfold createserver_provision.
  destruct ((ram <? 128) || (32768 <? ram)); [discriminate Hok |].
  destruct ((cpu <? 1) || (400 <? cpu)); [discriminate Hok |].
  destruct ((disk <? 100) || (1000000 <? disk)); [discriminate Hok |].
  unfold c_bind at 1, guarded at 1. rewrite Hnode.
  unfold c_bind at 1, guarded at 1. rewrite Hegg.
  unfold c_bind at 1, guarded at 1. rewrite Huser.
  unfold c_bind at 1, c_lift at 1. now rewrite Hid.
Qed.

Lemma createserver_needs_user_id_witness :
  createserver_provision int_of_decimal anonymous_panel
    "lobby" 1024 100 5000 "java17" 1 9 777 "Zed" sample_token []
    = (Crashes KeyError,
       [ mkRequest GET (Node 1) None true;
         mkRequest GET (Egg 9) None true;
         mkRequest GET (UsersByEmail "discord-777@local") None true ]).
Proof.
  apply (createserver_needs_user_id int_of_decimal anonymous_panel
           "lobby" 1024 100 5000
           "java17" 1 9 777 "Zed" sample_token []
           (JDict [ ("id", JInt 1); ("name", JStr "eu-1") ])
           [mkRequest GET (Node 1) None true]
           (JDict forge)
           [ mkRequest GET (Node 1) None true;
             mkRequest GET (Egg 9) None true ]
           (JDict [ ("username", JStr "zed") ]) None);
    reflexivity.
Defined.

Lemma create_server_trace panel n u e nd m c d v tr :
  snd (create_server panel n u e nd m c d v tr)
    = tr ++ [mkRequest POST Servers
               (Some (create_server_payload n u e nd m c d v)) true].
Proof.
  unfold create_server, session_post, r_text.
  apply send_then_silent. intros r. unfold silent. emits_steps.
Qed.

(** X24: Once node, egg and panel user are settled, createserver sends one
    more request, the creation of the server owned by the user whose [id] the
    settled record carries; the command goes on with the created server, the
    panel user and the password when the panel accepts, and answers with
    "Server creation failed: " and the client's message when it does not. *)
Theorem createserver_owner :
  forall py_int_str panel name ram cpu disk version node_id egg_id user_id
         display_name tok tr node tr1 egg tr2 panel_user password tr3 v uid,
    resources_ok ram cpu disk = true ->
    get_node panel node_id tr = (Ok node, tr1) ->
    get_egg panel egg_id tr1 = (Ok egg, tr2) ->
    createserver_panel_user panel user_id display_name tok tr2
      = (Ok (panel_user, password), tr3) ->
    py_getitem panel_user "id" = Goes_on v ->
    py_int py_int_str v = Goes_on uid ->
    snd (createserver_provision py_int_str panel name ram cpu disk version
           node_id egg_id user_id display_name tok tr)
      = tr3 ++ [mkRequest POST Servers
                  (Some (create_server_payload name uid egg_id node_id
                           ram cpu disk version))
                  true]
    /\ (forall server tr4,
          create_server panel name uid egg_id node_id ram cpu disk version tr3
            = (Ok server, tr4) ->
          fst (createserver_provision py_int_str panel name ram cpu disk
                 version node_id egg_id user_id display_name tok tr)
            = Goes_on (server, panel_user, password))
    /\ (forall msg tr4,
          create_server panel name uid egg_id node_id ram cpu disk version tr3
            = (Raise (PteroError msg), tr4) ->
          fst (createserver_provision py_int_str panel name ram cpu disk
                 version node_id egg_id user_id display_name tok tr)
            = Error_reply ("Server creation failed: " +++ msg)).
Proof.
  intros py_int_str panel name ram cpu disk version node_id egg_id user_id
    display_name tok tr node tr1 egg tr2 panel_user password tr3 v uid
    Hok Hnode Hegg Huser Hid Hint.
  assert (Hrun :
    createserver_provision py_int_str panel name ram cpu disk version
      node_id egg_id user_id display_name tok tr
    = (server <~ guarded "Server creation failed: "
                   (create_server panel name uid egg_id node_id ram cpu disk
                      version) ;;
       c_ret (server, panel_user, password)) tr3).
  { unfold resources_ok, ram_ok, cpu_ok, disk_ok in Hok.
    unfold createserver_provision.
    destruct ((ram <? 128) || (32768 <? ram)); [discriminate Hok |].
    destruct ((cpu <? 1) || (400 <? cpu)); [discriminate Hok |].
    destruct ((disk <? 100) || (1000000 <? disk)); [discriminate Hok |].
    unfold c_bind at 1, guarded at 1. rewrite Hnode.
    unfold c_bind at 1, guarded at 1. rewrite Hegg.
    unfold c_bind at 1, guarded at 1. rewrite Huser.
    unfold c_bind at 1, c_lift at 1. rewrite Hid.
    unfold c_bind at 1, c_lift at 1. rewrite Hint.
    reflexivity. }
  rewrite Hrun. unfold c_bind, guarded, c_ret.
  pose proof (create_server_trace panel name uid egg_id node_id ram cpu disk
                version tr3) as Htr.
  destruct (create_server panel name uid egg_id node_id ram cpu disk version
              tr3) as [[server|[msg| | | |]] tr4];
    simpl in Htr; subst tr4;
    (split; [reflexivity |]); split; intros x tr5 E;
    try discriminate E; injection E as <- _; reflexivity.
Qed.

Lemma createserver_owner_witness :
  createserver_provision int_of_decimal hosting_panel "lobby" 1024 100 5000
    "java17" 1 9 777 "Zed" sample_token []
    = (Goes_on (JDict [ ("id", JInt 21); ("identifier", JStr "0a1b2c3d") ],
                JDict bob, None),
       [ mkRequest GET (Node 1) None true;
         mkRequest GET (Egg 9) None true;
         mkRequest GET (UsersByEmail "discord-777@local") None true;
         mkRequest POST Servers
           (Some (create_server_payload "lobby" 4 9 1 1024 100 5000 "java17"))
           true ]).
Proof.
  destruct (createserver_owner int_of_decimal hosting_panel "lobby"
              1024 100 5000 "java17" 1 9 777 "Zed" sample_token []
              (JDict [ ("id", JInt 1); ("name", JStr "eu-1") ])
              [mkRequest GET (Node 1) None true]
              (JDict forge)
              [ mkRequest GET (Node 1) None true;
                mkRequest GET (Egg 9) None true ]
              (JDict bob) None
              [ mkRequest GET (Node 1) None true;
                mkRequest GET (Egg 9) None true;
                mkRequest GET (UsersByEmail "discord-777@local") None true ]
              (JInt 4) 4
              eq_refl eq_refl eq_refl eq_refl eq_refl eq_refl)
    as [Htrace [Hok _]].
  specialize (Hok (JDict [ ("id", JInt 21); ("identifier", JStr "0a1b2c3d") ])
                _ eq_refl).
  destruct (createserver_provision int_of_decimal hosting_panel "lobby" 1024
              100 5000 "java17" 1 9 777 "Zed" sample_token [])
    as [res tr'].
  simpl in Htrace, Hok. now subst.
Defined.

(** ** set_resources and change_password *)

Lemma guarded_trace {A} prefix (m : M A) tr :
  snd (guarded prefix m tr) = snd (m tr).
Proof.
  unfold guarded. destruct (m tr) as [[a|[msg| | | |]] tr1]; reflexivity.
Qed.

Lemma set_server_resources_trace panel sid ram cpu disk tr :
  snd (set_server_resources panel sid ram cpu disk tr)
    = tr ++ [build_request sid ram cpu disk].
Proof.
  unfold set_server_resources, session_patch, r_text, build_request.
  apply send_then_silent. intros r. unfold silent. emits_steps.
Qed.

(** X18: set_resources refuses resources out of range without a request;
    otherwise it sends exactly the one request that sets the limits, so
    every request the command sends asks for 128..32768 MB of memory,
    1..400 % of CPU and 100..1000000 MB of disk, with swap 0 and io 500. *)
Theorem set_resources_within_bounds :
  forall panel server_id ram cpu disk tr,
    (resources_ok ram cpu disk = false ->
     exists msg,
       set_resources_apply panel server_id ram cpu disk tr
         = (Error_reply msg, tr))
    /\ (resources_ok ram cpu disk = true ->
        snd (set_resources_apply panel server_id ram cpu disk tr)
          = tr ++ [build_request server_id ram cpu disk])
    /\ c_emits
         (fun req =>
            req = build_request server_id ram cpu disk
            /\ 128 <= ram <= 32768 /\ 1 <= cpu <= 400
            /\ 100 <= disk <= 1000000)
         (set_resources_apply panel server_id ram cpu disk).
Proof.
  intros panel server_id ram cpu disk tr.
  assert (Hcase : resources_ok ram cpu disk = false
                  \/ resources_ok ram cpu disk = true)
    by (destruct (resources_ok ram cpu disk); auto).
  unfold set_resources_apply.
  split; [| split].
  - intros H. unfold resources_ok, ram_ok, cpu_ok, disk_ok in H.
    destruct ((ram <? 128) || (32768 <? ram)); [now eexists |].
    destruct ((cpu <? 1) || (400 <? cpu)); [now eexists |].
    destruct ((disk <? 100) || (1000000 <? disk)); [now eexists |].
    discriminate H.
  - intros H. unfold resources_ok, ram_ok, cpu_ok, disk_ok in H.
    destruct ((ram <? 128) || (32768 <? ram)); [discriminate H |].
    destruct ((cpu <? 1) || (400 <? cpu)); [discriminate H |].
    destruct ((disk <? 100) || (1000000 <? disk)); [discriminate H |].
    rewrite guarded_trace. apply set_server_resources_trace.
  - destruct ((ram <? 128) || (32768 <? ram)) eqn:Hr; [apply c_emits_reply |].
    destruct ((cpu <? 1) || (400 <? cpu)) eqn:Hc; [apply c_emits_reply |].
    destruct ((disk <? 100) || (1000000 <? disk)) eqn:Hd;
      [apply c_emits_reply |].
    assert (Hok : 128 <= ram <= 32768 /\ 1 <= cpu <= 400
                  /\ 100 <= disk <= 1000000).
    { apply resources_ok_bounds. unfold resources_ok, ram_ok, cpu_ok, disk_ok.
      now rewrite Hr, Hc, Hd. }
    intros tr0. exists [build_request server_id ram cpu disk].
    rewrite guarded_trace, set_server_resources_trace.
    split; [reflexivity |]. constructor; [| constructor]. now split.
Qed.

Lemma set_resources_within_bounds_witness :
  (exists msg,
      set_resources_apply demo_panel "1a2b3c4d" 1024 401 5000 []
        = (Error_reply msg, []))
  /\ snd (set_resources_apply demo_panel "1a2b3c4d" 1024 400 5000 [])
     = [build_request "1a2b3c4d" 1024 400 5000].
Proof.
  split.
  - apply (proj1 (set_resources_within_bounds demo_panel "1a2b3c4d"
                    1024 401 5000 [])).
    reflexivity.
  - apply (proj1 (proj2 (set_resources_within_bounds demo_panel "1a2b3c4d"
                           1024 400 5000 []))).
    reflexivity.
Defined.

Lemma generate_password_length (tok : list byte) :
  String.length (generate_password tok (List.length tok)) = List.length tok.
Proof.
  unfold generate_password. rewrite token_urlsafe_body, str_take_length.
  pose proof (b64_body_length tok). lia.
Qed.

Lemma change_user_password_trace panel uid p tr :
  snd (change_user_password panel uid p tr) = tr ++ [reset_request uid p].
Proof.
  unfold change_user_password, session_post, r_text, reset_request.
  apply send_then_silent. intros r. unfold silent. emits_steps.
Qed.

(** X19: change_password never submits an empty password: an absent or empty
    [new_password] is replaced by a generated one of 16 characters.  The
    command sends exactly one reset request, with the password and its
    confirmation equal, and the password the reply shows is the one
    submitted; it is flagged as generated exactly when none was supplied. *)
Theorem change_password_never_empty :
  forall panel user_id new_password tok tr,
    List.length tok = 16%nat ->
    exists p,
      p <> ""
      /\ snd (change_password_apply panel user_id new_password tok tr)
         = tr ++ [reset_request user_id p]
      /\ (forall shown auto,
            fst (change_password_apply panel user_id new_password tok tr)
              = Goes_on (shown, auto) ->
            shown = p
            /\ (auto = true ->
                p = generate_password tok 16
                /\ (new_password = None \/ new_password = Some ""))
            /\ (auto = false -> new_password = Some p)).
Proof.
  intros panel user_id new_password tok tr Hlen.
  assert (Hgen : generate_password tok 16 <> "").
  { intros E. pose proof (generate_password_length tok) as L.
    rewrite Hlen, E in L. discriminate L. }
  assert (Hrun : forall (p : string) (auto : bool),
    snd ((done <~ guarded "Failed to change password: "
                    (change_user_password panel user_id p) ;;
          c_ret (p, auto)) tr)
      = tr ++ [reset_request user_id p]
    /\ forall shown auto',
         fst ((done <~ guarded "Failed to change password: "
                         (change_user_password panel user_id p) ;;
               c_ret (p, auto)) tr)
           = Goes_on (shown, auto') ->
         shown = p /\ auto' = auto).
  { intros p auto. unfold c_bind.
    pose proof (guarded_trace "Failed to change password: "
                  (change_user_password panel user_id p) tr) as Ht.
    rewrite change_user_password_trace in Ht.
    destruct (guarded "Failed to change password: "
                (change_user_password panel user_id p) tr) as [[a|d|c] tr1];
      simpl in Ht; subst tr1; (split; [reflexivity |]);
      simpl; intros shown auto' E; try discriminate E.
    injection E as <- <-. auto. }
  unfold change_password_apply.
  destruct new_password as [q|]; [destruct (String.eqb_spec q "") as [->|Hq] |].
  - exists (generate_password tok 16).
    destruct (Hrun (generate_password tok 16) true) as [Ht Hs].
    split; [exact Hgen | split; [exact Ht |]].
    intros shown auto E. destruct (Hs shown auto E) as [-> ->].
    repeat split; auto. discriminate.
  - exists q. destruct (Hrun q false) as [Ht Hs].
    split; [exact Hq | split; [exact Ht |]].
    intros shown auto E. destruct (Hs shown auto E) as [-> ->].
    repeat split; auto; discriminate.
  - exists (generate_password tok 16).
    destruct (Hrun (generate_password tok 16) true) as [Ht Hs].
    split; [exact Hgen | split; [exact Ht |]].
    intros shown auto E. destruct (Hs shown auto E) as [-> ->].
    repeat split; auto. discriminate.
Qed.

Lemma change_password_never_empty_witness :
  exists p,
    p <> ""
    /\ snd (change_password_apply demo_panel 4 (Some "") sample_token [])
       = [] ++ [reset_request 4 p]
    /\ (forall shown auto,
          fst (change_password_apply demo_panel 4 (Some "") sample_token [])
            = Goes_on (shown, auto) ->
          shown = p
          /\ (auto = true ->
              p = generate_password sample_token 16
              /\ (Some "" = None \/ Some "" = Some ""))
          /\ (auto = false -> Some "" = Some p)).
Proof.
  apply (change_password_never_empty demo_panel 4 (Some "") sample_token []).
  reflexivity.
Defined.

(** ** server_info *)

(** X20: server_info relies on the envelope get_server leaves in place: the name
    and the limits are read inside [attributes]; for a server object without
    [attributes] the limits are empty whatever the object contains, so no
    resources are shown; a result that is not an object makes the command
    fail with AttributeError. *)
Theorem server_info_reads_envelope :
  forall srv,
    (forall kv a,
        srv = JDict kv ->
        dict_lookup "name" kv = None ->
        dict_lookup "attributes" kv = Some (JDict a) ->
        server_info_view srv
          = Ok (match dict_lookup "name" a with
                | Some n => n
                | None => JStr "unknown"
                end,
                match dict_lookup "limits" a with
                | Some l => l
                | None => JDict []
                end))
    /\ (forall kv,
        srv = JDict kv ->
        dict_lookup "attributes" kv = None ->
        exists name, server_info_view srv = Ok (name, JDict []))
    /\ (is_object srv = false -> server_info_view srv = Raise AttributeError).
Proof.
  intros srv. split; [| split].
  - intros kv a -> Hn Ha. unfold server_info_view. cbn [py_get].
    rewrite Hn, Ha. cbn. reflexivity.
  - intros kv -> Ha. unfold server_info_view. cbn [py_get]. rewrite Ha.
    destruct (dict_lookup "name" kv) as [top|]; cbn.
    + destruct (truthy top); cbn; eexists; reflexivity.
    + eexists; reflexivity.
  - destruct srv; simpl; intros H; try discriminate H; reflexivity.
Qed.

Lemma server_info_reads_envelope_witness :
  server_info_view (entity "server" survival)
    = Ok (JStr "Survival", JDict [])
  /\ (exists name, server_info_view (JDict survival) = Ok (name, JDict []))
  /\ server_info_view JNull = Raise AttributeError.
Proof.
  destruct (server_info_reads_envelope (entity "server" survival))
    as [Henv _].
  destruct (server_info_reads_envelope (JDict survival)) as [_ [Hbare _]].
  destruct (server_info_reads_envelope JNull) as [_ [_ Hnull]].
  split; [| split].
  - apply (Henv _ survival eq_refl); reflexivity.
  - apply (Hbare survival eq_refl). reflexivity.
  - apply Hnull. reflexivity.
Defined.

(** * Properties of the administrators' list *)

Lemma decimal_digit_not_space (c : ascii) :
  is_decimal_digit c = true -> is_space c = false.
Proof. destruct c as [[] [] [] [] [] [] [] []]; vm_compute; congruence. Qed.

Lemma decimal_digit_not_comma (c : ascii) :
  is_decimal_digit c = true -> Ascii.eqb c ","%char = false.
Proof. destruct c as [[] [] [] [] [] [] [] []]; vm_compute; congruence. Qed.

Lemma decimal_digit_like (c : ascii) :
  is_decimal_digit c = true -> is_digit_like c = true.
Proof. destruct c as [[] [] [] [] [] [] [] []]; vm_compute; congruence. Qed.

Lemma uint_of_char_digit (c : ascii) (d : option uint) (u : uint) :
  uint_of_char c d = Some u -> is_decimal_digit c = true /\ d <> None.
Proof.
  destruct d as [d0|]; [| discriminate].
  destruct c as [[] [] [] [] [] [] [] []]; simpl; intros H;
    try discriminate H; split; (reflexivity || discriminate).
Qed.

Lemma uint_of_string_digits (s : string) (u : uint) :
  NilEmpty.uint_of_string s = Some u -> str_forallb is_decimal_digit s = true.
Proof.
  revert u. induction s as [|c s IH]; intros u H; [reflexivity |].
  simpl in H. destruct (uint_of_char_digit _ _ _ H) as [Hc Hd].
  destruct (NilEmpty.uint_of_string s) as [v|] eqn:E; [| contradiction].
  simpl. rewrite Hc. exact (IH v eq_refl).
Qed.

Lemma string_of_uint_digits (u : uint) :
  str_forallb is_decimal_digit (NilEmpty.string_of_uint u) = true.
Proof. induction u; simpl; auto. Qed.

(** The decimal form of a natural number: digits only, and read back as the
    number. *)
Lemma str_of_int_decimal (i : Z) :
  0 <= i ->
  str_of_int i <> ""
  /\ str_forallb is_decimal_digit (str_of_int i) = true
  /\ exists u, NilZero.uint_of_string (str_of_int i) = Some u
               /\ Z.of_uint u = i.
Proof.
  intros Hi. unfold str_of_int. destruct i as [|p|p]; [| | lia].
  - simpl. repeat split; [discriminate |]. now exists (D0 Nil).
  - cbn [Z.to_int NilZero.string_of_int].
    pose proof (DecimalPos.Unsigned.to_uint_nonnil p) as Hnn.
    assert (E : NilZero.string_of_uint (Pos.to_uint p)
                = NilEmpty.string_of_uint (Pos.to_uint p)).
    { destruct (Pos.to_uint p); [contradiction | reflexivity..]. }
    split; [| split].
    + rewrite E. destruct (Pos.to_uint p); [contradiction | discriminate..].
    + rewrite E. apply string_of_uint_digits.
    + exists (Pos.to_uint p). split; [now apply NilZero.usu |].
      unfold Z.of_uint. now rewrite DecimalPos.Unsigned.of_to.
Qed.

Lemma rstrip_space_digits (s : string) :
  str_forallb is_decimal_digit s = true -> str_rstrip_space s = s.
Proof.
  induction s as [|c s IH]; [reflexivity |].
  simpl. intros H. apply andb_true_iff in H. destruct H as [Hc Hs].
  rewrite (IH Hs). rewrite (decimal_digit_not_space c Hc).
  now destruct s.
Qed.

Lemma strip_digits (s : string) :
  str_forallb is_decimal_digit s = true -> str_strip s = s.
Proof.
  intros H. unfold str_strip. rewrite (rstrip_space_digits s H).
  destruct s as [|c s]; [reflexivity |].
  simpl in H |- *. apply andb_true_iff in H. destruct H as [Hc _].
  now rewrite (decimal_digit_not_space c Hc).
Qed.

Lemma strip_space_digits (s : string) :
  s <> "" -> str_forallb is_decimal_digit s = true ->
  str_strip (String " " s) = s.
Proof.
  intros Hne H. unfold str_strip. cbn [str_rstrip_space].
  rewrite (rstrip_space_digits s H).
  destruct s as [|c s]; [contradiction |].
  cbn [str_lstrip]. change (is_space " ") with true. cbv iota.
  simpl in H. apply andb_true_iff in H. destruct H as [Hc _].
  cbn [str_lstrip]. now rewrite (decimal_digit_not_space c Hc).
Qed.

Lemma split_not_nil (sep : ascii) (s : string) : str_split sep s <> [].
Proof.
  induction s as [|c s IH]; simpl; [discriminate |].
  destruct (Ascii.eqb c sep); [discriminate |].
  destruct (str_split sep s); [contradiction | discriminate].
Qed.

Lemma split_digits (s : string) :
  str_forallb is_decimal_digit s = true -> str_split ","%char s = [s].
Proof.
  induction s as [|c s IH]; [reflexivity |].
  simpl. intros H. apply andb_true_iff in H. destruct H as [Hc Hs].
  now rewrite (decimal_digit_not_comma c Hc), (IH Hs).
Qed.

Lemma split_digits_comma (s rest : string) :
  str_forallb is_decimal_digit s = true ->
  str_split ","%char (s +++ String "," rest) = s :: str_split ","%char rest.
Proof.
  induction s as [|c s IH]; [reflexivity |].
  simpl. intros H. apply andb_true_iff in H. destruct H as [Hc Hs].
  now rewrite (decimal_digit_not_comma c Hc), (IH Hs).
Qed.

Lemma split_join_digits (t : string) (ts : list string) :
  Forall (fun s => str_forallb is_decimal_digit s = true) (t :: ts) ->
  str_split ","%char (str_join ", " (t :: ts)) = t :: map (String " ") ts.
Proof.
  revert t. induction ts as [|q ts IH]; intros t H.
  - simpl. apply split_digits. now inversion H.
  - inversion H as [|? ? Ht Hrest]; subst.
    change (str_join ", " (t :: q :: ts))
      with (t +++ String "," (String " " (str_join ", " (q :: ts)))).
    rewrite (split_digits_comma t _ Ht).
    cbn [str_split]. change (Ascii.eqb " " ",") with false. cbv iota.
    now rewrite (IH q Hrest).
Qed.

Lemma admin_predicate_in (ids : list Z) (u : Z) :
  admin_predicate ids u = true <-> In u ids.
Proof.
  unfold admin_predicate. rewrite existsb_exists. split.
  - intros [x [Hx E]]. apply Z.eqb_eq in E. now subst.
  - intros H. exists u. split; [exact H | apply Z.eqb_refl].
Qed.

Section AdminList.

Variable py_int_str : string -> option Z.

(** X21: Whoever is admitted was written in the variable as a token of digits:
    a token with a sign, a letter or an inner space admits nobody, and a
    variable that is unset, empty or without any token of digits leaves the
    list empty, so that the check refuses everybody. *)
Theorem admins_come_from_digit_tokens :
  forall env ids,
    ADMIN_IDS py_int_str env = Some ids ->
    (forall u,
        admin_predicate ids u = true ->
        exists token,
          In token (str_split ","%char
                      (match env with Some v => v | None => "" end))
          /\ str_isdigit (str_strip token) = true
          /\ py_int_str (str_strip token) = Some u)
    /\ (Forall (fun token => str_isdigit (str_strip token) = false)
          (str_split ","%char (match env with Some v => v | None => "" end)) ->
        ids = [] /\ forall u, admin_predicate ids u = false).
Proof.
  intros env ids. unfold ADMIN_IDS.
  generalize (str_split ","%char (match env with Some v => v | None => "" end)).
  intros tokens. revert ids.
  induction tokens as [|x tokens IH]; intros ids H; simpl in H.
  - injection H as <-. split.
    + intros u Hu. discriminate Hu.
    + intros _. split; [reflexivity | reflexivity].
  - destruct (str_isdigit (str_strip x)) eqn:Hx.
    + destruct (py_int_str (str_strip x)) as [n|] eqn:Hn; [| discriminate H].
      destruct (admin_ids_of_tokens py_int_str tokens) as [ns|];
        [| discriminate H].
      injection H as <-. destruct (IH ns eq_refl) as [IH1 _]. split.
      * intros u Hu. apply admin_predicate_in in Hu.
        destruct Hu as [<- | Hu].
        -- exists x. repeat split; auto. now left.
        -- apply admin_predicate_in in Hu.
           destruct (IH1 u Hu) as [token [Hin [Hd Hp]]].
           exists token. repeat split; auto. now right.
      * intros Hall. inversion Hall as [|? ? Hx' _]. congruence.
    + destruct (IH ids H) as [IH1 IH2]. split.
      * intros u Hu. destruct (IH1 u Hu) as [token [Hin [Hd Hp]]].
        exists token. repeat split; auto. now right.
      * intros Hall. inversion Hall. auto.
Qed.

(** X22: A token that consists of digits for [isdigit] but that [int] cannot
    read (a superscript two, for instance) makes the import of the module
    fail: there is no list of administrators at all. *)
Theorem unreadable_digits_stop_the_import :
  forall env token,
    In token (str_split ","%char (match env with Some v => v | None => "" end)) ->
    str_isdigit (str_strip token) = true ->
    py_int_str (str_strip token) = None ->
    ADMIN_IDS py_int_str env = None.
Proof.
  intros env token. unfold ADMIN_IDS.
  generalize (str_split ","%char (match env with Some v => v | None => "" end)).
  intros tokens. induction tokens as [|x tokens IH]; intros Hin Hd Hp.
  - destruct Hin.
  - simpl. destruct Hin as [-> | Hin].
    + now rewrite Hd, Hp.
    + rewrite (IH Hin Hd Hp).
      destruct (str_isdigit (str_strip x)); [| reflexivity].
      destruct (py_int_str (str_strip x)); reflexivity.
Qed.

(** [int] reads a string of at most 640 decimal digits as its value. *)
Hypothesis py_int_str_decimal :
  forall s u,
    NilZero.uint_of_string s = Some u ->
    (String.length s <= 640)%nat ->
    py_int_str s = Some (Z.of_uint u).

Lemma admin_token_read (token : string) (i : Z) :
  0 <= i ->
  (String.length (str_of_int i) <= 640)%nat ->
  str_strip token = str_of_int i ->
  str_isdigit (str_strip token) = true
  /\ py_int_str (str_strip token) = Some i.
Proof.
  intros Hi Hlen ->.
  destruct (str_of_int_decimal i Hi) as [Hne [Hdig [u [Hu Hval]]]].
  split.
  - unfold str_isdigit. apply andb_true_iff. split.
    + apply negb_true_iff. now apply String.eqb_neq.
    + clear - Hdig. induction (str_of_int i) as [|c s IH]; [reflexivity |].
      simpl in *. apply andb_true_iff in Hdig. destruct Hdig as [Hc Hs].
      now rewrite (decimal_digit_like c Hc), (IH Hs).
  - rewrite (py_int_str_decimal _ u Hu Hlen). now rewrite Hval.
Qed.

Lemma admin_tokens_read (tokens : list string) (ids : list Z) :
  Forall2 (fun token i =>
             0 <= i /\ (String.length (str_of_int i) <= 640)%nat
             /\ str_strip token = str_of_int i) tokens ids ->
  admin_ids_of_tokens py_int_str tokens = Some ids.
Proof.
  induction 1 as [|token i tokens ids [Hi [Hlen Hs]] _ IH]; [reflexivity |].
  simpl. destruct (admin_token_read token i Hi Hlen Hs) as [Hd Hp].
  now rewrite Hd, Hp, IH.
Qed.

(** X23: Writing the ids of the administrators in decimal, separated by a comma
    and a space, gives a variable from which exactly these ids are read
    back: the check then admits a user exactly when the id is one of
    them. *)
Theorem admin_ids_round_trip :
  forall ids,
    Forall (fun i => 0 <= i /\ (String.length (str_of_int i) <= 640)%nat) ids ->
    ADMIN_IDS py_int_str (Some (str_join ", " (map str_of_int ids))) = Some ids
    /\ forall u, admin_predicate ids u = true <-> In u ids.
Proof.
  intros ids Hids. split; [| intros u; apply admin_predicate_in].
  unfold ADMIN_IDS. destruct ids as [|i ids]; [reflexivity |].
  cbn [map]. rewrite split_join_digits.
  - apply admin_tokens_read.
    inversion Hids as [|? ? [Hi Hlen] Hrest]; subst.
    constructor.
    + repeat split; auto. apply strip_digits.
      now destruct (str_of_int_decimal i Hi) as [_ [Hd _]].
    + clear - Hrest. induction ids as [|j ids IH]; [constructor |].
      inversion Hrest as [|? ? [Hj Hlen] Hr]; subst.
      cbn [map]. constructor; [| now apply IH].
      destruct (str_of_int_decimal j Hj) as [Hne [Hd _]].
      repeat split; auto. now apply strip_space_digits.
  - change (str_of_int i :: map str_of_int ids) with (map str_of_int (i :: ids)).
    apply Forall_map. eapply Forall_impl; [| exact Hids].
    intros j [Hj _]. now destruct (str_of_int_decimal j Hj) as [_ [Hd _]].
Qed.

End AdminList.

Lemma int_of_decimal_reads (s : string) (u : uint) :
  NilZero.uint_of_string s = Some u ->
  (String.length s <= 640)%nat ->
  int_of_decimal s = Some (Z.of_uint u).
Proof.
  intros Hu _. unfold int_of_decimal, decimal_value. rewrite Hu.
  destruct s as [|c s]; [discriminate Hu |].
  cbn [NilZero.uint_of_string] in Hu.
  now rewrite (uint_of_string_digits _ _ Hu).
Qed.

Lemma admins_come_from_digit_tokens_witness :
  ADMIN_IDS int_of_decimal (Some "12, 007 ,x, -5,,4 2, 99 ") = Some [12; 7; 99]
  /\ (exists token,
        In token (str_split ","%char "12, 007 ,x, -5,,4 2, 99 ")
        /\ str_isdigit (str_strip token) = true
        /\ int_of_decimal (str_strip token) = Some 7)
  /\ ADMIN_IDS int_of_decimal None = Some []
  /\ (forall u, admin_predicate [] u = false).
Proof.
  split; [reflexivity |]. split.
  - apply (proj1 (admins_come_from_digit_tokens int_of_decimal
                    (Some "12, 007 ,x, -5,,4 2, 99 ") [12; 7; 99] eq_refl) 7).
    reflexivity.
  - split; [reflexivity |].
    apply (proj2 (admins_come_from_digit_tokens int_of_decimal None []
                    eq_refl)).
    repeat constructor.
Defined.

Lemma unreadable_digits_stop_the_import_witness :
  ADMIN_IDS int_of_decimal (Some (String "1" (String "," (String (ascii_of_nat 178) ""))))
    = None.
Proof.
  apply (unreadable_digits_stop_the_import int_of_decimal
           (Some (String "1" (String "," (String (ascii_of_nat 178) ""))))
           (String (ascii_of_nat 178) ""));
    [right; left; reflexivity | reflexivity | reflexivity].
Defined.

Lemma admin_ids_round_trip_witness :
  ADMIN_IDS int_of_decimal (Some "731520870912, 0, 42") = Some [731520870912; 0; 42]
  /\ forall u, admin_predicate [731520870912; 0; 42] u = true
               <-> In u [731520870912; 0; 42].
Proof.
  apply (admin_ids_round_trip int_of_decimal int_of_decimal_reads
           [731520870912; 0; 42]).
  repeat constructor; simpl; lia.
Defined.
